(** * Flux (Kora Rent Guardian): the Judge, the Scanner's reconciliation and
    the Executioner, embedded from [src/lib/judge.ts], [src/lib/scanner.ts],
    [src/lib/executioner.ts] and [src/lib/config.ts].

    JavaScript numbers are IEEE 754 binary64 values; they are modelled by
    Rocq's primitive floats, so every comparison and every arithmetic
    operation below is the one the program performs, rounding and NaN
    included.  A [Date] is modelled by its time value (milliseconds since the
    epoch, as returned by [getTime()]).  The database tables are modelled as
    the program sees them through Prisma: rows of [sponsoredAccount] in table
    order, [settings] and [whitelist] as finite maps on their unique key, and
    [activityLog] as an append-only list. *)

From Stdlib Require Import ZArith Floats.
From stdpp Require Import base option list strings gmap.

Local Open Scope Z_scope.

(* ===================================================================== *)
(** ** JavaScript number primitives used by the program                  *)
(* ===================================================================== *)

Module JS.

(** The Number value for a mathematical integer (round to nearest, ties to
    even). *)
Definition number_of_Z (z : Z) : float :=
  SF2Prim (binary_normalize prec emax z 0 false).

(** [ToBoolean] on a Number: [0], [-0] and [NaN] are falsy. *)
Definition truthy (x : float) : bool :=
  negb (PrimFloat.is_zero x || PrimFloat.is_nan x).

(** [x || d] on Numbers. *)
Definition or_default (x d : float) : float :=
  if truthy x then x else d.

(** [x === 0] on Numbers (true for [0] and [-0]). *)
Definition strict_eq_zero (x : float) : bool := PrimFloat.eqb x 0%float.

(** [Math.max(a, b)]: NaN if either argument is NaN, and [+0] is larger
    than [-0]. *)
Definition Math_max (a b : float) : float :=
  if PrimFloat.is_nan a || PrimFloat.is_nan b then PrimFloat.nan
  else if PrimFloat.ltb a b then b
  else if PrimFloat.ltb b a then a
  else if PrimFloat.get_sign a then b else a.

(** [Math.floor] and [Math.ceil].  A finite value [(-1)^s * m * 2^e] with
    [e >= 0] is an integer already; otherwise the quotient of [m] by
    [2^(-e)] is below [2^53] and converts exactly. *)
Definition Math_floor (x : float) : float :=
  match Prim2SF x with
  | S754_finite s m e =>
      if 0 <=? e then x
      else
        let q := Z.shiftr (Zpos m) (- e) in
        let exact := Z.shiftl q (- e) =? Zpos m in
        if s then number_of_Z (- (if exact then q else q + 1))
        else if q =? 0 then 0%float else number_of_Z q
  | _ => x
  end.

Definition Math_ceil (x : float) : float :=
  match Prim2SF x with
  | S754_finite s m e =>
      if 0 <=? e then x
      else
        let q := Z.shiftr (Zpos m) (- e) in
        let exact := Z.shiftl q (- e) =? Zpos m in
        if s then (if q =? 0 then (-0)%float else number_of_Z (- q))
        else number_of_Z (if exact then q else q + 1)
  | _ => x
  end.

(** Strings are sequences of UTF-8 bytes.  [StrWhiteSpaceChar] of
    ECMAScript: TAB, LF, VT, FF, CR, SP, U+00A0, U+1680, U+2000..U+200A,
    U+2028, U+2029, U+202F, U+205F, U+3000 and U+FEFF. *)
Fixpoint skip_white_space (s : string) : string :=
  match s with
  | String c rest =>
      let n := Z.of_N (Ascii.N_of_ascii c) in
      if (n =? 9) || (n =? 10) || (n =? 11) || (n =? 12) || (n =? 13)
         || (n =? 32) then skip_white_space rest
      else
        match rest with
        | String c2 rest2 =>
            let n2 := Z.of_N (Ascii.N_of_ascii c2) in
            if (n =? 194) && (n2 =? 160) then skip_white_space rest2
            else
              match rest2 with
              | String c3 rest3 =>
                  let n3 := Z.of_N (Ascii.N_of_ascii c3) in
                  if ((n =? 225) && (n2 =? 154) && (n3 =? 128))
                     || ((n =? 226) && (n2 =? 128)
                         && (((128 <=? n3) && (n3 <=? 138))
                             || (n3 =? 168) || (n3 =? 169) || (n3 =? 175)))
                     || ((n =? 226) && (n2 =? 129) && (n3 =? 159))
                     || ((n =? 227) && (n2 =? 128) && (n3 =? 128))
                     || ((n =? 239) && (n2 =? 187) && (n3 =? 191))
                  then skip_white_space rest3
                  else s
              | EmptyString => s
              end
        | EmptyString => s
        end
  | EmptyString => s
  end.

(** The longest prefix of decimal digits, most significant first, as the
    integer it denotes ([None] when the prefix is empty). *)
Fixpoint decimal_prefix (acc : option Z) (s : string) : option Z :=
  match s with
  | String c rest =>
      let n := Z.of_N (Ascii.N_of_ascii c) in
      if (48 <=? n) && (n <=? 57)
      then decimal_prefix (Some (10 * default 0 acc + (n - 48))) rest
      else acc
  | EmptyString => acc
  end.

(** [parseInt(s, 10)]. *)
Definition parseInt10 (s : string) : float :=
  let s1 := skip_white_space s in
  let '(negative, s2) :=
    match s1 with
    | String c rest =>
        let n := Z.of_N (Ascii.N_of_ascii c) in
        if n =? 45 then (true, rest)            (* "-" *)
        else if n =? 43 then (false, rest)      (* "+" *)
        else (false, s1)
    | EmptyString => (false, s1)
    end in
  match decimal_prefix None s2 with
  | None => PrimFloat.nan
  | Some 0 => if negative then (-0)%float else 0%float
  | Some z => number_of_Z (if negative then - z else z)
  end.

End JS.

(* ===================================================================== *)
(** ** config.ts                                                          *)
(* ===================================================================== *)

Definition TX_FEE_LAMPORTS : float := 5000%float.
Definition LAMPORTS_PER_SOL : float := 1000000000%float.

(* ===================================================================== *)
(** ** judge.ts: types and constants                                      *)
(* ===================================================================== *)

(** The [status] column of a sponsored account. *)
Inductive Status :=
  | ACTIVE | PROTECTED | ELIGIBLE | SKIP | WHITELISTED | RECLAIMED.

#[global] Instance Status_eq_dec : EqDecision Status.
Proof. solve_decision. Defined.

Definition Status_name (s : Status) : string :=
  match s with
  | ACTIVE => "ACTIVE" | PROTECTED => "PROTECTED" | ELIGIBLE => "ELIGIBLE"
  | SKIP => "SKIP" | WHITELISTED => "WHITELISTED" | RECLAIMED => "RECLAIMED"
  end.

(** [JudgmentStatus]: the five outcomes of the Judge. *)
Inductive JudgmentStatus :=
  | J_ELIGIBLE | J_SKIP | J_PROTECTED | J_ACTIVE | J_WHITELISTED.

#[global] Instance JudgmentStatus_eq_dec : EqDecision JudgmentStatus.
Proof. solve_decision. Defined.

(** A [JudgmentStatus] written to the [status] column. *)
Definition as_Status (j : JudgmentStatus) : Status :=
  match j with
  | J_ELIGIBLE => ELIGIBLE | J_SKIP => SKIP | J_PROTECTED => PROTECTED
  | J_ACTIVE => ACTIVE | J_WHITELISTED => WHITELISTED
  end.

Inductive FailedCheck := PROFIT | USER_FUNDS | AGE | WHITELIST.

(** A template literal: its fixed pieces and its interpolated numbers.  The
    Number-to-String conversions of the runtime ([toFixed], [ToString]) are
    kept symbolic. *)
Inductive Piece :=
  | Lit (s : string)
  | Fixed (x : float) (digits : nat)   (* x.toFixed(digits) *)
  | Num (x : float).                    (* `${x}` *)

Definition Text := list Piece.

Record JudgmentResult := mkJudgment {
  j_status : JudgmentStatus;
  j_reason : Text;
  j_failedCheck : option FailedCheck;
  j_address : string;
  j_balance : float;
  j_potentialRecovery : float;
}.

(** A row of [sponsoredAccount]; [AccountForJudgment] is this row without
    [detectedAt]. *)
Record SponsoredAccount := mkAccount {
  address : string;
  balance : float;
  rentExemptMin : float;
  lastActivity : float;
  status : Status;
  detectedAt : float;
}.

Record JudgmentSettings := mkSettings {
  minAgeDays : float;
  dryRunMode : bool;
}.

Definition DEFAULT_MIN_AGE_DAYS : float := 30%float.
Definition TX_FEE_SOL : float := PrimFloat.div TX_FEE_LAMPORTS LAMPORTS_PER_SOL.
Definition USER_FUND_TOLERANCE : float := 1.01%float.

(** [1000 * 60 * 60 * 24] *)
Definition MS_PER_DAY : float :=
  PrimFloat.mul (PrimFloat.mul (PrimFloat.mul 1000 60) 60) 24.

(** [whitelist.includes(address)] *)
Definition includes (whitelist : list string) (a : string) : bool :=
  existsb (String.eqb a) whitelist.

(* ===================================================================== *)
(** ** judge.ts: [judgeAccount]                                           *)
(* ===================================================================== *)

Definition accountAgeDays (now : float) (account : SponsoredAccount) : float :=
  PrimFloat.div (PrimFloat.sub now (lastActivity account)) MS_PER_DAY.

(** [now] is the value [Date.now()] returns when the age check reads the
    clock. *)
Definition judgeAccount (now : float) (account : SponsoredAccount)
    (settings : JudgmentSettings) (whitelist : list string) : JudgmentResult :=
  let potentialRecovery :=
    JS.Math_max 0 (PrimFloat.sub (balance account) TX_FEE_SOL) in
  if PrimFloat.leb (balance account) TX_FEE_SOL then
    {| j_status := J_SKIP;
       j_reason :=
         [Lit "Skipped: Balance ("; Fixed (balance account) 9;
          Lit " SOL) is less than transaction fee ("; Num TX_FEE_SOL;
          Lit " SOL) - not profitable to reclaim"];
       j_failedCheck := Some PROFIT;
       j_address := address account;
       j_balance := balance account;
       j_potentialRecovery := 0%float |}
  else if PrimFloat.ltb
            (PrimFloat.mul (rentExemptMin account) USER_FUND_TOLERANCE)
            (balance account) then
    let excessFunds := PrimFloat.sub (balance account) (rentExemptMin account) in
    {| j_status := J_PROTECTED;
       j_reason :=
         [Lit "Protected: Balance ("; Fixed (balance account) 6;
          Lit " SOL) exceeds rent minimum ("; Fixed (rentExemptMin account) 6;
          Lit " SOL) by "; Fixed excessFunds 6;
          Lit " SOL - account contains user funds"];
       j_failedCheck := Some USER_FUNDS;
       j_address := address account;
       j_balance := balance account;
       j_potentialRecovery := potentialRecovery |}
  else
    let ageDays := accountAgeDays now account in
    let minAge := JS.or_default (minAgeDays settings) DEFAULT_MIN_AGE_DAYS in
    if PrimFloat.ltb ageDays minAge then
      let daysRemaining := JS.Math_ceil (PrimFloat.sub minAge ageDays) in
      {| j_status := J_ACTIVE;
         j_reason :=
           [Lit "Active: Account age ("; Num (JS.Math_floor ageDays);
            Lit " days) is less than minimum ("; Num minAge;
            Lit " days) - wait "; Num daysRemaining; Lit " more days"];
         j_failedCheck := Some AGE;
         j_address := address account;
         j_balance := balance account;
         j_potentialRecovery := potentialRecovery |}
    else if includes whitelist (address account) then
      {| j_status := J_WHITELISTED;
         j_reason :=
           [Lit "Whitelisted: Account is explicitly protected by operator - will never be reclaimed"];
         j_failedCheck := Some WHITELIST;
         j_address := address account;
         j_balance := balance account;
         j_potentialRecovery := potentialRecovery |}
    else
      {| j_status := J_ELIGIBLE;
         j_reason :=
           [Lit "Eligible: Account passed all safety checks - ";
            Fixed ageDays 0;
            Lit " days old, balance equals rent minimum, ready to reclaim ";
            Fixed potentialRecovery 6; Lit " SOL"];
         j_failedCheck := None;
         j_address := address account;
         j_balance := balance account;
         j_potentialRecovery := potentialRecovery |}.

(** The three comparisons of the verification chain, as [judgeAccount]
    writes them: [balance <= TX_FEE_SOL],
    [balance > rentExemptMin * USER_FUND_TOLERANCE] and
    [accountAgeDays < minAgeDays]. *)
Definition unprofitable (account : SponsoredAccount) : bool :=
  PrimFloat.leb (balance account) TX_FEE_SOL.
Definition holds_user_funds (account : SponsoredAccount) : bool :=
  PrimFloat.ltb (PrimFloat.mul (rentExemptMin account) USER_FUND_TOLERANCE)
                (balance account).
Definition too_recent (now : float) (account : SponsoredAccount)
    (settings : JudgmentSettings) : bool :=
  PrimFloat.ltb (accountAgeDays now account)
                (JS.or_default (minAgeDays settings) DEFAULT_MIN_AGE_DAYS).

(* ===================================================================== *)
(** ** The Store (Prisma), the Ledger Gateway and the clock               *)
(* ===================================================================== *)

Inductive LogAction := LOG_SCAN | LOG_RECLAIM | LOG_SKIP.
Inductive Mode := REAL | SIMULATION.

#[global] Instance LogAction_eq_dec : EqDecision LogAction.
Proof. solve_decision. Defined.
#[global] Instance Mode_eq_dec : EqDecision Mode.
Proof. solve_decision. Defined.

(** A row of [activityLog], without the columns the database fills in
    ([id], [timestamp]). *)
Record ActivityLog := mkLog {
  log_action : LogAction;
  log_account : string;
  log_amount : float;
  log_mode : Mode;
  log_reason : Text;
  log_txSignature : option string;
}.

Record Store := mkStore {
  sponsoredAccount : list SponsoredAccount;     (* unique on [address] *)
  whitelist : gmap string (option string);      (* address -> note *)
  settings : gmap string string;                (* key -> value *)
  activityLog : list ActivityLog;               (* oldest first *)
}.

(** Requests sent to the RPC node, oldest first. *)
Inductive GatewayCall :=
  | GetSignaturesForAddress (pubkey : string) (limit : nat)
  | GetParsedTransaction (signature : string)
  | GetBalance (pubkey : string)
  | GetAccountInfo (pubkey : string)
  | GetMinimumBalanceForRentExemption (dataLength : float)
  | SendAndConfirmTransaction (fromPubkey toPubkey : string) (lamports : float).

Definition is_write (c : GatewayCall) : bool :=
  match c with SendAndConfirmTransaction _ _ _ => true | _ => false end.

Record World := mkWorld {
  db : Store;
  tick : nat;                     (* number of clock reads and RPC calls so far *)
  calls : list GatewayCall;
}.

(** A thrown value: an [Error] with its message, or anything else. *)
Inductive Thrown := JsError (message : string) | NonError.

Inductive Outcome (A : Type) :=
  | Ok (a : A)
  | Throw (e : Thrown).
Arguments Ok {A} a.
Arguments Throw {A} e.

(** An entry of [getSignaturesForAddress]: [err] tells whether the ledger
    marked the transaction failed, [blockTime] is in seconds. *)
Record ConfirmedSignatureInfo := mkSignature {
  sig_signature : string;
  sig_err : bool;
  sig_blockTime : option float;
}.

(** The [info] object of a parsed System Program instruction; an absent
    [space] is [None]. *)
Record InstructionInfo := mkInfo {
  i_source : string;
  i_newAccount : string;
  i_lamports : float;
  i_space : option float;
}.

(** An entry of [tx.transaction.message.instructions]: without a [parsed]
    field, or parsed with its [program], [parsed.type] and [parsed.info]
    ([None] when [parsed] or [parsed.info] is missing). *)
Inductive Instruction :=
  | PartiallyDecoded
  | ParsedInstruction (program type : string) (info : option InstructionInfo).

(** What the program does not control: the process environment, the clock
    and the answers of the RPC node, each indexed by the moment of the
    request. *)
Record Env := mkEnv {
  OPERATOR_PRIVATE_KEY : option string;        (* process.env *)
  SOLANA_RPC_URL : option string;              (* process.env *)
  Date_now : nat -> float;
  (* new PublicKey(address) throws on a malformed address *)
  PublicKey_ok : string -> bool;
  (* what it throws then: the decoder's error or the constructor's own *)
  PublicKey_error : string -> Thrown;
  (* Keypair.fromSecretKey(bs58.decode(key)).publicKey, or the error thrown *)
  Keypair_fromSecretKey : string -> Outcome string;
  getSignaturesForAddress : nat -> string -> nat -> Outcome (list ConfirmedSignatureInfo);
  (* the instructions of the transaction, [None] when the node has none *)
  getParsedTransaction : nat -> string -> Outcome (option (list Instruction));
  getBalance : nat -> string -> Outcome float;
  (* lamports and data.length, [None] when the account does not exist *)
  getAccountInfo : nat -> string -> Outcome (option (float * float));
  getMinimumBalanceForRentExemption : nat -> float -> Outcome float;
  sendAndConfirmTransaction : nat -> string -> string -> float -> Outcome string;
}.

(** [process.env.X || fallback]: an unset or empty variable is falsy. *)
Definition env_or {A} (v : option string) (some : string -> A) (none : A) : A :=
  match v with
  | Some s => if decide (s = "") then none else some s
  | None => none
  end.

Definition DEVNET : string := "https://api.devnet.solana.com".

Definition config_operatorPrivateKey (env : Env) : option string :=
  env_or (OPERATOR_PRIVATE_KEY env) Some None.
Definition config_rpcUrl (env : Env) : string :=
  env_or (SOLANA_RPC_URL env) id DEVNET.
Definition config_isMockMode (env : Env) : bool :=
  match config_operatorPrivateKey env with Some _ => false | None => true end.

(** The monad of the asynchronous functions: state passing over the world,
    with exceptions. *)
Definition M (A : Type) : Type := World -> Outcome A * World.

Definition ret {A} (a : A) : M A := fun w => (Ok a, w).
Definition throw {A} (e : Thrown) : M A := fun w => (Throw e, w).
Definition bind {A B} (m : M A) (k : A -> M B) : M B :=
  fun w => match m w with
           | (Ok a, w') => k a w'
           | (Throw e, w') => (Throw e, w')
           end.
Definition try_catch {A} (m : M A) (handler : Thrown -> M A) : M A :=
  fun w => match m w with
           | (Ok a, w') => (Ok a, w')
           | (Throw e, w') => handler e w'
           end.

Declare Scope exec_scope.
Delimit Scope exec_scope with exec.
Notation "x <- m ;; k" := (bind m (fun x => k))
  (at level 100, m at next level, right associativity) : exec_scope.
Notation "m ;; k" := (bind m (fun _ => k))
  (at level 100, right associativity) : exec_scope.
Local Open Scope exec_scope.

Definition modify_db (f : Store -> Store) : M unit :=
  fun w => (Ok tt, mkWorld (f (db w)) (tick w) (calls w)).
Definition read_db {A} (f : Store -> A) : M A :=
  fun w => (Ok (f (db w)), w).

(** Row updates ([data: { ... }] of Prisma). *)
Definition set_status (s : Status) (a : SponsoredAccount) : SponsoredAccount :=
  mkAccount (address a) (balance a) (rentExemptMin a) (lastActivity a) s
            (detectedAt a).
Definition set_balance (b : float) (a : SponsoredAccount) : SponsoredAccount :=
  mkAccount (address a) b (rentExemptMin a) (lastActivity a) (status a)
            (detectedAt a).
Definition set_lastActivity (t : float) (a : SponsoredAccount) : SponsoredAccount :=
  mkAccount (address a) (balance a) (rentExemptMin a) t (status a)
            (detectedAt a).

Definition with_accounts (f : list SponsoredAccount -> list SponsoredAccount)
    (s : Store) : Store :=
  mkStore (f (sponsoredAccount s)) (whitelist s) (settings s) (activityLog s).
Definition with_whitelist
    (f : gmap string (option string) -> gmap string (option string))
    (s : Store) : Store :=
  mkStore (sponsoredAccount s) (f (whitelist s)) (settings s) (activityLog s).
Definition with_log (f : list ActivityLog -> list ActivityLog)
    (s : Store) : Store :=
  mkStore (sponsoredAccount s) (whitelist s) (settings s) (f (activityLog s)).

Module prisma.

Definition has_address (addr : string) (a : SponsoredAccount) : bool :=
  String.eqb (address a) addr.

(** [sponsoredAccount.findUnique({ where: { address } })] *)
Definition lookup_account (addr : string) (rows : list SponsoredAccount)
    : option SponsoredAccount :=
  List.find (has_address addr) rows.

Definition sponsoredAccount_findUnique (addr : string)
    : M (option SponsoredAccount) :=
  read_db (fun s => lookup_account addr (sponsoredAccount s)).

(** [sponsoredAccount.findMany({ where })] and [findMany()] *)
Definition sponsoredAccount_findMany (where_ : SponsoredAccount -> bool)
    : M (list SponsoredAccount) :=
  read_db (fun s => List.filter where_ (sponsoredAccount s)).

(** The row with the given address replaced by its update. *)
Fixpoint update_row (addr : string) (f : SponsoredAccount -> SponsoredAccount)
    (rows : list SponsoredAccount) : list SponsoredAccount :=
  match rows with
  | [] => []
  | a :: rest =>
      if has_address addr a then f a :: rest
      else a :: update_row addr f rest
  end.

(** [sponsoredAccount.update({ where: { address }, data })]: rejects when no
    row has the address. *)
Definition sponsoredAccount_update (addr : string)
    (data : SponsoredAccount -> SponsoredAccount) : M unit :=
  fun w =>
    match lookup_account addr (sponsoredAccount (db w)) with
    | Some _ => modify_db (with_accounts (update_row addr data)) w
    | None => (Throw (JsError "Record to update not found."), w)
    end.

(** [sponsoredAccount.updateMany({ where: { address }, data })] *)
Definition sponsoredAccount_updateMany (addr : string)
    (data : SponsoredAccount -> SponsoredAccount) : M unit :=
  modify_db (with_accounts
    (List.map (fun a => if has_address addr a then data a else a))).

(** [sponsoredAccount.create({ data })]: rejects on the unique constraint. *)
Definition sponsoredAccount_create (row : SponsoredAccount) : M unit :=
  fun w =>
    match lookup_account (address row) (sponsoredAccount (db w)) with
    | Some _ =>
        (Throw (JsError "Unique constraint failed on the fields: (`address`)"), w)
    | None => modify_db (with_accounts (fun rows => rows ++ [row])) w
    end.

Definition sponsoredAccount_count : M nat :=
  read_db (fun s => length (sponsoredAccount s)).

(** [activityLog.create({ data })] *)
Definition activityLog_create (entry : ActivityLog) : M unit :=
  modify_db (with_log (fun l => l ++ [entry])).

(** [whitelist.findMany()] followed by [.map(w => w.address)] *)
Definition whitelist_addresses : M (list string) :=
  read_db (fun s => (map_to_list (whitelist s)).*1).

(** [whitelist.upsert({ where: { address }, update: { note },
    create: { address, note } })]; an undefined [note] in [update] leaves
    the column as it is. *)
Definition whitelist_upsert (addr : string) (note : option string) : M unit :=
  modify_db (with_whitelist (fun wl =>
    match wl !! addr, note with
    | Some _, None => wl
    | _, _ => <[addr := note]> wl
    end)).

(** [settings.findUnique({ where: { key } })], projected on [value] *)
Definition settings_findUnique (key : string) : M (option string) :=
  read_db (fun s => settings s !! key).

End prisma.

(** Clock and RPC requests: each one consumes a moment. *)
Definition advance (c : list GatewayCall) (w : World) : World :=
  mkWorld (db w) (S (tick w)) (calls w ++ c).

Section Program.

Variable env : Env.

(** [Date.now()], and the time value of [new Date()] *)
Definition now : M float :=
  fun w => (Ok (Date_now env (tick w)), advance [] w).

(** [new Promise(resolve => setTimeout(resolve, ms))] *)
Definition sleep (ms : float) : M unit :=
  fun w => (Ok tt, advance [] w).

Definition new_PublicKey (addr : string) : M string :=
  if PublicKey_ok env addr then ret addr
  else throw (PublicKey_error env addr).

Definition connection_getSignaturesForAddress (pubkey : string) (limit : nat)
    : M (list ConfirmedSignatureInfo) :=
  fun w => (getSignaturesForAddress env (tick w) pubkey limit,
            advance [GetSignaturesForAddress pubkey limit] w).

Definition connection_getParsedTransaction (signature : string)
    : M (option (list Instruction)) :=
  fun w => (getParsedTransaction env (tick w) signature,
            advance [GetParsedTransaction signature] w).

Definition connection_getBalance (pubkey : string) : M float :=
  fun w => (getBalance env (tick w) pubkey, advance [GetBalance pubkey] w).

Definition connection_getAccountInfo (pubkey : string)
    : M (option (float * float)) :=
  fun w => (getAccountInfo env (tick w) pubkey,
            advance [GetAccountInfo pubkey] w).

Definition connection_getMinimumBalanceForRentExemption (dataLength : float)
    : M float :=
  fun w => (getMinimumBalanceForRentExemption env (tick w) dataLength,
            advance [GetMinimumBalanceForRentExemption dataLength] w).

Definition web3_sendAndConfirmTransaction (fromPubkey toPubkey : string)
    (lamports : float) : M string :=
  fun w => (sendAndConfirmTransaction env (tick w) fromPubkey toPubkey lamports,
            advance [SendAndConfirmTransaction fromPubkey toPubkey lamports] w).

End Program.

(* ===================================================================== *)
(** ** judge.ts: settings, batch judgment and the whitelist               *)
(* ===================================================================== *)

Record JudgeTally := mkTally {
  t_total : nat;
  t_eligible : nat;
  t_protected : nat;
  t_active : nat;
  t_skipped : nat;
  t_whitelisted : nat;
}.

Definition count_judgment (j : JudgmentStatus) (r : JudgeTally) : JudgeTally :=
  match j with
  | J_ELIGIBLE =>
      mkTally (t_total r) (S (t_eligible r)) (t_protected r) (t_active r)
              (t_skipped r) (t_whitelisted r)
  | J_PROTECTED =>
      mkTally (t_total r) (t_eligible r) (S (t_protected r)) (t_active r)
              (t_skipped r) (t_whitelisted r)
  | J_ACTIVE =>
      mkTally (t_total r) (t_eligible r) (t_protected r) (S (t_active r))
              (t_skipped r) (t_whitelisted r)
  | J_SKIP =>
      mkTally (t_total r) (t_eligible r) (t_protected r) (t_active r)
              (S (t_skipped r)) (t_whitelisted r)
  | J_WHITELISTED =>
      mkTally (t_total r) (t_eligible r) (t_protected r) (t_active r)
              (t_skipped r) (S (t_whitelisted r))
  end.

(** [where: { status: { not: 'RECLAIMED' } }] *)
Definition not_reclaimed (a : SponsoredAccount) : bool :=
  negb (bool_decide (status a = RECLAIMED)).

(** [where: { status: 'ELIGIBLE' }] *)
Definition stored_eligible (a : SponsoredAccount) : bool :=
  bool_decide (status a = ELIGIBLE).

Section Judge.

Variable env : Env.

Definition getJudgmentSettings : M JudgmentSettings :=
  minAgeSetting <- prisma.settings_findUnique "min_age_days" ;;
  dryRunSetting <- prisma.settings_findUnique "dry_run_mode" ;;
  ret {| minAgeDays :=
           match minAgeSetting with
           | Some value => JS.parseInt10 value
           | None => DEFAULT_MIN_AGE_DAYS
           end;
         dryRunMode :=
           match dryRunSetting with
           | Some value => String.eqb value "true"
           | None => true
           end |}.

(** One call of [judgeAccount] by an asynchronous caller.  A moment passes
    with each call; the program reads the clock only when the age check is
    reached, and the reading is not used otherwise. *)
Definition judge_now (account : SponsoredAccount)
    (settings : JudgmentSettings) (wl : list string) : M JudgmentResult :=
  t <- now env ;;
  ret (judgeAccount t account settings wl).

(** The loop of [judgeAllAccounts]. *)
Fixpoint judgeAll_loop (settings : JudgmentSettings) (wl : list string)
    (accounts : list SponsoredAccount) (results : JudgeTally) : M JudgeTally :=
  match accounts with
  | [] => ret results
  | account :: rest =>
      judgment <- judge_now account settings wl ;;
      prisma.sponsoredAccount_update (address account)
        (set_status (as_Status (j_status judgment))) ;;
      judgeAll_loop settings wl rest (count_judgment (j_status judgment) results)
  end.

Definition judgeAllAccounts : M JudgeTally :=
  settings <- getJudgmentSettings ;;
  wl <- prisma.whitelist_addresses ;;
  accounts <- prisma.sponsoredAccount_findMany not_reclaimed ;;
  judgeAll_loop settings wl accounts (mkTally (length accounts) 0 0 0 0 0).

(** The loop of [getEligibleAccounts]. *)
Fixpoint getEligible_loop (settings : JudgmentSettings) (wl : list string)
    (accounts : list SponsoredAccount) (eligible : list JudgmentResult)
    : M (list JudgmentResult) :=
  match accounts with
  | [] => ret eligible
  | account :: rest =>
      judgment <- judge_now account settings wl ;;
      getEligible_loop settings wl rest
        (if decide (j_status judgment = J_ELIGIBLE)
         then eligible ++ [judgment] else eligible)
  end.

Definition getEligibleAccounts : M (list JudgmentResult) :=
  settings <- getJudgmentSettings ;;
  wl <- prisma.whitelist_addresses ;;
  accounts <- prisma.sponsoredAccount_findMany not_reclaimed ;;
  getEligible_loop settings wl accounts [].

Definition addToWhitelist (addr : string) (note : option string) : M unit :=
  prisma.whitelist_upsert addr note ;;
  prisma.sponsoredAccount_updateMany addr (set_status WHITELISTED).

End Judge.

(* ===================================================================== *)
(** ** scanner.ts: current state, initial status and reconciliation       *)
(* ===================================================================== *)

Record DiscoveredAccount := mkDiscovered {
  d_address : string;
  d_balance : float;
  d_rentExemptMin : float;
  d_createdAt : float;
}.

Record CurrentState := mkState {
  cs_balance : float;
  cs_rentExemptMin : float;
  cs_exists : bool;
}.

Record ScanResult := mkScan {
  s_success : bool;
  s_newAccounts : nat;
  s_updatedAccounts : nat;
  s_totalAccounts : nat;
  s_error : option string;
  s_timestamp : float;
}.

Definition MAX_SIGNATURES_PER_BATCH : nat := 100.
Definition DEFAULT_RENT_EXEMPT_MINIMUM : float := 0.00089088%float.

Definition determineInitialStatus (state : CurrentState) : Status :=
  if negb (cs_exists state) || JS.strict_eq_zero (cs_balance state)
  then RECLAIMED
  else if PrimFloat.ltb (PrimFloat.mul (cs_rentExemptMin state) 1.5)
                        (cs_balance state)
  then PROTECTED
  else ACTIVE.

(** [error instanceof Error ? error.message : 'Unknown error'] *)
Definition error_message (e : Thrown) : string :=
  match e with JsError message => message | NonError => "Unknown error" end.

Section Scanner.

Variable env : Env.

(** One of the two [if] blocks of the loop of [extractSponsoredAccounts]:
    an instruction of the given type paid by the operator adds an account. *)
Definition extract_if (type_ : string) (operatorAddress : string)
    (txTime : float) (type : string) (info : InstructionInfo)
    (accounts : list DiscoveredAccount) : M (list DiscoveredAccount) :=
  if String.eqb type type_ && String.eqb (i_source info) operatorAddress then
    rentExempt <- connection_getMinimumBalanceForRentExemption env
                    (match i_space info with
                     | Some space => JS.or_default space 0
                     | None => 0%float
                     end) ;;
    ret (accounts ++
         [ {| d_address := i_newAccount info;
              d_balance := PrimFloat.div (i_lamports info) LAMPORTS_PER_SOL;
              d_rentExemptMin := PrimFloat.div rentExempt LAMPORTS_PER_SOL;
              d_createdAt := txTime |} ])
  else ret accounts.

(** [extractSponsoredAccounts(tx, operatorAddress, txTime)], as the loop over
    the instructions of [tx]. *)
Fixpoint extractSponsoredAccounts_loop (operatorAddress : string)
    (txTime : float) (instructions : list Instruction)
    (accounts : list DiscoveredAccount) : M (list DiscoveredAccount) :=
  match instructions with
  | [] => ret accounts
  | PartiallyDecoded :: rest =>
      extractSponsoredAccounts_loop operatorAddress txTime rest accounts
  | ParsedInstruction program type info :: rest =>
      if negb (String.eqb program "system") then
        extractSponsoredAccounts_loop operatorAddress txTime rest accounts
      else
        match info with
        | None => extractSponsoredAccounts_loop operatorAddress txTime rest accounts
        | Some info =>
            accounts <- extract_if "createAccount" operatorAddress txTime
                          type info accounts ;;
            accounts <- extract_if "createAccountWithSeed" operatorAddress txTime
                          type info accounts ;;
            extractSponsoredAccounts_loop operatorAddress txTime rest accounts
        end
  end.

Definition extractSponsoredAccounts (tx : list Instruction)
    (operatorAddress : string) (txTime : float) : M (list DiscoveredAccount) :=
  extractSponsoredAccounts_loop operatorAddress txTime tx [].

(** STEP 2 of [scanForSponsoredAccounts]: a transaction the ledger marked
    failed is passed over, and so is one whose parsing throws. *)
Fixpoint discover_loop (operator : string)
    (signatures : list ConfirmedSignatureInfo)
    (discoveredAccounts : list DiscoveredAccount) : M (list DiscoveredAccount) :=
  match signatures with
  | [] => ret discoveredAccounts
  | sigInfo :: rest =>
      if sig_err sigInfo then discover_loop operator rest discoveredAccounts
      else
        discoveredAccounts <-
          try_catch
            (tx <- connection_getParsedTransaction env (sig_signature sigInfo) ;;
             match tx with
             | None => ret discoveredAccounts
             | Some tx =>
                 txTime <-
                   match sig_blockTime sigInfo with
                   | Some blockTime =>
                       if JS.truthy blockTime
                       then ret (PrimFloat.mul blockTime 1000)
                       else now env
                   | None => now env
                   end ;;
                 accounts <- extractSponsoredAccounts tx operator txTime ;;
                 ret (discoveredAccounts ++ accounts)
             end)
            (fun _ => ret discoveredAccounts) ;;
        discover_loop operator rest discoveredAccounts
  end.

Definition getAccountCurrentState (addr : string) : M CurrentState :=
  try_catch
    (publicKey <- new_PublicKey env addr ;;
     accountInfo <- connection_getAccountInfo env publicKey ;;
     match accountInfo with
     | None => ret (mkState 0 DEFAULT_RENT_EXEMPT_MINIMUM false)
     | Some (lamports, dataLength) =>
         rentExempt <- connection_getMinimumBalanceForRentExemption env dataLength ;;
         ret (mkState (PrimFloat.div lamports LAMPORTS_PER_SOL)
                      (PrimFloat.div rentExempt LAMPORTS_PER_SOL) true)
     end)
    (fun _ => ret (mkState 0 DEFAULT_RENT_EXEMPT_MINIMUM false)).

(** What STEP 3 of [scanForSponsoredAccounts] writes for one discovered
    account whose current state is [currentState]. *)
Definition reconcile_with (account : DiscoveredAccount)
    (currentState : CurrentState) : M bool :=
  existing <- prisma.sponsoredAccount_findUnique (d_address account) ;;
  match existing with
  | Some existing =>
      t <- now env ;;
      prisma.sponsoredAccount_update (d_address account)
        (fun row =>
           set_status (if JS.strict_eq_zero (cs_balance currentState)
                       then RECLAIMED else status existing)
             (set_lastActivity t (set_balance (cs_balance currentState) row))) ;;
      ret false
  | None =>
      t <- now env ;;
      prisma.sponsoredAccount_create
        {| address := d_address account;
           balance := cs_balance currentState;
           rentExemptMin := cs_rentExemptMin currentState;
           lastActivity := d_createdAt account;
           status := determineInitialStatus currentState;
           detectedAt := t |} ;;
      ret true
  end.

(** The body of the STEP 3 loop; the result tells whether a row was
    created. *)
Definition reconcile (account : DiscoveredAccount) : M bool :=
  currentState <- getAccountCurrentState (d_address account) ;;
  reconcile_with account currentState.

(** The STEP 3 loop, with its two counters. *)
Fixpoint reconcile_loop (discoveredAccounts : list DiscoveredAccount)
    (newCount updatedCount : nat) : M (nat * nat) :=
  match discoveredAccounts with
  | [] => ret (newCount, updatedCount)
  | account :: rest =>
      created <- reconcile account ;;
      if created then reconcile_loop rest (S newCount) updatedCount
      else reconcile_loop rest newCount (S updatedCount)
  end.

Definition count_piece (n : nat) : Piece := Num (JS.number_of_Z (Z.of_nat n)).

(** STEP 3 of [scanForSponsoredAccounts] and the SCAN log entry, for the
    accounts STEP 2 discovered; [operator] is
    [operatorPublicKey.toBase58()]. *)
Definition scan_store (operator : string)
    (discoveredAccounts : list DiscoveredAccount) : M (nat * nat * nat) :=
  counts <- reconcile_loop discoveredAccounts 0 0 ;;
  prisma.activityLog_create
    {| log_action := LOG_SCAN;
       log_account := operator;
       log_amount := 0;
       log_mode := if config_isMockMode env then SIMULATION else REAL;
       log_reason := [Lit "Scan complete: "; count_piece (fst counts);
                      Lit " new, "; count_piece (snd counts); Lit " updated"];
       log_txSignature := None |} ;;
  totalAccounts <- prisma.sponsoredAccount_count ;;
  ret (fst counts, snd counts, totalAccounts).

(** [operator] is [operatorPublicKey.toBase58()]. *)
Definition scanForSponsoredAccounts (operator : string) : M ScanResult :=
  timestamp <- now env ;;
  try_catch
    (signatures <- connection_getSignaturesForAddress env operator
                     MAX_SIGNATURES_PER_BATCH ;;
     match signatures with
     | [] =>
         totalAccounts <- prisma.sponsoredAccount_count ;;
         ret {| s_success := true; s_newAccounts := 0; s_updatedAccounts := 0;
                s_totalAccounts := totalAccounts; s_error := None;
                s_timestamp := timestamp |}
     | _ =>
         discoveredAccounts <- discover_loop operator signatures [] ;;
         counts <- scan_store operator discoveredAccounts ;;
         let '(newCount, updatedCount, totalAccounts) := counts in
         ret {| s_success := true; s_newAccounts := newCount;
                s_updatedAccounts := updatedCount;
                s_totalAccounts := totalAccounts; s_error := None;
                s_timestamp := timestamp |}
     end)
    (fun error =>
       totalAccounts <- prisma.sponsoredAccount_count ;;
       ret {| s_success := false; s_newAccounts := 0; s_updatedAccounts := 0;
              s_totalAccounts := totalAccounts;
              s_error := Some (error_message error);
              s_timestamp := timestamp |}).

End Scanner.

(* ===================================================================== *)
(** ** solana.ts: [getExplorerUrl]                                        *)
(* ===================================================================== *)

(** [hay.includes(needle)] on strings *)
Fixpoint string_includes (needle hay : string) : bool :=
  String.prefix needle hay ||
  match hay with
  | String _ rest => string_includes needle rest
  | EmptyString => false
  end.

Definition getExplorerUrl (env : Env) (signature type : string) : string :=
  let baseUrl := "https://explorer.solana.com" in
  let cluster :=
    if string_includes "mainnet" (config_rpcUrl env) then "" else "?cluster=devnet" in
  baseUrl +:+ "/" +:+ type +:+ "/" +:+ signature +:+ cluster.

(* ===================================================================== *)
(** ** executioner.ts                                                     *)
(* ===================================================================== *)

Record ReclaimResult := mkResult {
  r_success : bool;
  r_address : string;
  r_mode : Mode;
  r_amount : float;
  r_txSignature : option string;
  r_explorerUrl : option string;
  r_message : Text;
  r_error : option string;
}.

Record BatchReclaimResult := mkBatch {
  b_total : nat;
  b_successful : nat;
  b_failed : nat;
  b_totalReclaimed : float;
  b_mode : Mode;
  b_results : list ReclaimResult;
}.

(** [dryRun ? 'SIMULATION' : 'REAL'] *)
Definition mode_of (dryRun : bool) : Mode := if dryRun then SIMULATION else REAL.

Definition lift {A} (o : Outcome A) : M A := fun w => (o, w).

Section Executioner.

Variable env : Env.

(** The [try] block of [reclaimAccount]. *)
Definition reclaimAccount_try (addr : string) (dryRun : bool) : M ReclaimResult :=
  account <- prisma.sponsoredAccount_findUnique addr ;;
  match account with
  | None =>
      ret {| r_success := false; r_address := addr; r_mode := mode_of dryRun;
             r_amount := 0; r_txSignature := None; r_explorerUrl := None;
             r_message := [Lit "Account not found in database"];
             r_error := Some "ACCOUNT_NOT_FOUND" |}
  | Some account =>
      settings <- getJudgmentSettings ;;
      wl <- prisma.whitelist_addresses ;;
      judgment <- judge_now env account settings wl ;;
      if negb (bool_decide (j_status judgment = J_ELIGIBLE)) then
        prisma.activityLog_create
          {| log_action := LOG_SKIP; log_account := addr;
             log_amount := balance account; log_mode := mode_of dryRun;
             log_reason := j_reason judgment; log_txSignature := None |} ;;
        ret {| r_success := false; r_address := addr; r_mode := mode_of dryRun;
               r_amount := 0; r_txSignature := None; r_explorerUrl := None;
               r_message := Lit "Cannot reclaim: " :: j_reason judgment;
               r_error := Some (Status_name (as_Status (j_status judgment))) |}
      else if dryRun then
        prisma.activityLog_create
          {| log_action := LOG_RECLAIM; log_account := addr;
             log_amount := j_potentialRecovery judgment;
             log_mode := SIMULATION;
             log_reason := [Lit "Simulation: Would reclaim ";
                            Fixed (j_potentialRecovery judgment) 6; Lit " SOL"];
             log_txSignature := None |} ;;
        ret {| r_success := true; r_address := addr; r_mode := SIMULATION;
               r_amount := j_potentialRecovery judgment;
               r_txSignature := None; r_explorerUrl := None;
               r_message := [Lit "Simulation Success: Would reclaim ";
                             Fixed (j_potentialRecovery judgment) 6;
                             Lit " SOL from "; Lit addr];
               r_error := None |}
      else
        match config_operatorPrivateKey env with
        | None =>
            ret {| r_success := false; r_address := addr; r_mode := SIMULATION;
                   r_amount := 0; r_txSignature := None; r_explorerUrl := None;
                   r_message := [Lit "Cannot execute real transaction: OPERATOR_PRIVATE_KEY not configured"];
                   r_error := Some "NO_PRIVATE_KEY" |}
        | Some key =>
            operatorPubkey <- lift (Keypair_fromSecretKey env key) ;;
            targetPubkey <- new_PublicKey env addr ;;
            balanceLamports <- connection_getBalance env targetPubkey ;;
            if JS.strict_eq_zero balanceLamports then
              prisma.sponsoredAccount_update addr
                (fun row => set_balance 0 (set_status RECLAIMED row)) ;;
              ret {| r_success := true; r_address := addr; r_mode := REAL;
                     r_amount := 0; r_txSignature := None; r_explorerUrl := None;
                     r_message := [Lit "Account already empty - marked as reclaimed"];
                     r_error := None |}
            else
              let transferAmount := PrimFloat.sub balanceLamports TX_FEE_LAMPORTS in
              if PrimFloat.leb transferAmount 0 then
                ret {| r_success := false; r_address := addr; r_mode := REAL;
                       r_amount := 0; r_txSignature := None; r_explorerUrl := None;
                       r_message := [Lit "Balance too low to cover transaction fee"];
                       r_error := Some "INSUFFICIENT_BALANCE" |}
              else
                txSignature <- web3_sendAndConfirmTransaction env
                                 targetPubkey operatorPubkey transferAmount ;;
                let reclaimedAmount := PrimFloat.div transferAmount LAMPORTS_PER_SOL in
                t <- now env ;;
                prisma.sponsoredAccount_update addr
                  (fun row => set_lastActivity t
                                (set_balance 0 (set_status RECLAIMED row))) ;;
                prisma.activityLog_create
                  {| log_action := LOG_RECLAIM; log_account := addr;
                     log_amount := reclaimedAmount; log_mode := REAL;
                     log_reason := [Lit "Successfully reclaimed ";
                                    Fixed reclaimedAmount 6; Lit " SOL"];
                     log_txSignature := Some txSignature |} ;;
                ret {| r_success := true; r_address := addr; r_mode := REAL;
                       r_amount := reclaimedAmount;
                       r_txSignature := Some txSignature;
                       r_explorerUrl := Some (getExplorerUrl env txSignature "tx");
                       r_message := [Lit "Success: Reclaimed ";
                                     Fixed reclaimedAmount 6;
                                     Lit " SOL from "; Lit addr];
                       r_error := None |}
        end
  end.

(** The [catch] block of [reclaimAccount]. *)
Definition reclaimAccount_catch (addr : string) (dryRun : bool) (error : Thrown)
    : M ReclaimResult :=
  let errorMessage := error_message error in
  prisma.activityLog_create
    {| log_action := LOG_SKIP; log_account := addr; log_amount := 0;
       log_mode := mode_of dryRun;
       log_reason := [Lit "Error: "; Lit errorMessage];
       log_txSignature := None |} ;;
  ret {| r_success := false; r_address := addr; r_mode := mode_of dryRun;
         r_amount := 0; r_txSignature := None; r_explorerUrl := None;
         r_message := [Lit "Failed to reclaim: "; Lit errorMessage];
         r_error := Some errorMessage |}.

Definition reclaimAccount (addr : string) (dryRun : bool) : M ReclaimResult :=
  try_catch (reclaimAccount_try addr dryRun) (reclaimAccount_catch addr dryRun).

(** The loop of [reclaimAllEligible], with its accumulators. *)
Fixpoint reclaimAll_loop (dryRun : bool) (eligibleAccounts : list SponsoredAccount)
    (results : list ReclaimResult) (totalReclaimed : float)
    (successful failed : nat)
    : M (list ReclaimResult * float * nat * nat) :=
  match eligibleAccounts with
  | [] => ret (results, totalReclaimed, successful, failed)
  | account :: rest =>
      result <- reclaimAccount (address account) dryRun ;;
      let results := results ++ [result] in
      let '(successful, totalReclaimed, failed) :=
        if r_success result
        then (S successful, PrimFloat.add totalReclaimed (r_amount result), failed)
        else (successful, totalReclaimed, S failed) in
      (if dryRun then ret tt else sleep 500) ;;
      reclaimAll_loop dryRun rest results totalReclaimed successful failed
  end.

Definition reclaimAllEligible (dryRun : bool) : M BatchReclaimResult :=
  eligibleAccounts <- prisma.sponsoredAccount_findMany stored_eligible ;;
  acc <- reclaimAll_loop dryRun eligibleAccounts [] 0 0%nat 0%nat ;;
  let '(results, totalReclaimed, successful, failed) := acc in
  ret {| b_total := length eligibleAccounts;
         b_successful := successful;
         b_failed := failed;
         b_totalReclaimed := totalReclaimed;
         b_mode := mode_of dryRun;
         b_results := results |}.

End Executioner.

(* ===================================================================== *)
(** ** What the Executioner reads from the Store                          *)
(* ===================================================================== *)

(** The settings [getJudgmentSettings] loads from a store. *)
Definition settings_of (s : Store) : JudgmentSettings :=
  {| minAgeDays :=
       match settings s !! "min_age_days" with
       | Some value => JS.parseInt10 value
       | None => DEFAULT_MIN_AGE_DAYS
       end;
     dryRunMode :=
       match settings s !! "dry_run_mode" with
       | Some value => String.eqb value "true"
       | None => true
       end |}.

(** The addresses [whitelist.findMany()] returns. *)
Definition whitelist_of (s : Store) : list string :=
  (map_to_list (whitelist s)).*1.

(** The verdict [reclaimAccount] obtains for a stored row when it runs in
    world [w]: the Judge on the current settings and whitelist, at the
    current clock reading. *)
Definition fresh_verdict (env : Env) (w : World) (account : SponsoredAccount)
    : JudgmentResult :=
  judgeAccount (Date_now env (tick w)) account (settings_of (db w))
               (whitelist_of (db w)).

(** The unique constraint on [sponsoredAccount.address]. *)
Definition unique_addresses (s : Store) : Prop :=
  NoDup (address <$> sponsoredAccount s).

(** The result of a run that did not throw. *)
Definition value_of {A} (run : Outcome A * World) : option A :=
  match fst run with Ok a => Some a | Throw _ => None end.

(** The world after a run. *)
Definition world_after {A} (run : Outcome A * World) : World := snd run.

(** [w'] differs from [w] at most in the activity log and the clock. *)
Definition only_logged (w w' : World) : Prop :=
  sponsoredAccount (db w') = sponsoredAccount (db w)
  /\ whitelist (db w') = whitelist (db w)
  /\ settings (db w') = settings (db w)
  /\ calls w' = calls w.

(** Every address stored as RECLAIMED in [rows] is stored as RECLAIMED in
    [rows']. *)
Definition keeps_reclaimed (rows rows' : list SponsoredAccount) : Prop :=
  forall addr a,
    prisma.lookup_account addr rows = Some a -> status a = RECLAIMED ->
    exists a', prisma.lookup_account addr rows' = Some a'
               /\ status a' = RECLAIMED.

(** The verdicts a simulated batch obtains for [accounts], one clock reading
    per account, starting at moment [t]. *)
Fixpoint verdicts_from (env : Env) (settings : JudgmentSettings)
    (wl : list string) (t : nat) (accounts : list SponsoredAccount)
    : list JudgmentResult :=
  match accounts with
  | [] => []
  | account :: rest =>
      judgeAccount (Date_now env t) account settings wl
      :: verdicts_from env settings wl (S t) rest
  end.

Definition is_eligible (j : JudgmentResult) : bool :=
  bool_decide (j_status j = J_ELIGIBLE).

(** [totalReclaimed += amount], in the order of the loop. *)
Definition sum_from (start : float) (amounts : list float) : float :=
  fold_left PrimFloat.add amounts start.

(* ===================================================================== *)
(** ** prisma/seed.ts: the demo data                                      *)
(* ===================================================================== *)

Module Seed.

Definition RENT_MINIMUM : float := 0.00203928%float.

(** [days * 24 * 60 * 60 * 1000] milliseconds before [now] *)
Definition daysAgo (now days : float) : float :=
  PrimFloat.sub now
    (PrimFloat.mul (PrimFloat.mul (PrimFloat.mul (PrimFloat.mul days 24) 60) 60)
                   1000).

Definition accounts (now : float) : list SponsoredAccount :=
  [ mkAccount "8xKVzxxxxxxxxxxxxxxxxxxxxxxxxxxxxxxWhale1" 0.85 RENT_MINIMUM
      (daysAgo now 92) ELIGIBLE (daysAgo now 120);
    mkAccount "5mTRxxxxxxxxxxxxxxxxxxxxxxxxxxxxxxMidTr1" 0.052 RENT_MINIMUM
      (daysAgo now 48) ELIGIBLE (daysAgo now 65);
    mkAccount "7kPQxxxxxxxxxxxxxxxxxxxxxxxxxxxxxxMidTr2" 0.048 RENT_MINIMUM
      (daysAgo now 55) ELIGIBLE (daysAgo now 70);
    mkAccount "2dSTxxxxxxxxxxxxxxxxxxxxxxxxxxxxxxDust01" RENT_MINIMUM RENT_MINIMUM
      (daysAgo now 45) ELIGIBLE (daysAgo now 60);
    mkAccount "3fGHxxxxxxxxxxxxxxxxxxxxxxxxxxxxxxDust02" RENT_MINIMUM RENT_MINIMUM
      (daysAgo now 67) ELIGIBLE (daysAgo now 85);
    mkAccount "4jKLxxxxxxxxxxxxxxxxxxxxxxxxxxxxxxDust03" RENT_MINIMUM RENT_MINIMUM
      (daysAgo now 52) ELIGIBLE (daysAgo now 72);
    mkAccount "6nPRxxxxxxxxxxxxxxxxxxxxxxxxxxxxxxDust04" RENT_MINIMUM RENT_MINIMUM
      (daysAgo now 38) ELIGIBLE (daysAgo now 50);
    mkAccount "9qVXxxxxxxxxxxxxxxxxxxxxxxxxxxxxxxDust05" RENT_MINIMUM RENT_MINIMUM
      (daysAgo now 72) ELIGIBLE (daysAgo now 95);
    mkAccount "1aWYxxxxxxxxxxxxxxxxxxxxxxxxxxxxxxDust06" RENT_MINIMUM RENT_MINIMUM
      (daysAgo now 41) ELIGIBLE (daysAgo now 55);
    mkAccount "PrT1xxxxxxxxxxxxxxxxxxxxxxxxxxxxxxProt01" 1.25 RENT_MINIMUM
      (daysAgo now 3) PROTECTED (daysAgo now 28);
    mkAccount "PrT2xxxxxxxxxxxxxxxxxxxxxxxxxxxxxxProt02" 0.42 RENT_MINIMUM
      (daysAgo now 7) PROTECTED (daysAgo now 35);
    mkAccount "AcT1xxxxxxxxxxxxxxxxxxxxxxxxxxxxxxActv01" RENT_MINIMUM RENT_MINIMUM
      (daysAgo now 12) ACTIVE (daysAgo now 18);
    mkAccount "AcT2xxxxxxxxxxxxxxxxxxxxxxxxxxxxxxActv02" RENT_MINIMUM RENT_MINIMUM
      (daysAgo now 8) ACTIVE (daysAgo now 14);
    mkAccount "RcL1xxxxxxxxxxxxxxxxxxxxxxxxxxxxxxRclm01" 0 RENT_MINIMUM
      (daysAgo now 95) RECLAIMED (daysAgo now 140) ].

Definition logs : list ActivityLog :=
  [ mkLog LOG_SCAN "-" 0 SIMULATION
      [Lit "Blockchain scan completed - discovered 14 sponsored accounts"] None;
    mkLog LOG_SKIP "PrT1xxxxxxxxxxxxxxxxxxxxxxxxxxxxxxProt01" 1.25 SIMULATION
      [Lit "Protected: Balance (1.25 SOL) exceeds rent minimum - account contains user funds"]
      None;
    mkLog LOG_SKIP "AcT1xxxxxxxxxxxxxxxxxxxxxxxxxxxxxxActv01" RENT_MINIMUM SIMULATION
      [Lit "Active: Account age (12 days) is less than minimum (30 days) - wait 18 more days"]
      None;
    mkLog LOG_RECLAIM "RcL1xxxxxxxxxxxxxxxxxxxxxxxxxxxxxxRclm01" 0.00203928 SIMULATION
      [Lit "Simulation Success: Would reclaim 0.002039 SOL from dormant account"]
      None ].

Definition store (now : float) : Store :=
  {| sponsoredAccount := accounts now;
     whitelist :=
       {[ "WhtLxxxxxxxxxxxxxxxxxxxxxxxxxxxxxxWhLst1" :=
            Some "Partner integration account - protected from reclamation" ]};
     settings := {[ "min_age_days" := "30"; "dry_run_mode" := "true" ]};
     activityLog := logs |}.

(** The moment the seed script ran in the examples below:
    2026-01-01T00:00:00Z. *)
Definition seeded_at : float := 1767225600000%float.

Definition world : World := mkWorld (store seeded_at) 0 [].

Definition unreachable {A} : Outcome A := Throw (JsError "fetch failed").

(** No operator key; the clock advances one millisecond per reading. *)
Definition mock_env : Env :=
  {| OPERATOR_PRIVATE_KEY := None;
     SOLANA_RPC_URL := None;
     Date_now := fun n => PrimFloat.add seeded_at (JS.number_of_Z (Z.of_nat n));
     PublicKey_ok := fun _ => true;
     PublicKey_error := fun _ => JsError "Invalid public key input";
     Keypair_fromSecretKey := fun _ => unreachable;
     getSignaturesForAddress := fun _ _ _ => unreachable;
     getParsedTransaction := fun _ _ => unreachable;
     getBalance := fun _ _ => unreachable;
     getAccountInfo := fun _ _ => unreachable;
     getMinimumBalanceForRentExemption := fun _ _ => unreachable;
     sendAndConfirmTransaction := fun _ _ _ _ => unreachable |}.

(** An operator key is configured and every account holds [lamports]. *)
Definition keyed_env (lamports : float) : Env :=
  {| OPERATOR_PRIVATE_KEY := Some "operator-secret";
     SOLANA_RPC_URL := None;
     Date_now := fun n => PrimFloat.add seeded_at (JS.number_of_Z (Z.of_nat n));
     PublicKey_ok := fun _ => true;
     PublicKey_error := fun _ => JsError "Invalid public key input";
     Keypair_fromSecretKey := fun _ => Ok "OperatorPubkey";
     getSignaturesForAddress := fun _ _ _ => Ok [];
     getParsedTransaction := fun _ _ => Ok None;
     getBalance := fun _ _ => Ok lamports;
     getAccountInfo := fun _ _ => Ok (Some (lamports, 0%float));
     getMinimumBalanceForRentExemption := fun _ _ => Ok 890880%float;
     sendAndConfirmTransaction := fun _ _ _ _ => Ok "5xyzSignature" |}.

(** A node that knows two transactions of the operator, the first one
    failed, the second one creating [NewAccount111] with 2039280 lamports
    and 165 bytes; every account it is asked about holds 2039280 lamports. *)
Definition scan_env : Env :=
  {| OPERATOR_PRIVATE_KEY := None;
     SOLANA_RPC_URL := None;
     Date_now := fun n => PrimFloat.add seeded_at (JS.number_of_Z (Z.of_nat n));
     PublicKey_ok := fun _ => true;
     PublicKey_error := fun _ => JsError "Invalid public key input";
     Keypair_fromSecretKey := fun _ => unreachable;
     getSignaturesForAddress := fun _ _ _ =>
       Ok [ mkSignature "sigFailed" true (Some 1767000000%float);
            mkSignature "sigCreate" false (Some 1767000000%float) ];
     getParsedTransaction := fun _ _ =>
       Ok (Some [ PartiallyDecoded;
                  ParsedInstruction "system" "transfer"
                    (Some (mkInfo "Operator111" "Other111" 1%float None));
                  ParsedInstruction "system" "createAccount"
                    (Some (mkInfo "Operator111" "NewAccount111" 2039280%float
                             (Some 165%float))) ]);
     getBalance := fun _ _ => Ok 2039280%float;
     getAccountInfo := fun _ _ => Ok (Some (2039280%float, 165%float));
     getMinimumBalanceForRentExemption := fun _ _ => Ok 2039280%float;
     sendAndConfirmTransaction := fun _ _ _ _ => unreachable |}.

Definition dust01 : SponsoredAccount :=
  mkAccount "2dSTxxxxxxxxxxxxxxxxxxxxxxxxxxxxxxDust01" RENT_MINIMUM RENT_MINIMUM
    (daysAgo seeded_at 45) ELIGIBLE (daysAgo seeded_at 60).
Definition whale1 : SponsoredAccount :=
  mkAccount "8xKVzxxxxxxxxxxxxxxxxxxxxxxxxxxxxxxWhale1" 0.85 RENT_MINIMUM
    (daysAgo seeded_at 92) ELIGIBLE (daysAgo seeded_at 120).
Definition actv01 : SponsoredAccount :=
  mkAccount "AcT1xxxxxxxxxxxxxxxxxxxxxxxxxxxxxxActv01" RENT_MINIMUM RENT_MINIMUM
    (daysAgo seeded_at 12) ACTIVE (daysAgo seeded_at 18).

Definition default_settings : JudgmentSettings := mkSettings 30 true.

(** A store whose nine ELIGIBLE rows all hold exactly the rent minimum. *)
Definition at_rent_floor (a : SponsoredAccount) : SponsoredAccount :=
  set_balance (rentExemptMin a) a.

Definition nine_at_rent_floor : World :=
  mkWorld (with_accounts (List.map at_rent_floor) (store seeded_at)) 0 [].

End Seed.

(* ===================================================================== *)
(** ** The key constructor of the client library, for the examples        *)
(* ===================================================================== *)

(** [new PublicKey(value)] on a string: [bs58.decode(value)] throws on a
    character outside the alphabet; the constructor then throws unless the
    decoded bytes are 32.  The decoded bytes are one zero byte per leading
    [1] followed by the big-endian bytes of the number the digits spell. *)
Module Base58.

Definition ALPHABET : string :=
  "123456789ABCDEFGHJKLMNPQRSTUVWXYZabcdefghijkmnopqrstuvwxyz".

Fixpoint position (c : Ascii.ascii) (alphabet : string) : option Z :=
  match alphabet with
  | EmptyString => None
  | String a rest =>
      if Ascii.eqb c a then Some 0%Z else Z.succ <$> position c rest
  end.

Fixpoint digits (source : string) : option (list Z) :=
  match source with
  | EmptyString => Some []
  | String c rest =>
      match position c ALPHABET, digits rest with
      | Some d, Some ds => Some (d :: ds)
      | _, _ => None
      end
  end.

Fixpoint zeroes (ds : list Z) : nat :=
  match ds with
  | d :: rest => if (d =? 0)%Z then S (zeroes rest) else 0%nat
  | [] => 0%nat
  end.

Definition number (ds : list Z) : Z :=
  fold_left (fun n d => (n * 58 + d)%Z) ds 0%Z.

Definition byte_length (n : Z) : nat :=
  if (n =? 0)%Z then 0%nat else Z.to_nat (Z.log2 n / 8 + 1).

Definition decoded_length (source : string) : option nat :=
  match digits source with
  | Some ds => Some (zeroes ds + byte_length (number ds))%nat
  | None => None
  end.

Definition PUBLIC_KEY_LENGTH : nat := 32.

Definition accepts (value : string) : bool :=
  bool_decide (decoded_length value = Some PUBLIC_KEY_LENGTH).

Definition rejection (value : string) : Thrown :=
  match decoded_length value with
  | None => JsError "Non-base58 character"
  | Some _ => JsError "Invalid public key input"
  end.

End Base58.

(* ===================================================================== *)
(** ** A node and a store with well-formed keys, for the examples         *)
(* ===================================================================== *)

Module Devnet.

Definition operator : string := "4Nd1mBQtrMJVYVfKf2PJy9NZUZdTAsp7D4xWLs4gDB4T".
Definition funded_address : string :=
  "9xQeWvG816bUx9EPjHmaT23yvVM2ZWbrrpZb9PusVFin".

(** A sponsored account that holds 0.85 SOL, stored as PROTECTED. *)
Definition funded : SponsoredAccount :=
  mkAccount funded_address 0.85 Seed.RENT_MINIMUM
    (Seed.daysAgo Seed.seeded_at 3) PROTECTED (Seed.daysAgo Seed.seeded_at 28).

(** The seeded store with that account added. *)
Definition world : World :=
  mkWorld (with_accounts (fun rows => rows ++ [funded])
             (Seed.store Seed.seeded_at)) 0 [].

Definition rate_limited {A} : Outcome A :=
  Throw (JsError "429 Too Many Requests").

(** A node with the operator's key configured.  It answers the history
    request with [history], knows the transaction [sigCreate] in which the
    operator created [funded_address] with 165 bytes, reports 850000000
    lamports for every account it is asked about, and answers the rent
    request at moment [t] with [rent t]. *)
Definition node (history : Outcome (list ConfirmedSignatureInfo))
    (rent : nat -> Outcome float) : Env :=
  {| OPERATOR_PRIVATE_KEY := Some "operator-secret";
     SOLANA_RPC_URL := None;
     Date_now := fun n =>
       PrimFloat.add Seed.seeded_at (JS.number_of_Z (Z.of_nat n));
     PublicKey_ok := Base58.accepts;
     PublicKey_error := Base58.rejection;
     Keypair_fromSecretKey := fun _ => Ok operator;
     getSignaturesForAddress := fun _ _ _ => history;
     getParsedTransaction := fun _ _ =>
       Ok (Some [ ParsedInstruction "system" "createAccount"
                    (Some (mkInfo operator funded_address 850000000%float
                             (Some 165%float))) ]);
     getBalance := fun _ _ => Ok 850000000%float;
     getAccountInfo := fun _ _ => Ok (Some (850000000%float, 165%float));
     getMinimumBalanceForRentExemption := fun t _ => rent t;
     sendAndConfirmTransaction := fun _ _ _ _ => Seed.unreachable |}.

Definition history : Outcome (list ConfirmedSignatureInfo) :=
  Ok [ mkSignature "sigCreate" false (Some 1767000000%float) ].

(** The node answering every request. *)
Definition steady : Env := node history (fun _ => Ok 2039280%float).

(** The node rejecting requests from moment [5] on: in a scan of one
    transaction with one creation the history, the transaction, the rent
    request of the extraction and the account request are answered, and the
    rent request of the state query is not. *)
Definition throttled : Env :=
  node history (fun t => if (t <? 5)%nat then Ok 2039280%float else rate_limited).

End Devnet.

(* ===================================================================== *)
(** ** judge.ts, executioner.ts, scanner.ts: the remaining operations     *)
(* ===================================================================== *)

Definition with_settings (f : gmap string string -> gmap string string)
    (s : Store) : Store :=
  mkStore (sponsoredAccount s) (whitelist s) (f (settings s)) (activityLog s).

(** [settings.upsert({ where: { key }, update: { value },
    create: { key, value } })] *)
Definition settings_upsert (key value : string) : M unit :=
  modify_db (with_settings (<[key := value]>)).

(** [updateJudgmentSetting(key, value)] *)
Definition updateJudgmentSetting (key value : string) : M unit :=
  settings_upsert key value.

(** [removeFromWhitelist(address)]: the rejection of [whitelist.delete] for
    an address that is not listed is swallowed by [.catch(() => {})]. *)
Definition removeFromWhitelist (addr : string) : M unit :=
  modify_db (with_whitelist (delete addr)).

(** [enabled.toString()] *)
Definition boolean_toString (b : bool) : string :=
  if b then "true" else "false".

(** [isDryRunEnabled()] *)
Definition isDryRunEnabled : M bool :=
  setting <- prisma.settings_findUnique "dry_run_mode" ;;
  ret match setting with
      | Some value => String.eqb value "true"
      | None => true
      end.

(** [setDryRunMode(enabled)] *)
Definition setDryRunMode (enabled : bool) : M unit :=
  settings_upsert "dry_run_mode" (boolean_toString enabled).

(** [isRealModeAvailable()] *)
Definition isRealModeAvailable (env : Env) : bool :=
  negb (config_isMockMode env)
  && match config_operatorPrivateKey env with Some _ => true | None => false end.

Record ReclaimStats := mkStats {
  st_totalRecovered : float;
  st_potentialRecovery : float;
  st_eligibleCount : nat;
  st_protectedCount : nat;
  st_activeCount : nat;
}.

(** [where: { action: 'RECLAIM', mode: 'REAL' }] *)
Definition real_reclaim (l : ActivityLog) : bool :=
  bool_decide (log_action l = LOG_RECLAIM) && bool_decide (log_mode l = REAL).

(** The second loop of [getReclaimStats]: one step of its [switch]. *)
Definition stats_step (acc : float * nat * nat * nat) (account : SponsoredAccount)
    : float * nat * nat * nat :=
  let '(potentialRecovery, eligibleCount, protectedCount, activeCount) := acc in
  match status account with
  | ELIGIBLE =>
      (PrimFloat.add potentialRecovery
         (JS.Math_max 0
            (PrimFloat.sub (balance account)
               (PrimFloat.div TX_FEE_LAMPORTS LAMPORTS_PER_SOL))),
       S eligibleCount, protectedCount, activeCount)
  | PROTECTED => (potentialRecovery, eligibleCount, S protectedCount, activeCount)
  | ACTIVE => (potentialRecovery, eligibleCount, protectedCount, S activeCount)
  | _ => acc
  end.

Definition getReclaimStats : M ReclaimStats :=
  accounts <- prisma.sponsoredAccount_findMany (fun _ => true) ;;
  reclaimLogs <- read_db (fun s => List.filter real_reclaim (activityLog s)) ;;
  let totalRecovered :=
    fold_left (fun total l => PrimFloat.add total (log_amount l)) reclaimLogs
              0%float in
  let '(potentialRecovery, eligibleCount, protectedCount, activeCount) :=
    fold_left stats_step accounts (0%float, 0%nat, 0%nat, 0%nat) in
  ret {| st_totalRecovered := totalRecovered;
         st_potentialRecovery := potentialRecovery;
         st_eligibleCount := eligibleCount;
         st_protectedCount := protectedCount;
         st_activeCount := activeCount |}.

(** [performMockScan()] *)
Definition performMockScan (env : Env) : M ScanResult :=
  totalAccounts <- prisma.sponsoredAccount_count ;;
  prisma.activityLog_create
    {| log_action := LOG_SCAN; log_account := "-"; log_amount := 0;
       log_mode := SIMULATION;
       log_reason := [Lit "Mock scan completed (demo mode)"];
       log_txSignature := None |} ;;
  timestamp <- now env ;;
  ret {| s_success := true; s_newAccounts := 0; s_updatedAccounts := 0;
         s_totalAccounts := totalAccounts; s_error := None;
         s_timestamp := timestamp |}.

(* ===================================================================== *)
(** ** config.ts: the operator's public key and real-mode validation      *)
(* ===================================================================== *)

(** The server's environment: the process environment of the core and
    [process.env.OPERATOR_PUBLIC_KEY]. *)
Record ServerEnv := mkServer {
  core :> Env;
  OPERATOR_PUBLIC_KEY : option string;
}.

Definition config_operatorPublicKey (env : ServerEnv) : option string :=
  env_or (OPERATOR_PUBLIC_KEY env) Some None.

(** [validateRealModeConfig()] *)
Definition validateRealModeConfig (env : ServerEnv) : M unit :=
  if config_isMockMode env then
    throw (JsError ("Cannot perform real transactions in Mock Mode. " +:+
                    "Set OPERATOR_PRIVATE_KEY environment variable to enable real mode."))
  else
    match config_operatorPublicKey env with
    | None =>
        throw (JsError ("OPERATOR_PUBLIC_KEY is required for real mode. " +:+
                        "Please set this environment variable."))
    | Some _ => ret tt
    end.

(* ===================================================================== *)
(** ** demoSeeder.ts                                                      *)
(* ===================================================================== *)

Module DemoSeeder.

Definition RENT_MINIMUM : float := 0.00203928%float.

(** [daysAgo(days)]: each call reads the clock. *)
Definition daysAgo (env : Env) (days : float) : M float :=
  t <- now env ;;
  ret (PrimFloat.sub t
         (PrimFloat.mul
            (PrimFloat.mul (PrimFloat.mul (PrimFloat.mul days 24) 60) 60) 1000)).

(** One object of the [data] array: its two dates are evaluated in the order
    they are written. *)
Definition row (env : Env) (addr : string) (bal : float) (lastDays : float)
    (st : Status) (detectedDays : float) : M SponsoredAccount :=
  last <- daysAgo env lastDays ;;
  detected <- daysAgo env detectedDays ;;
  ret (mkAccount addr bal RENT_MINIMUM last st detected).

(** The rows of the [data] array, without their dates: address, balance,
    days since the last activity, status, days since detection. *)
Definition data : list (string * float * float * Status * float) :=
  [ ("8xKVzxxxxxxxxxxxxxxxxxxxxxxxxxxxxxxWhale1", 0.85, 92, ELIGIBLE, 120);
    ("5mTRxxxxxxxxxxxxxxxxxxxxxxxxxxxxxxMidTr1", 0.052, 48, ELIGIBLE, 65);
    ("7kPQxxxxxxxxxxxxxxxxxxxxxxxxxxxxxxMidTr2", 0.048, 55, ELIGIBLE, 70);
    ("2dSTxxxxxxxxxxxxxxxxxxxxxxxxxxxxxxDust01", RENT_MINIMUM, 45, ELIGIBLE, 60);
    ("3fGHxxxxxxxxxxxxxxxxxxxxxxxxxxxxxxDust02", RENT_MINIMUM, 67, ELIGIBLE, 85);
    ("4jKLxxxxxxxxxxxxxxxxxxxxxxxxxxxxxxDust03", RENT_MINIMUM, 52, ELIGIBLE, 72);
    ("6nPRxxxxxxxxxxxxxxxxxxxxxxxxxxxxxxDust04", RENT_MINIMUM, 38, ELIGIBLE, 50);
    ("9qVXxxxxxxxxxxxxxxxxxxxxxxxxxxxxxxDust05", RENT_MINIMUM, 72, ELIGIBLE, 95);
    ("1aWYxxxxxxxxxxxxxxxxxxxxxxxxxxxxxxDust06", RENT_MINIMUM, 41, ELIGIBLE, 55);
    ("PrT1xxxxxxxxxxxxxxxxxxxxxxxxxxxxxxProt01", 1.25, 3, PROTECTED, 28);
    ("PrT2xxxxxxxxxxxxxxxxxxxxxxxxxxxxxxProt02", 0.42, 7, PROTECTED, 35);
    ("AcT1xxxxxxxxxxxxxxxxxxxxxxxxxxxxxxActv01", RENT_MINIMUM, 12, ACTIVE, 18);
    ("AcT2xxxxxxxxxxxxxxxxxxxxxxxxxxxxxxActv02", RENT_MINIMUM, 8, ACTIVE, 14);
    ("RcL1xxxxxxxxxxxxxxxxxxxxxxxxxxxxxxRclm01", 0, 95, RECLAIMED, 140) ]%float.

Fixpoint rows (env : Env) (specs : list (string * float * float * Status * float))
    : M (list SponsoredAccount) :=
  match specs with
  | [] => ret []
  | (addr, bal, lastDays, st, detectedDays) :: rest =>
      r <- row env addr bal lastDays st detectedDays ;;
      rs <- rows env rest ;;
      ret (r :: rs)
  end.

(** [sponsoredAccount.deleteMany()] *)
Definition sponsoredAccount_deleteMany : M unit :=
  modify_db (with_accounts (fun _ => [])).

(** [sponsoredAccount.createMany({ data })]: one statement, rejected as a
    whole on the unique constraint. *)
Definition sponsoredAccount_createMany (new : list SponsoredAccount) : M unit :=
  fun w =>
    if bool_decide (NoDup (address <$> (sponsoredAccount (db w) ++ new)))
    then modify_db (with_accounts (fun old => old ++ new)) w
    else (Throw (JsError "Unique constraint failed on the fields: (`address`)"), w).

Definition seedDemoData (env : Env) : M nat :=
  sponsoredAccount_deleteMany ;;
  new <- rows env data ;;
  sponsoredAccount_createMany new ;;
  prisma.activityLog_create
    {| log_action := LOG_SCAN; log_account := "-"; log_amount := 0;
       log_mode := SIMULATION;
       log_reason := [Lit "Demo data restored - 14 sponsored accounts loaded for Simulation Mode"];
       log_txSignature := None |} ;;
  ret 14%nat.

End DemoSeeder.

(* ===================================================================== *)
(** ** app/api: the reclaim, scan and settings endpoints                  *)
(* ===================================================================== *)

Module Api.

(** The double quote, and a quoted word. *)
Definition dquote : string := String (Ascii.ascii_of_nat 34) EmptyString.
Definition quoted (s : string) : string := dquote +:+ s +:+ dquote.

Definition provide_address_or_all : string :=
  "Provide either " +:+ quoted "address" +:+ " or " +:+ quoted "all: true".
Definition key_and_value_required : string :=
  "Both " +:+ quoted "key" +:+ " and " +:+ quoted "value" +:+ " are required".

(** A JSON value as [JSON.parse] returns it; the fields of an object are in
    the order of the text. *)
Inductive Json :=
  | JNull
  | JBool (b : bool)
  | JNumber (x : float)
  | JString (s : string)
  | JArray (elements : list Json)
  | JObject (fields : list (string * Json)).

(** [request.json()]: the parsed body, or the error the promise rejects with
    when the body is not JSON. *)
Inductive Request :=
  | Body (json : Json)
  | NotJson (error : Thrown).

(** What a handler meets that is neither the program's nor the node's: the
    texts of the errors of the engine and of the store's client, and the
    engine's rendering of numbers. *)
Record Platform := mkPlatform {
  (* the message of the TypeError of [const { property, ... } = null] *)
  cannot_destructure_null : string -> string;
  (* the message of the TypeError of converting to a string an object whose
     [toString] is not callable *)
  cannot_convert_to_primitive : string;
  (* the message of the client's validation error for a value that is not a
     string where the schema has a String *)
  prisma_invalid_argument : Json -> string;
  (* Number.prototype.toString() *)
  Number_toString : float -> string;
}.

(** [body.name] for a body that is not null and one of the names the
    handlers read (address, all, key, value), which only an object can have:
    of two fields of the same name [JSON.parse] keeps the later; [None] is
    [undefined]. *)
Definition property (name : string) (body : Json) : option Json :=
  match body with
  | JObject fields =>
      snd <$> last (List.filter (fun field => String.eqb (fst field) name) fields)
  | _ => None
  end.

(** [ToBoolean] *)
Definition truthy (v : option Json) : bool :=
  match v with
  | None => false
  | Some JNull => false
  | Some (JBool b) => b
  | Some (JNumber x) => JS.truthy x
  | Some (JString s) => if decide (s = EmptyString) then false else true
  | Some (JArray _) => true
  | Some (JObject _) => true
  end.

(** [String(value)], and [${value}] in a template literal, for a JSON value.
    An array is its elements joined by commas, a null element giving the
    empty string.  An object is [[object Object]], unless the body gave it
    a field [toString]: that field is not callable, and the conversion
    throws. *)
Fixpoint String_of (platform : Platform) (value : Json) : Outcome string :=
  match value with
  | JNull => Ok "null"
  | JBool b => Ok (boolean_toString b)
  | JNumber x => Ok (Number_toString platform x)
  | JString s => Ok s
  | JArray elements =>
      (fix join (elements : list Json) : Outcome string :=
         match elements with
         | [] => Ok EmptyString
         | element :: rest =>
             match match element with
                   | JNull => Ok EmptyString
                   | _ => String_of platform element
                   end with
             | Throw e => Throw e
             | Ok first =>
                 match rest with
                 | [] => Ok first
                 | _ :: _ =>
                     match join rest with
                     | Throw e => Throw e
                     | Ok others => Ok (first +:+ "," +:+ others)
                     end
                 end
             end
         end) elements
  | JObject fields =>
      if existsb (fun field => String.eqb (fst field) "toString") fields
      then Throw (JsError (cannot_convert_to_primitive platform))
      else Ok "[object Object]"
  end.

(** [error instanceof Error ? error.message : fallback] *)
Definition message_or (fallback : string) (error : Thrown) : string :=
  match error with JsError message => message | NonError => fallback end.

Inductive ReclaimResponse :=
  | ReclaimedAll (result : BatchReclaimResult)            (* 200 *)
  | ReclaimedOne (result : ReclaimResult)                 (* 200 *)
  | ReclaimBadRequest (error : string)                    (* 400 *)
  | ReclaimFailed (error : string).                       (* 500 *)

(** [POST /api/reclaim].  A body that is not JSON reads as [{}]; the body
    [null] cannot be destructured.  [reclaimAccount] on an address that is
    not a string: the template literal of its first line converts it to a
    string, outside the try block; then [findUnique] rejects it, and so does
    [activityLog.create] in the catch block, whose error is the one that
    reaches the handler. *)
Definition reclaim_POST (env : Env) (platform : Platform) (request : Request)
    : M ReclaimResponse :=
  try_catch
    (match match request with Body json => json | NotJson _ => JObject [] end with
     | JNull => throw (JsError (cannot_destructure_null platform "address"))
     | body =>
         let address := property "address" body in
         let all := property "all" body in
         dryRun <- isDryRunEnabled ;;
         if truthy all then
           result <- reclaimAllEligible env dryRun ;;
           ret (ReclaimedAll result)
         else if truthy address then
           match address with
           | Some (JString addr) =>
               result <- reclaimAccount env addr dryRun ;;
               ret (ReclaimedOne result)
           | Some other =>
               lift (String_of platform other) ;;
               throw (JsError (prisma_invalid_argument platform other))
           | None => ret (ReclaimBadRequest provide_address_or_all)
           end
         else ret (ReclaimBadRequest provide_address_or_all)
     end)
    (fun error => ret (ReclaimFailed (message_or "Reclaim failed" error))).

(** The message of the 500 answer for an address that is truthy and not a
    string. *)
Definition rejected_address (platform : Platform) (other : Json) : string :=
  match String_of platform other with
  | Ok _ => prisma_invalid_argument platform other
  | Throw e => message_or "Reclaim failed" e
  end.

Inductive ScanResponse :=
  | ScanSimulated (accountCount : nat) (timestamp : float)   (* 200 *)
  | ScanScanned (result : ScanResult)                        (* 200 *)
  | ScanFailed (error : string).                             (* 500 *)

(** [POST /api/scan] *)
Definition scan_POST (env : ServerEnv) : M ScanResponse :=
  try_catch
    (dryRunSetting <- prisma.settings_findUnique "dry_run_mode" ;;
     let isSimulationMode :=
       match dryRunSetting with
       | Some value => String.eqb value "true"
       | None => false
       end in
     match config_operatorPublicKey env with
     | Some operatorPublicKey =>
         if config_isMockMode env || isSimulationMode then
           accountCount <- DemoSeeder.seedDemoData env ;;
           timestamp <- now env ;;
           ret (ScanSimulated accountCount timestamp)
         else
           DemoSeeder.sponsoredAccount_deleteMany ;;
           operatorKey <- new_PublicKey env operatorPublicKey ;;
           result <- scanForSponsoredAccounts env operatorKey ;;
           ret (ScanScanned result)
     | None =>
         accountCount <- DemoSeeder.seedDemoData env ;;
         timestamp <- now env ;;
         ret (ScanSimulated accountCount timestamp)
     end)
    (fun error =>
       ret (ScanFailed
              match error with JsError message => message | NonError => "Scan failed" end)).

Inductive SettingsResponse :=
  | SettingsUpdated (key value : string)        (* 200 *)
  | SettingsBadRequest (error : string)         (* 400 *)
  | SettingsFailed (error : string).            (* 500 *)

Definition allowedKeys : list string := ["min_age_days"; "dry_run_mode"].

Definition invalid_setting_key : string :=
  "Invalid setting key. Allowed: " +:+ "min_age_days, dry_run_mode".

(** [PUT /api/settings].  A body that is not JSON rejects [request.json()],
    which nothing catches before the handler's own catch block; the body
    [null] cannot be destructured.  [allowedKeys.includes(key)] compares
    strictly, so a key that is not a string is none of the allowed keys. *)
Definition settings_PUT (platform : Platform) (request : Request)
    : M SettingsResponse :=
  try_catch
    (match request with
     | NotJson error => throw error
     | Body JNull => throw (JsError (cannot_destructure_null platform "key"))
     | Body body =>
         let key := property "key" body in
         let value := property "value" body in
         if negb (truthy key) then
           ret (SettingsBadRequest key_and_value_required)
         else
           match value with
           | None => ret (SettingsBadRequest key_and_value_required)
           | Some value =>
               match key with
               | Some (JString key) =>
                   if negb (includes allowedKeys key) then
                     ret (SettingsBadRequest invalid_setting_key)
                   else
                     stored <- lift (String_of platform value) ;;
                     settings_upsert key stored ;;
                     ret (SettingsUpdated key stored)
               | _ => ret (SettingsBadRequest invalid_setting_key)
               end
           end
     end)
    (fun error =>
       ret (SettingsFailed (message_or "Failed to update settings" error))).

(** [GET /api/settings]: the settings as a key-value object, and
    [isMockMode]. *)
Definition settings_GET (env : Env) : M (gmap string string * bool) :=
  settings <- read_db settings ;;
  ret (settings, config_isMockMode env).

(** [GET /api/stats] *)
Definition stats_GET (env : Env) : M (ReclaimStats * bool) :=
  stats <- getReclaimStats ;;
  ret (stats, config_isMockMode env).

End Api.

(* ===================================================================== *)
(** ** Vocabulary for the statements about the batch operations           *)
(* ===================================================================== *)

(** The sum of the five counters of a tally. *)
Definition tally_sum (r : JudgeTally) : nat :=
  (t_eligible r + t_protected r + t_active r + t_skipped r + t_whitelisted r)%nat.

(** The table after every row that is not RECLAIMED got the status of its
    verdict, one clock reading per judged row, starting at moment [t]. *)
Fixpoint judged_rows (env : Env) (settings : JudgmentSettings)
    (wl : list string) (t : nat) (rows : list SponsoredAccount)
    : list SponsoredAccount :=
  match rows with
  | [] => []
  | a :: rest =>
      if not_reclaimed a
      then set_status
             (as_Status (j_status (judgeAccount (Date_now env t) a settings wl))) a
           :: judged_rows env settings wl (S t) rest
      else a :: judged_rows env settings wl t rest
  end.

(** [Math.max(0, balance - fee)] of a row. *)
Definition potential_of (a : SponsoredAccount) : float :=
  JS.Math_max 0 (PrimFloat.sub (balance a) TX_FEE_SOL).

(** Every address stored as ELIGIBLE in [rows'] was stored as ELIGIBLE in
    [rows]. *)
Definition no_new_eligible (rows rows' : list SponsoredAccount) : Prop :=
  forall addr a',
    prisma.lookup_account addr rows' = Some a' -> status a' = ELIGIBLE ->
    exists a, prisma.lookup_account addr rows = Some a /\ status a = ELIGIBLE.

(** [where: { status }] for one of the stored statuses. *)
Definition stored_as (st : Status) (a : SponsoredAccount) : bool :=
  bool_decide (status a = st).

(** The requests of [new] that move funds. *)
Definition writes (new : list GatewayCall) : list GatewayCall :=
  List.filter is_write new.

(** The sum [getReclaimStats] reports as [totalRecovered]. *)
Definition total_recovered (log : list ActivityLog) : float :=
  fold_left (fun total l => PrimFloat.add total (log_amount l))
            (List.filter real_reclaim log) 0%float.

(** Every row of [rows] is still in [rows'], with the rent minimum and the
    detection date it had. *)
Definition rows_kept (rows rows' : list SponsoredAccount) : Prop :=
  forall addr a,
    prisma.lookup_account addr rows = Some a ->
    exists a', prisma.lookup_account addr rows' = Some a'
               /\ rentExemptMin a' = rentExemptMin a
               /\ detectedAt a' = detectedAt a.

(** Between [w] and [w'] the RPC node was only asked to read. *)
Definition no_funds_moved (w w' : World) : Prop :=
  exists new, calls w' = calls w ++ new /\ writes new = [].

(** What a scan may do between [w] and [w']: rows are added or refreshed,
    addresses stay unique, a RECLAIMED row stays RECLAIMED, no row becomes
    ELIGIBLE, the whitelist and the settings are as they were, and the RPC
    node was only asked to read. *)
Definition scanned (w w' : World) : Prop :=
  (unique_addresses (db w) -> unique_addresses (db w'))
  /\ keeps_reclaimed (sponsoredAccount (db w)) (sponsoredAccount (db w'))
  /\ no_new_eligible (sponsoredAccount (db w)) (sponsoredAccount (db w'))
  /\ rows_kept (sponsoredAccount (db w)) (sponsoredAccount (db w'))
  /\ whitelist (db w') = whitelist (db w)
  /\ settings (db w') = settings (db w)
  /\ no_funds_moved w w'.

(** The entry a scan appends to the activity log. *)
Definition scan_entry (env : Env) (operator : string) (newCount updatedCount : nat)
    : ActivityLog :=
  {| log_action := LOG_SCAN;
     log_account := operator;
     log_amount := 0;
     log_mode := if config_isMockMode env then SIMULATION else REAL;
     log_reason := [Lit "Scan complete: "; count_piece newCount;
                    Lit " new, "; count_piece updatedCount; Lit " updated"];
     log_txSignature := None |}.

(** [d] is what [extractSponsoredAccounts] pushes for the instruction data
    [info] of a transaction dated [txTime]. *)
Definition discovered_from (txTime : float) (d : DiscoveredAccount)
    (info : InstructionInfo) : Prop :=
  d_address d = i_newAccount info
  /\ d_balance d = PrimFloat.div (i_lamports info) LAMPORTS_PER_SOL
  /\ d_createdAt d = txTime.

(** The instructions [extractSponsoredAccounts] takes for a sponsored account
    creation: a parsed instruction of the system program, of type
    createAccount or createAccountWithSeed, whose source is the operator. *)
Definition sponsored_creation (operatorAddress : string) (i : Instruction)
    : option InstructionInfo :=
  match i with
  | ParsedInstruction program type (Some info) =>
      if String.eqb program "system"
         && (String.eqb type "createAccount"
             || String.eqb type "createAccountWithSeed")
         && String.eqb (i_source info) operatorAddress
      then Some info else None
  | _ => None
  end.

(* ===================================================================== *)
(** ** The Judge                                                          *)
(* ===================================================================== *)

Section JudgeFacts.

Variables (now : float) (account : SponsoredAccount)
          (settings : JudgmentSettings) (wl : list string).

Lemma judge_skip :
  unprofitable account = true ->
  j_status (judgeAccount now account settings wl) = J_SKIP
  /\ j_potentialRecovery (judgeAccount now account settings wl) = 0%float
  /\ j_failedCheck (judgeAccount now account settings wl) = Some PROFIT.
Proof.
  unfold unprofitable, judgeAccount. intros ->. auto.
Qed.

Lemma judge_protected :
  unprofitable account = false -> holds_user_funds account = true ->
  j_status (judgeAccount now account settings wl) = J_PROTECTED
  /\ j_failedCheck (judgeAccount now account settings wl) = Some USER_FUNDS.
Proof.
  unfold unprofitable, holds_user_funds, judgeAccount. intros -> ->. auto.
Qed.

Lemma judge_active :
  unprofitable account = false -> holds_user_funds account = false ->
  too_recent now account settings = true ->
  j_status (judgeAccount now account settings wl) = J_ACTIVE.
Proof.
  unfold unprofitable, holds_user_funds, too_recent, judgeAccount.
  intros -> -> ->. reflexivity.
Qed.

Lemma judge_whitelisted :
  unprofitable account = false -> holds_user_funds account = false ->
  too_recent now account settings = false ->
  includes wl (address account) = true ->
  j_status (judgeAccount now account settings wl) = J_WHITELISTED.
Proof.
  unfold unprofitable, holds_user_funds, too_recent, judgeAccount.
  intros -> -> -> ->. reflexivity.
Qed.

Lemma judge_eligible :
  unprofitable account = false -> holds_user_funds account = false ->
  too_recent now account settings = false ->
  includes wl (address account) = false ->
  j_status (judgeAccount now account settings wl) = J_ELIGIBLE
  /\ j_potentialRecovery (judgeAccount now account settings wl)
     = JS.Math_max 0 (PrimFloat.sub (balance account) TX_FEE_SOL).
Proof.
  unfold unprofitable, holds_user_funds, too_recent, judgeAccount.
  intros -> -> -> ->. auto.
Qed.

(** The verdict names the account it was given. *)
Lemma judge_address :
  j_address (judgeAccount now account settings wl) = address account.
Proof.
  unfold judgeAccount. repeat case_match; reflexivity.
Qed.

End JudgeFacts.

(** The scenarios of the specification, on the seeded accounts. *)
Example scenario_eligible_after_92_days :
  let a := mkAccount "a" Seed.RENT_MINIMUM Seed.RENT_MINIMUM
             (Seed.daysAgo Seed.seeded_at 92) ELIGIBLE 0%float in
  let j := judgeAccount Seed.seeded_at a Seed.default_settings [] in
  j_status j = J_ELIGIBLE
  /\ j_potentialRecovery j = PrimFloat.sub Seed.RENT_MINIMUM TX_FEE_SOL.
Proof. vm_compute. auto. Qed.

Example scenario_protected_regardless_of_age :
  j_status (judgeAccount Seed.seeded_at
              (mkAccount "a" 1.25 Seed.RENT_MINIMUM
                 (Seed.daysAgo Seed.seeded_at 3) PROTECTED 0%float)
              Seed.default_settings []) = J_PROTECTED.
Proof. vm_compute. reflexivity. Qed.

Example scenario_active_18_more_days :
  let j := judgeAccount Seed.seeded_at Seed.actv01 Seed.default_settings [] in
  j_status j = J_ACTIVE
  /\ j_reason j = [Lit "Active: Account age ("; Num 12;
                   Lit " days) is less than minimum ("; Num 30;
                   Lit " days) - wait "; Num 18; Lit " more days"].
Proof. vm_compute. auto. Qed.

(** C1, as stated, fails: an account whose balance exceeds
    rentExemptMin * 1.01 but does not exceed the transaction fee is stopped
    by the profit check and gets SKIP, not PROTECTED. *)
Lemma user_funds_claim_fails_below_fee :
  ~ (forall now account settings wl,
       holds_user_funds account = true ->
       j_status (judgeAccount now account settings wl) = J_PROTECTED).
Proof.
  intros H.
  specialize (H Seed.seeded_at
                (mkAccount "a" 0.000004 0.000001 Seed.seeded_at ACTIVE
                           Seed.seeded_at)
                Seed.default_settings []).
  vm_compute in H. specialize (H eq_refl). discriminate H.
Qed.

(** C1 (amended): every account that passes the profit check (its balance
    is not <= the transaction fee) and whose balance is
    > rentExemptMin * 1.01 gets verdict PROTECTED from judgeAccount, at
    every clock reading, last activity, settings and whitelist. *)
Theorem user_funds_protected :
  forall now account settings wl,
    unprofitable account = false ->
    holds_user_funds account = true ->
    j_status (judgeAccount now account settings wl) = J_PROTECTED.
Proof.
  intros now account settings wl Hfee Hfunds.
  exact (proj1 (judge_protected now account settings wl Hfee Hfunds)).
Qed.

Lemma user_funds_protected_witness :
  j_status (judgeAccount Seed.seeded_at Seed.whale1 Seed.default_settings
              ["8xKVzxxxxxxxxxxxxxxxxxxxxxxxxxxxxxxWhale1"]) = J_PROTECTED.
Proof.
  apply (user_funds_protected Seed.seeded_at Seed.whale1 Seed.default_settings
           ["8xKVzxxxxxxxxxxxxxxxxxxxxxxxxxxxxxxWhale1"]);
    vm_compute; reflexivity.
Defined.

(** C5: the profit check runs first and the whitelist check last: an account
    with balance <= transactionFee gets SKIP with potentialRecovery 0 whatever
    the whitelist holds, and a whitelisted account that passes checks 1 to 3
    gets WHITELISTED (so never ELIGIBLE). *)
Theorem profit_first_whitelist_last :
  forall now account settings wl,
    (unprofitable account = true ->
     j_status (judgeAccount now account settings wl) = J_SKIP
     /\ j_potentialRecovery (judgeAccount now account settings wl) = 0%float)
    /\ (unprofitable account = false ->
        holds_user_funds account = false ->
        too_recent now account settings = false ->
        includes wl (address account) = true ->
        j_status (judgeAccount now account settings wl) = J_WHITELISTED
        /\ j_status (judgeAccount now account settings wl) <> J_ELIGIBLE).
Proof.
  intros now account settings wl. split.
  - intros H. destruct (judge_skip now account settings wl H) as (? & ? & _).
    auto.
  - intros H1 H2 H3 H4.
    rewrite (judge_whitelisted now account settings wl H1 H2 H3 H4).
    split; [reflexivity | discriminate].
Qed.

Lemma profit_first_whitelist_last_witness :
  (let a := mkAccount "w" 0.000005 Seed.RENT_MINIMUM
              (Seed.daysAgo Seed.seeded_at 92) ACTIVE 0%float in
   j_status (judgeAccount Seed.seeded_at a Seed.default_settings ["w"]) = J_SKIP
   /\ j_potentialRecovery (judgeAccount Seed.seeded_at a Seed.default_settings ["w"])
      = 0%float)
  /\ (j_status (judgeAccount Seed.seeded_at Seed.dust01 Seed.default_settings
                  ["2dSTxxxxxxxxxxxxxxxxxxxxxxxxxxxxxxDust01"]) = J_WHITELISTED
      /\ j_status (judgeAccount Seed.seeded_at Seed.dust01 Seed.default_settings
                     ["2dSTxxxxxxxxxxxxxxxxxxxxxxxxxxxxxxDust01"]) <> J_ELIGIBLE).
Proof.
  split.
  - apply (profit_first_whitelist_last Seed.seeded_at
             (mkAccount "w" 0.000005 Seed.RENT_MINIMUM
                (Seed.daysAgo Seed.seeded_at 92) ACTIVE 0%float)
             Seed.default_settings ["w"]).
    vm_compute; reflexivity.
  - apply (profit_first_whitelist_last Seed.seeded_at Seed.dust01
             Seed.default_settings ["2dSTxxxxxxxxxxxxxxxxxxxxxxxxxxxxxxDust01"]);
      vm_compute; reflexivity.
Defined.

(** C6, as stated, fails: the age check reads the clock, so the same
    account, settings and whitelist get ACTIVE on one day and ELIGIBLE
    thirty days later. *)
Lemma verdict_changes_with_the_clock :
  ~ (forall now1 now2 account settings wl,
       judgeAccount now1 account settings wl
       = judgeAccount now2 account settings wl).
Proof.
  intros H.
  specialize (H Seed.seeded_at (Seed.daysAgo Seed.seeded_at (-30)) Seed.actv01
                Seed.default_settings []).
  apply (f_equal j_status) in H. vm_compute in H. discriminate H.
Qed.

(** C6 (amended): judgeAccount is deterministic given its three inputs and
    the clock reading: two invocations with the same account record, settings
    and whitelist return the same verdict (status, reason, potentialRecovery
    and all) whenever they see the same account age, and at any two clock
    readings when the profit check or the user-funds check decides. *)
Theorem verdict_determined_by_inputs_and_age :
  forall now1 now2 account settings wl,
    accountAgeDays now1 account = accountAgeDays now2 account
    \/ unprofitable account = true
    \/ holds_user_funds account = true ->
    judgeAccount now1 account settings wl = judgeAccount now2 account settings wl.
Proof.
  intros now1 now2 account settings wl.
  unfold unprofitable, holds_user_funds, judgeAccount.
  destruct (PrimFloat.leb (balance account) TX_FEE_SOL); [reflexivity|].
  destruct (PrimFloat.ltb _ (balance account)); [reflexivity|].
  intros [-> | [H | H]]; [reflexivity | discriminate H | discriminate H].
Qed.

Lemma verdict_determined_by_inputs_and_age_witness :
  judgeAccount Seed.seeded_at Seed.whale1 Seed.default_settings []
  = judgeAccount (Seed.daysAgo Seed.seeded_at (-30)) Seed.whale1
      Seed.default_settings [].
Proof.
  apply (verdict_determined_by_inputs_and_age Seed.seeded_at
           (Seed.daysAgo Seed.seeded_at (-30)) Seed.whale1
           Seed.default_settings []).
  right. right. vm_compute. reflexivity.
Defined.

(** C10: with minAgeDays = 0 the age check falls back to the default of 30
    days: judgeAccount returns the same verdict for minAgeDays = 0 as for
    minAgeDays = 30, for every account, whitelist and clock reading. *)
Theorem zero_min_age_is_thirty :
  forall now account wl dryRun dryRun',
    judgeAccount now account (mkSettings 0 dryRun) wl
    = judgeAccount now account (mkSettings 30 dryRun') wl.
Proof.
  intros now account wl dryRun dryRun'. reflexivity.
Qed.

(** A zero-day threshold does not take effect: twelve days after its last
    activity the account is still ACTIVE. *)
Example zero_min_age_still_waits :
  j_status (judgeAccount Seed.seeded_at Seed.actv01 (mkSettings 0 true) [])
  = J_ACTIVE.
Proof. vm_compute. reflexivity. Qed.

(* ===================================================================== *)
(** ** The Store                                                          *)
(* ===================================================================== *)

Section StoreFacts.

Implicit Types (rows : list SponsoredAccount) (a : SponsoredAccount)
               (addr : string).

Lemma has_address_true addr a :
  prisma.has_address addr a = true <-> address a = addr.
Proof. unfold prisma.has_address. apply String.eqb_eq. Qed.

Lemma has_address_false addr a :
  prisma.has_address addr a = false <-> address a <> addr.
Proof. unfold prisma.has_address. apply String.eqb_neq. Qed.

Lemma lookup_account_Some addr rows a :
  prisma.lookup_account addr rows = Some a -> address a = addr /\ In a rows.
Proof.
  unfold prisma.lookup_account. intros H.
  apply find_some in H as [Hin Hb]. apply has_address_true in Hb. auto.
Qed.

(** Under the unique constraint, a row is found by its own address. *)
Lemma lookup_account_unique rows a :
  NoDup (address <$> rows) -> In a rows ->
  prisma.lookup_account (address a) rows = Some a.
Proof.
  induction rows as [|b rows IH]; simpl; intros Hnd Hin; [contradiction|].
  apply NoDup_cons in Hnd as [Hb Hnd].
  destruct (prisma.has_address (address a) b) eqn:E.
  - apply has_address_true in E. destruct Hin as [-> | Hin]; [reflexivity|].
    exfalso. apply Hb. rewrite E. apply list_elem_of_fmap.
    exists a. split; [reflexivity|]. apply list_elem_of_In. exact Hin.
  - apply has_address_false in E. destruct Hin as [-> | Hin]; [congruence|].
    apply IH; assumption.
Qed.

(** The row an update touches, and the rows it leaves alone. *)
Lemma lookup_update_row_same addr f rows a :
  prisma.lookup_account addr rows = Some a ->
  address (f a) = address a ->
  prisma.lookup_account addr (prisma.update_row addr f rows) = Some (f a).
Proof.
  unfold prisma.lookup_account.
  induction rows as [|b rows IH]; simpl; intros H Hf; [discriminate|].
  destruct (prisma.has_address addr b) eqn:E.
  - injection H as ->. simpl.
    assert (prisma.has_address addr (f a) = true) as ->; [|reflexivity].
    apply has_address_true. rewrite Hf. apply has_address_true. exact E.
  - simpl. rewrite E. apply IH; assumption.
Qed.

Lemma lookup_update_row_other addr other f rows :
  other <> addr ->
  (forall a, address (f a) = address a) ->
  prisma.lookup_account other (prisma.update_row addr f rows)
  = prisma.lookup_account other rows.
Proof.
  unfold prisma.lookup_account. intros Hne Hf.
  induction rows as [|b rows IH]; simpl; [reflexivity|].
  destruct (prisma.has_address addr b) eqn:E; simpl.
  - apply has_address_true in E.
    assert (prisma.has_address other (f b) = false) as ->.
    { apply has_address_false. rewrite Hf. congruence. }
    assert (prisma.has_address other b = false) as ->; [|reflexivity].
    apply has_address_false. congruence.
  - destruct (prisma.has_address other b); [reflexivity | exact IH].
Qed.

Lemma length_update_row addr f rows :
  length (prisma.update_row addr f rows) = length rows.
Proof.
  induction rows as [|b rows IH]; simpl; [reflexivity|].
  destruct (prisma.has_address addr b); simpl; congruence.
Qed.

Lemma lookup_account_app_None addr rows a :
  prisma.lookup_account addr rows = None ->
  prisma.lookup_account addr (rows ++ [a])
  = if prisma.has_address addr a then Some a else None.
Proof.
  unfold prisma.lookup_account.
  induction rows as [|b rows IH]; simpl; intros H; [reflexivity|].
  destruct (prisma.has_address addr b); [discriminate | apply IH, H].
Qed.

End StoreFacts.

(* ===================================================================== *)
(** ** The Executioner: one account                                       *)
(* ===================================================================== *)

Section ReclaimOne.

Variable env : Env.

(** What the function does up to the Judge's verdict. *)
Lemma reclaimAccount_try_not_found addr dryRun w :
  prisma.lookup_account addr (sponsoredAccount (db w)) = None ->
  exists r,
    reclaimAccount env addr dryRun w = (Ok r, w)
    /\ r_success r = false /\ r_error r = Some "ACCOUNT_NOT_FOUND".
Proof.
  intros H. eexists.
  unfold reclaimAccount, try_catch, reclaimAccount_try, bind,
    prisma.sponsoredAccount_findUnique, read_db.
  rewrite H. simpl. auto.
Qed.

Lemma reclaimAccount_not_eligible addr dryRun w account :
  prisma.lookup_account addr (sponsoredAccount (db w)) = Some account ->
  j_status (fresh_verdict env w account) <> J_ELIGIBLE ->
  reclaimAccount env addr dryRun w
  = (Ok {| r_success := false; r_address := addr; r_mode := mode_of dryRun;
           r_amount := 0; r_txSignature := None; r_explorerUrl := None;
           r_message := Lit "Cannot reclaim: "
                        :: j_reason (fresh_verdict env w account);
           r_error := Some (Status_name
                        (as_Status (j_status (fresh_verdict env w account)))) |},
     mkWorld
       (with_log (fun l => l ++
          [ {| log_action := LOG_SKIP; log_account := addr;
               log_amount := balance account; log_mode := mode_of dryRun;
               log_reason := j_reason (fresh_verdict env w account);
               log_txSignature := None |} ]) (db w))
       (S (tick w)) (calls w)).
Proof.
  intros Hfound Hne.
  unfold reclaimAccount, try_catch, reclaimAccount_try, bind,
    prisma.sponsoredAccount_findUnique, read_db.
  rewrite Hfound. cbn -[judgeAccount].
  fold (fresh_verdict env w account).
  rewrite bool_decide_eq_false_2 by exact Hne. cbn.
  rewrite app_nil_r. reflexivity.
Qed.

Lemma reclaimAccount_simulated addr w account :
  prisma.lookup_account addr (sponsoredAccount (db w)) = Some account ->
  j_status (fresh_verdict env w account) = J_ELIGIBLE ->
  reclaimAccount env addr true w
  = (Ok {| r_success := true; r_address := addr; r_mode := SIMULATION;
           r_amount := j_potentialRecovery (fresh_verdict env w account);
           r_txSignature := None; r_explorerUrl := None;
           r_message :=
             [Lit "Simulation Success: Would reclaim ";
              Fixed (j_potentialRecovery (fresh_verdict env w account)) 6;
              Lit " SOL from "; Lit addr];
           r_error := None |},
     mkWorld
       (with_log (fun l => l ++
          [ {| log_action := LOG_RECLAIM; log_account := addr;
               log_amount := j_potentialRecovery (fresh_verdict env w account);
               log_mode := SIMULATION;
               log_reason :=
                 [Lit "Simulation: Would reclaim ";
                  Fixed (j_potentialRecovery (fresh_verdict env w account)) 6;
                  Lit " SOL"];
               log_txSignature := None |} ]) (db w))
       (S (tick w)) (calls w)).
Proof.
  intros Hfound Hel.
  unfold reclaimAccount, try_catch, reclaimAccount_try, bind,
    prisma.sponsoredAccount_findUnique, read_db.
  rewrite Hfound. cbn -[judgeAccount].
  fold (fresh_verdict env w account).
  rewrite bool_decide_eq_true_2 by exact Hel. cbn.
  rewrite app_nil_r. reflexivity.
Qed.

End ReclaimOne.

(** C2: when reclaimAccount finds the account and the Judge, re-run on the
    current settings and whitelist, does not return ELIGIBLE, the call (in
    either mode) appends exactly one Activity Log entry, a SKIP carrying the
    verdict's reason, returns failure with the verdict's status as error
    code, appends no RECLAIM entry, and leaves accounts and the Ledger
    Gateway untouched. *)
Theorem reclaim_not_eligible_logs_skip :
  forall env addr dryRun w account,
    prisma.lookup_account addr (sponsoredAccount (db w)) = Some account ->
    j_status (fresh_verdict env w account) <> J_ELIGIBLE ->
    exists r entry w',
      reclaimAccount env addr dryRun w = (Ok r, w')
      /\ activityLog (db w') = activityLog (db w) ++ [entry]
      /\ log_action entry = LOG_SKIP
      /\ log_account entry = addr
      /\ log_reason entry = j_reason (fresh_verdict env w account)
      /\ r_success r = false
      /\ r_error r
         = Some (Status_name (as_Status (j_status (fresh_verdict env w account))))
      /\ (forall e, In e (activityLog (db w')) -> log_action e = LOG_RECLAIM ->
                    In e (activityLog (db w)))
      /\ sponsoredAccount (db w') = sponsoredAccount (db w)
      /\ calls w' = calls w.
Proof.
  intros env addr dryRun w account Hfound Hne.
  do 3 eexists. split.
  { apply reclaimAccount_not_eligible; eassumption. }
  simpl. repeat split; try reflexivity.
  intros e Hin Hact. apply in_app_or in Hin as [Hin | [<- | []]].
  - exact Hin.
  - discriminate Hact.
Qed.

Lemma reclaim_not_eligible_logs_skip_witness :
  exists r entry w',
    reclaimAccount Seed.mock_env "8xKVzxxxxxxxxxxxxxxxxxxxxxxxxxxxxxxWhale1" false
      Seed.world = (Ok r, w')
    /\ activityLog (db w') = Seed.logs ++ [entry]
    /\ log_action entry = LOG_SKIP
    /\ r_success r = false
    /\ r_error r = Some "PROTECTED".
Proof.
  destruct (reclaim_not_eligible_logs_skip Seed.mock_env
              "8xKVzxxxxxxxxxxxxxxxxxxxxxxxxxxxxxxWhale1" false Seed.world
              Seed.whale1)
    as (r & entry & w' & Hrun & Hlog & Hact & _ & _ & Hs & He & _).
  - vm_compute. reflexivity.
  - vm_compute. discriminate.
  - exists r, entry, w'. repeat split; assumption.
Defined.

(** C4: reclaimAccount(address, dryRun = true) sends nothing to the Ledger
    Gateway (so never the transfer), leaves every stored account, its status
    included, as it was, returns no transaction identifier, and, when the
    account is found and its fresh verdict is ELIGIBLE, appends one RECLAIM
    entry in SIMULATION mode with the verdict's potentialRecovery and returns
    success with that amount. *)
Theorem dry_run_touches_only_the_log :
  forall env addr w,
    exists r w',
      reclaimAccount env addr true w = (Ok r, w')
      /\ calls w' = calls w
      /\ sponsoredAccount (db w') = sponsoredAccount (db w)
      /\ r_txSignature r = None
      /\ (forall account,
            prisma.lookup_account addr (sponsoredAccount (db w)) = Some account ->
            j_status (fresh_verdict env w account) = J_ELIGIBLE ->
            r_success r = true
            /\ r_mode r = SIMULATION
            /\ r_amount r = j_potentialRecovery (fresh_verdict env w account)
            /\ exists entry,
                 activityLog (db w') = activityLog (db w) ++ [entry]
                 /\ log_action entry = LOG_RECLAIM
                 /\ log_mode entry = SIMULATION
                 /\ log_account entry = addr
                 /\ log_amount entry
                    = j_potentialRecovery (fresh_verdict env w account)).
Proof.
  intros env addr w.
  destruct (prisma.lookup_account addr (sponsoredAccount (db w)))
    as [account|] eqn:Hfound.
  - destruct (decide (j_status (fresh_verdict env w account) = J_ELIGIBLE))
      as [Hel | Hne].
    + do 2 eexists. split.
      { apply reclaimAccount_simulated; eassumption. }
      simpl. do 3 (split; [reflexivity|]).
      intros account' [= <-] _. do 3 (split; [reflexivity|]).
      eexists. repeat split; reflexivity.
    + do 2 eexists. split.
      { apply reclaimAccount_not_eligible; eassumption. }
      simpl. do 3 (split; [reflexivity|]).
      intros account' [= <-] Hel. contradiction.
  - destruct (reclaimAccount_try_not_found env addr true w Hfound)
      as (r & Hrun & Hs & He).
    exists r, w. split; [exact Hrun|]. do 2 (split; [reflexivity|]).
    split; [|discriminate].
    revert Hrun.
    unfold reclaimAccount, try_catch, reclaimAccount_try, bind,
      prisma.sponsoredAccount_findUnique, read_db.
    rewrite Hfound. simpl. intros [= <-]. reflexivity.
Qed.

Lemma dry_run_touches_only_the_log_witness :
  exists r w',
    reclaimAccount Seed.mock_env "2dSTxxxxxxxxxxxxxxxxxxxxxxxxxxxxxxDust01" true
      Seed.world = (Ok r, w')
    /\ calls w' = []
    /\ sponsoredAccount (db w') = Seed.accounts Seed.seeded_at
    /\ r_txSignature r = None
    /\ r_success r = true
    /\ r_amount r = PrimFloat.sub Seed.RENT_MINIMUM TX_FEE_SOL.
Proof.
  destruct (dry_run_touches_only_the_log Seed.mock_env
              "2dSTxxxxxxxxxxxxxxxxxxxxxxxxxxxxxxDust01" Seed.world)
    as (r & w' & Hrun & Hcalls & Hacc & Htx & Hel).
  destruct (Hel Seed.dust01) as (Hs & _ & Ha & _).
  - vm_compute. reflexivity.
  - vm_compute. reflexivity.
  - exists r, w'. repeat split; assumption.
Defined.

(** In real mode without an operator key the call returns NO_PRIVATE_KEY and
    writes nothing: only the clock has advanced. *)
Lemma reclaimAccount_no_private_key env addr w account :
  prisma.lookup_account addr (sponsoredAccount (db w)) = Some account ->
  j_status (fresh_verdict env w account) = J_ELIGIBLE ->
  config_operatorPrivateKey env = None ->
  exists r,
    reclaimAccount env addr false w = (Ok r, mkWorld (db w) (S (tick w)) (calls w))
    /\ r_success r = false /\ r_error r = Some "NO_PRIVATE_KEY".
Proof.
  intros Hfound Hel Hkey. eexists.
  unfold reclaimAccount, try_catch, reclaimAccount_try, bind,
    prisma.sponsoredAccount_findUnique, read_db.
  rewrite Hfound. cbn -[judgeAccount].
  fold (fresh_verdict env w account).
  rewrite bool_decide_eq_true_2 by exact Hel. cbn.
  rewrite Hkey. cbn. unfold advance. rewrite app_nil_r. auto.
Qed.

(** In real mode, for an ELIGIBLE account that the node reports empty, and
    for one whose on-chain balance does not exceed the fee, the call returns
    after the balance request: the first marks the row RECLAIMED, neither
    appends to the Activity Log. *)
Lemma reclaimAccount_after_balance env addr w account key operatorPubkey lamports :
  prisma.lookup_account addr (sponsoredAccount (db w)) = Some account ->
  j_status (fresh_verdict env w account) = J_ELIGIBLE ->
  config_operatorPrivateKey env = Some key ->
  Keypair_fromSecretKey env key = Ok operatorPubkey ->
  PublicKey_ok env addr = true ->
  getBalance env (S (tick w)) addr = Ok lamports ->
  (JS.strict_eq_zero lamports = true ->
   exists r w',
     reclaimAccount env addr false w = (Ok r, w')
     /\ r_success r = true /\ r_amount r = 0%float
     /\ activityLog (db w') = activityLog (db w)
     /\ sponsoredAccount (db w')
        = prisma.update_row addr
            (fun row => set_balance 0 (set_status RECLAIMED row))
            (sponsoredAccount (db w)))
  /\ (JS.strict_eq_zero lamports = false ->
      PrimFloat.leb (PrimFloat.sub lamports TX_FEE_LAMPORTS) 0 = true ->
      exists r w',
        reclaimAccount env addr false w = (Ok r, w')
        /\ r_success r = false /\ r_error r = Some "INSUFFICIENT_BALANCE"
        /\ db w' = db w).
Proof.
  intros Hfound Hel Hkey Hpair Hpk Hbal.
  split; intros Hz.
  - do 2 eexists.
    unfold reclaimAccount, try_catch, reclaimAccount_try, bind,
      prisma.sponsoredAccount_findUnique, read_db.
    rewrite Hfound. cbn -[judgeAccount].
    fold (fresh_verdict env w account).
    rewrite bool_decide_eq_true_2 by exact Hel. cbn.
    rewrite Hkey. unfold lift, new_PublicKey. rewrite Hpair, Hpk. cbn.
    rewrite Hbal. cbn. unfold JS.strict_eq_zero in Hz. rewrite Hz. cbn.
    unfold prisma.sponsoredAccount_update. cbn. rewrite Hfound. cbn.
    repeat split.
  - intros Hlow. do 2 eexists.
    unfold reclaimAccount, try_catch, reclaimAccount_try, bind,
      prisma.sponsoredAccount_findUnique, read_db.
    rewrite Hfound. cbn -[judgeAccount].
    fold (fresh_verdict env w account).
    rewrite bool_decide_eq_true_2 by exact Hel. cbn.
    rewrite Hkey. unfold lift, new_PublicKey. rewrite Hpair, Hpk. cbn.
    rewrite Hbal. cbn. unfold JS.strict_eq_zero in Hz. rewrite Hz. cbn.
    rewrite Hlow. cbn. repeat split.
Qed.

(** C7 fails on the code: four decisions of reclaimAccount return without an
    Activity Log entry.  On the seeded store, for the ELIGIBLE account
    2dST...Dust01 in real mode: with no operator key the call fails with
    NO_PRIVATE_KEY; with a key and an on-chain balance of 0 it marks the
    account RECLAIMED and succeeds; with a key and 3000 lamports on chain it
    fails with INSUFFICIENT_BALANCE; and for an address that is not stored it
    fails with ACCOUNT_NOT_FOUND.  The log is the seeded log after each. *)
Theorem decisions_without_log_entry :
  let dust := "2dSTxxxxxxxxxxxxxxxxxxxxxxxxxxxxxxDust01" in
  let no_key := reclaimAccount Seed.mock_env dust false Seed.world in
  let empty := reclaimAccount (Seed.keyed_env 0) dust false Seed.world in
  let low := reclaimAccount (Seed.keyed_env 3000) dust false Seed.world in
  let unknown := reclaimAccount Seed.mock_env "unknown" true Seed.world in
  (r_error <$> value_of no_key = Some (Some "NO_PRIVATE_KEY")
   /\ activityLog (db (world_after no_key)) = Seed.logs)
  /\ (r_success <$> value_of empty = Some true
      /\ status <$> prisma.lookup_account dust
                      (sponsoredAccount (db (world_after empty)))
         = Some RECLAIMED
      /\ activityLog (db (world_after empty)) = Seed.logs)
  /\ (r_error <$> value_of low = Some (Some "INSUFFICIENT_BALANCE")
      /\ activityLog (db (world_after low)) = Seed.logs)
  /\ (r_error <$> value_of unknown = Some (Some "ACCOUNT_NOT_FOUND")
      /\ activityLog (db (world_after unknown)) = Seed.logs).
Proof.
  vm_compute. repeat split; reflexivity.
Qed.

(** The decisions that are logged in real mode, for comparison: a confirmed
    transfer appends one RECLAIM entry, a failing RPC call one SKIP entry. *)
Example logged_decisions :
  let dust := "2dSTxxxxxxxxxxxxxxxxxxxxxxxxxxxxxxDust01" in
  let sent := reclaimAccount (Seed.keyed_env 2039280) dust false Seed.world in
  let failed :=
    reclaimAccount
      (mkEnv (Some "operator-secret") None (Date_now Seed.mock_env)
         (fun _ => true)
         (fun _ => JsError "Invalid public key input")
         (fun _ => Ok "OperatorPubkey")
         (fun _ _ _ => Seed.unreachable) (fun _ _ => Seed.unreachable)
         (fun _ _ => Seed.unreachable) (fun _ _ => Seed.unreachable)
         (fun _ _ => Seed.unreachable) (fun _ _ _ _ => Seed.unreachable))
      dust false Seed.world in
  (r_success <$> value_of sent = Some true
   /\ (log_action <$> activityLog (db (world_after sent)))
      = (log_action <$> Seed.logs) ++ [LOG_RECLAIM]
   /\ List.filter is_write (calls (world_after sent))
      = [SendAndConfirmTransaction dust "OperatorPubkey" 2034280])
  /\ (r_error <$> value_of failed = Some (Some "fetch failed")
      /\ (log_action <$> activityLog (db (world_after failed)))
         = (log_action <$> Seed.logs) ++ [LOG_SKIP]).
Proof.
  vm_compute. repeat split; reflexivity.
Qed.

(* ===================================================================== *)
(** ** RECLAIMED and the whitelist                                        *)
(* ===================================================================== *)

(** The batch operations do not load RECLAIMED rows. *)
Lemma batch_filters_exclude_reclaimed (rows : list SponsoredAccount) a :
  (In a (List.filter not_reclaimed rows) -> status a <> RECLAIMED)
  /\ (In a (List.filter stored_eligible rows) -> status a <> RECLAIMED).
Proof.
  split; intros H; apply filter_In in H as [_ H].
  - unfold not_reclaimed in H. apply negb_true_iff, bool_decide_eq_false in H.
    exact H.
  - unfold stored_eligible in H. apply bool_decide_eq_true in H.
    rewrite H. discriminate.
Qed.

(** [addToWhitelist] writes WHITELISTED over whatever status the row has. *)
Lemma addToWhitelist_overwrites_status addr note w a :
  prisma.lookup_account addr (sponsoredAccount (db w)) = Some a ->
  prisma.lookup_account addr
    (sponsoredAccount (db (world_after (addToWhitelist addr note w))))
  = Some (set_status WHITELISTED a).
Proof.
  unfold prisma.lookup_account. simpl.
  induction (sponsoredAccount (db w)) as [|b rows IH]; simpl; [discriminate|].
  destruct (prisma.has_address addr b) eqn:E; simpl.
  - intros [= ->]. unfold prisma.has_address in *. simpl. rewrite E. reflexivity.
  - intros H. rewrite E. apply IH, H.
Qed.

(** C3 fails on the code: on the seeded store the account RcL1...Rclm01 is
    RECLAIMED; addToWhitelist on its address changes the stored status to
    WHITELISTED, and the next judgeAllAccounts then evaluates it with the
    other thirteen accounts and stores SKIP. *)
Theorem whitelisting_reverts_reclaimed :
  let addr := "RcL1xxxxxxxxxxxxxxxxxxxxxxxxxxxxxxRclm01" in
  let stored w := status <$> prisma.lookup_account addr (sponsoredAccount (db w)) in
  let listed := world_after (addToWhitelist addr None Seed.world) in
  let judged := judgeAllAccounts Seed.mock_env listed in
  stored Seed.world = Some RECLAIMED
  /\ stored listed = Some WHITELISTED
  /\ t_total <$> value_of judged = Some 14%nat
  /\ stored (world_after judged) = Some SKIP.
Proof.
  vm_compute. repeat split; reflexivity.
Qed.

(** Without the whitelisting, [judgeAllAccounts] passes over the account. *)
Example judgeAll_skips_reclaimed :
  let addr := "RcL1xxxxxxxxxxxxxxxxxxxxxxxxxxxxxxRclm01" in
  let judged := judgeAllAccounts Seed.mock_env Seed.world in
  t_total <$> value_of judged = Some 13%nat
  /\ status <$> prisma.lookup_account addr
                  (sponsoredAccount (db (world_after judged)))
     = Some RECLAIMED.
Proof.
  vm_compute. repeat split; reflexivity.
Qed.

(* ===================================================================== *)
(** ** The Scanner's reconciliation                                       *)
(* ===================================================================== *)

Section Reconcile.

Variable env : Env.

(** The three cases of the initial classification. *)
Lemma determineInitialStatus_cases state :
  (cs_exists state = false \/ JS.strict_eq_zero (cs_balance state) = true ->
   determineInitialStatus state = RECLAIMED)
  /\ (cs_exists state = true ->
      JS.strict_eq_zero (cs_balance state) = false ->
      PrimFloat.ltb (PrimFloat.mul (cs_rentExemptMin state) 1.5)
                    (cs_balance state) = true ->
      determineInitialStatus state = PROTECTED)
  /\ (cs_exists state = true ->
      JS.strict_eq_zero (cs_balance state) = false ->
      PrimFloat.ltb (PrimFloat.mul (cs_rentExemptMin state) 1.5)
                    (cs_balance state) = false ->
      determineInitialStatus state = ACTIVE).
Proof.
  unfold determineInitialStatus. repeat split.
  - intros [-> | ->]; [reflexivity|]. rewrite orb_true_r. reflexivity.
  - intros -> -> ->. reflexivity.
  - intros -> -> ->. reflexivity.
Qed.

(** The current state never throws: a closed account, a malformed address
    and a failing RPC call all read as an absent account with balance 0. *)
Lemma getAccountCurrentState_returns addr w :
  exists state w',
    getAccountCurrentState env addr w = (Ok state, w')
    /\ db w' = db w
    /\ (cs_exists state = false -> cs_balance state = 0%float).
Proof.
  unfold getAccountCurrentState, try_catch, bind, new_PublicKey,
    connection_getAccountInfo, connection_getMinimumBalanceForRentExemption.
  destruct (PublicKey_ok env addr); cbn.
  - destruct (getAccountInfo env (tick w) addr) as [[[lamports len]|]|e]; cbn.
    + destruct (getMinimumBalanceForRentExemption env (S (tick w)) len); cbn;
        do 2 eexists; (split; [reflexivity|]); split; try reflexivity;
        discriminate.
    + do 2 eexists. split; [reflexivity|]. split; reflexivity.
    + do 2 eexists. split; [reflexivity|]. split; reflexivity.
  - do 2 eexists. split; [reflexivity|]. split; reflexivity.
Qed.

End Reconcile.

(** What STEP 3 writes for a discovered account once the state query has
    returned [state].  If a record exists, the record keeps its
    address, rentExemptMin and detectedAt, gets the current balance and a new
    lastActivity, and keeps its status unless the current balance is exactly
    zero, in which case the status becomes RECLAIMED; no other record changes.
    If no record exists, one is created with the current balance and
    status RECLAIMED for a zero or absent balance, PROTECTED when
    balance > rentExemptMin * 1.5, and ACTIVE otherwise. *)
Theorem scanner_reconciles :
  forall env account state w,
    let rows := sponsoredAccount (db w) in
    (forall existing,
        prisma.lookup_account (d_address account) rows = Some existing ->
        exists w',
          reconcile_with env account state w = (Ok false, w')
          /\ prisma.lookup_account (d_address account) (sponsoredAccount (db w'))
             = Some {| address := address existing;
                       balance := cs_balance state;
                       rentExemptMin := rentExemptMin existing;
                       lastActivity := Date_now env (tick w);
                       status := if JS.strict_eq_zero (cs_balance state)
                                 then RECLAIMED else status existing;
                       detectedAt := detectedAt existing |}
          /\ (forall other, other <> d_address account ->
                prisma.lookup_account other (sponsoredAccount (db w'))
                = prisma.lookup_account other rows)
          /\ length (sponsoredAccount (db w')) = length rows)
    /\ (prisma.lookup_account (d_address account) rows = None ->
        exists w' created,
          reconcile_with env account state w = (Ok true, w')
          /\ sponsoredAccount (db w') = rows ++ [created]
          /\ address created = d_address account
          /\ balance created = cs_balance state
          /\ rentExemptMin created = cs_rentExemptMin state
          /\ lastActivity created = d_createdAt account
          /\ (cs_exists state = false
              \/ JS.strict_eq_zero (cs_balance state) = true ->
              status created = RECLAIMED)
          /\ (cs_exists state = true ->
              JS.strict_eq_zero (cs_balance state) = false ->
              status created
              = if PrimFloat.ltb (PrimFloat.mul (cs_rentExemptMin state) 1.5)
                                 (cs_balance state)
                then PROTECTED else ACTIVE)).
Proof.
  intros env account state w rows. split.
  - intros existing Hfound. eexists. split.
    { unfold reconcile_with, bind, prisma.sponsoredAccount_findUnique, read_db.
      fold rows. rewrite Hfound. cbn.
      unfold prisma.sponsoredAccount_update. cbn. fold rows.
      rewrite Hfound. cbn. reflexivity. }
    cbn -[prisma.lookup_account prisma.update_row]. fold rows. split; [|split].
    + rewrite (lookup_update_row_same _ _ _ existing Hfound) by reflexivity.
      reflexivity.
    + intros other Hne. apply lookup_update_row_other; [exact Hne|].
      intros a. reflexivity.
    + apply length_update_row.
  - intros Hnone. do 2 eexists. split.
    { unfold reconcile_with, bind, prisma.sponsoredAccount_findUnique, read_db.
      fold rows. rewrite Hnone. cbn.
      unfold prisma.sponsoredAccount_create. cbn. fold rows.
      rewrite Hnone. cbn. reflexivity. }
    cbn. fold rows. do 5 (split; [reflexivity|]). split.
    + apply determineInitialStatus_cases.
    + intros Hex Hnz. unfold determineInitialStatus, JS.strict_eq_zero in *.
      rewrite Hex, Hnz. reflexivity.
Qed.

(** A scan of the seeded store against a node that reports one account
    creation: one row is created at the rent floor, so ACTIVE, dated by the
    block time, and one SCAN entry is appended. *)
Example scan_discovers_one_account :
  let run := scanForSponsoredAccounts Seed.scan_env "Operator111" Seed.world in
  (fun r => (s_success r, s_newAccounts r, s_updatedAccounts r, s_totalAccounts r))
    <$> value_of run = Some (true, 1%nat, 0%nat, 15%nat)
  /\ prisma.lookup_account "NewAccount111"
       (sponsoredAccount (db (world_after run)))
     = Some (mkAccount "NewAccount111" 0.00203928 0.00203928 1767000000000
               ACTIVE (PrimFloat.add Seed.seeded_at 6))
  /\ log_action <$> activityLog (db (world_after run))
     = (log_action <$> Seed.logs) ++ [LOG_SCAN]
  /\ calls (world_after run)
     = [ GetSignaturesForAddress "Operator111" 100;
         GetParsedTransaction "sigCreate";
         GetMinimumBalanceForRentExemption 165;
         GetAccountInfo "NewAccount111";
         GetMinimumBalanceForRentExemption 165 ].
Proof.
  vm_compute. repeat split; reflexivity.
Qed.

Lemma scanner_reconciles_witness :
  (exists w',
      reconcile_with Seed.mock_env
        (mkDiscovered "8xKVzxxxxxxxxxxxxxxxxxxxxxxxxxxxxxxWhale1" 0.85
           Seed.RENT_MINIMUM Seed.seeded_at)
        (mkState 0 DEFAULT_RENT_EXEMPT_MINIMUM false) Seed.world = (Ok false, w')
      /\ status <$> prisma.lookup_account "8xKVzxxxxxxxxxxxxxxxxxxxxxxxxxxxxxxWhale1"
                      (sponsoredAccount (db w')) = Some RECLAIMED)
  /\ (exists w' created,
        reconcile_with Seed.mock_env
          (mkDiscovered "NewAccount" 0.01 Seed.RENT_MINIMUM Seed.seeded_at)
          (mkState 0.01 Seed.RENT_MINIMUM true) Seed.world = (Ok true, w')
        /\ sponsoredAccount (db w') = Seed.accounts Seed.seeded_at ++ [created]
        /\ status created = PROTECTED).
Proof.
  split.
  - destruct (proj1 (scanner_reconciles Seed.mock_env
                       (mkDiscovered "8xKVzxxxxxxxxxxxxxxxxxxxxxxxxxxxxxxWhale1"
                          0.85 Seed.RENT_MINIMUM Seed.seeded_at)
                       (mkState 0 DEFAULT_RENT_EXEMPT_MINIMUM false) Seed.world)
                    Seed.whale1)
      as (w' & Hrun & Hrow & _).
    + vm_compute. reflexivity.
    + exists w'. split; [exact Hrun|].
      cbn [d_address] in Hrow. rewrite Hrow. reflexivity.
  - destruct (proj2 (scanner_reconciles Seed.mock_env
                       (mkDiscovered "NewAccount" 0.01 Seed.RENT_MINIMUM
                          Seed.seeded_at)
                       (mkState 0.01 Seed.RENT_MINIMUM true) Seed.world))
      as (w' & created & Hrun & Hrows & _ & _ & _ & _ & _ & Hst).
    + vm_compute. reflexivity.
    + exists w', created. split; [exact Hrun|]. split; [exact Hrows|].
      rewrite Hst; vm_compute; reflexivity.
Defined.

(** The state query reads every failure as a closed account: a malformed
    address, a failing account request, and a failing rent request after the
    node has reported the account and its lamports. *)
Lemma failed_state_request_reads_as_closed env addr w :
  PublicKey_ok env addr = false
  \/ (exists e, getAccountInfo env (tick w) addr = Throw e)
  \/ (exists lamports dataLength e,
        getAccountInfo env (tick w) addr = Ok (Some (lamports, dataLength))
        /\ getMinimumBalanceForRentExemption env (S (tick w)) dataLength
           = Throw e) ->
  exists w',
    getAccountCurrentState env addr w
    = (Ok (mkState 0 DEFAULT_RENT_EXEMPT_MINIMUM false), w')
    /\ db w' = db w.
Proof.
  unfold getAccountCurrentState, try_catch, bind, new_PublicKey,
    connection_getAccountInfo, connection_getMinimumBalanceForRentExemption.
  intros [Hbad | Hfail].
  { rewrite Hbad. cbn. eexists. split; reflexivity. }
  destruct (PublicKey_ok env addr); cbn;
    [|eexists; split; reflexivity].
  destruct Hfail as [[e ->] | (lamports & dataLength & e & -> & Hrent)]; cbn.
  - eexists. split; reflexivity.
  - rewrite Hrent. cbn. eexists. split; reflexivity.
Qed.

(** C9: a scan marks a funded account RECLAIMED when its state query fails.
    The store holds a PROTECTED record with 0.85 SOL at a well-formed
    address, and the node, whose history has the creation of that account by
    the operator, reports 850000000 lamports for it.  When the node rejects
    the rent request that follows the account request, the scan still reports
    success with one updated account, and the record is stored as RECLAIMED
    with balance 0, although the balance on the ledger is not zero; the Judge
    no longer loads it.  With the same node answering every request the
    record keeps its status and its 0.85 SOL. *)
Theorem scan_marks_funded_account_reclaimed :
  let stored w :=
    (fun a => (status a, balance a))
      <$> prisma.lookup_account Devnet.funded_address (sponsoredAccount (db w)) in
  let report run :=
    (fun r => (s_success r, s_newAccounts r, s_updatedAccounts r))
      <$> value_of run in
  let throttled :=
    scanForSponsoredAccounts Devnet.throttled Devnet.operator Devnet.world in
  let steady :=
    scanForSponsoredAccounts Devnet.steady Devnet.operator Devnet.world in
  PublicKey_ok Devnet.throttled Devnet.operator = true
  /\ PublicKey_ok Devnet.throttled Devnet.funded_address = true
  /\ stored Devnet.world = Some (PROTECTED, 0.85%float)
  /\ getAccountInfo Devnet.throttled 4 Devnet.funded_address
     = Ok (Some (850000000%float, 165%float))
  /\ calls (world_after throttled)
     = [ GetSignaturesForAddress Devnet.operator 100;
         GetParsedTransaction "sigCreate";
         GetMinimumBalanceForRentExemption 165;
         GetAccountInfo Devnet.funded_address;
         GetMinimumBalanceForRentExemption 165 ]
  /\ report throttled = Some (true, 0%nat, 1%nat)
  /\ stored (world_after throttled) = Some (RECLAIMED, 0%float)
  /\ t_total <$> value_of (judgeAllAccounts Devnet.throttled Devnet.world)
     = Some 14%nat
  /\ t_total <$> value_of (judgeAllAccounts Devnet.throttled
                             (world_after throttled))
     = Some 13%nat
  /\ calls (world_after steady) = calls (world_after throttled)
  /\ report steady = Some (true, 0%nat, 1%nat)
  /\ stored (world_after steady) = Some (PROTECTED, 0.85%float).
Proof.
  vm_compute. repeat split; reflexivity.
Qed.

(* ===================================================================== *)
(** ** The Executioner: the batch                                         *)
(* ===================================================================== *)

Section Batch.

Variable env : Env.

Lemma only_logged_refl w : only_logged w w.
Proof. repeat split. Qed.

Lemma only_logged_trans w1 w2 w3 :
  only_logged w1 w2 -> only_logged w2 w3 -> only_logged w1 w3.
Proof.
  intros (? & ? & ? & ?) (? & ? & ? & ?). repeat split; congruence.
Qed.

Lemma only_logged_reads w w' :
  only_logged w w' ->
  settings_of (db w') = settings_of (db w)
  /\ whitelist_of (db w') = whitelist_of (db w).
Proof.
  intros (_ & Hwl & Hs & _). unfold settings_of, whitelist_of.
  rewrite Hwl, Hs. auto.
Qed.

(** One simulated attempt: it succeeds exactly when the fresh verdict is
    ELIGIBLE, with the verdict's potentialRecovery as amount, and it reads
    the clock once. *)
Lemma simulated_attempt w account :
  prisma.lookup_account (address account) (sponsoredAccount (db w))
  = Some account ->
  exists r w',
    reclaimAccount env (address account) true w = (Ok r, w')
    /\ only_logged w w'
    /\ tick w' = S (tick w)
    /\ r_success r = is_eligible (fresh_verdict env w account)
    /\ (r_success r = true ->
        r_amount r = j_potentialRecovery (fresh_verdict env w account)).
Proof.
  intros Hfound. unfold is_eligible.
  destruct (decide (j_status (fresh_verdict env w account) = J_ELIGIBLE))
    as [Hel | Hne].
  - do 2 eexists. split; [apply reclaimAccount_simulated; eassumption|].
    rewrite bool_decide_eq_true_2 by exact Hel. repeat split.
  - do 2 eexists. split; [apply reclaimAccount_not_eligible; eassumption|].
    rewrite bool_decide_eq_false_2 by exact Hne. repeat split.
    discriminate.
Qed.

Lemma verdicts_from_length settings wl t accounts :
  length (verdicts_from env settings wl t accounts) = length accounts.
Proof.
  revert t. induction accounts as [|a rest IH]; intros t; simpl;
    [reflexivity | rewrite IH; reflexivity].
Qed.

(** The loop runs to the end of the list whatever the attempts return. *)
Lemma reclaimAll_loop_simulated accounts :
  forall w results total successful failed,
    (forall a, In a accounts ->
       prisma.lookup_account (address a) (sponsoredAccount (db w)) = Some a) ->
    let verdicts :=
      verdicts_from env (settings_of (db w)) (whitelist_of (db w)) (tick w)
                    accounts in
    exists rs w',
      reclaimAll_loop env true accounts results total successful failed w
      = (Ok (results ++ rs,
             sum_from total
               (j_potentialRecovery <$> List.filter is_eligible verdicts),
             (successful + length (List.filter is_eligible verdicts))%nat,
             (failed + length (List.filter (negb ∘ is_eligible) verdicts))%nat),
         w')
      /\ length rs = length accounts
      /\ only_logged w w'.
Proof.
  induction accounts as [|a rest IH]; intros w results total successful failed Hrows.
  - exists [], w. simpl. rewrite app_nil_r, !Nat.add_0_r.
    auto using only_logged_refl.
  - destruct (simulated_attempt w a) as (r & w1 & Hrun & Hlog & Htick & Hs & Ha).
    { apply Hrows. left. reflexivity. }
    destruct (only_logged_reads _ _ Hlog) as [Hset Hwl].
    assert (forall b, In b rest ->
              prisma.lookup_account (address b) (sponsoredAccount (db w1))
              = Some b) as Hrows1.
    { intros b Hb. destruct Hlog as (-> & _). apply Hrows. right. exact Hb. }
    cbn [reclaimAll_loop verdicts_from]. unfold bind at 1. rewrite Hrun.
    fold (fresh_verdict env w a). rewrite <- Hset, <- Hwl, <- Htick.
    cbn [List.filter compose].
    destruct (is_eligible (fresh_verdict env w a)) eqn:Hel; rewrite Hs;
      cbn [negb length fmap list_fmap]; unfold bind at 1, ret at 1.
    + destruct (IH w1 (results ++ [r])
                  (PrimFloat.add total (r_amount r)) (S successful) failed Hrows1)
        as (rs & w' & Hloop & Hlen & Hlog').
      exists (r :: rs), w'. rewrite Hloop. rewrite <- (Ha Hs).
      rewrite <- app_assoc, Nat.add_succ_r. simpl.
      split; [reflexivity|]. split; [rewrite Hlen; reflexivity|].
      eapply only_logged_trans; eassumption.
    + destruct (IH w1 (results ++ [r]) total successful (S failed) Hrows1)
        as (rs & w' & Hloop & Hlen & Hlog').
      exists (r :: rs), w'. rewrite Hloop.
      rewrite <- app_assoc, Nat.add_succ_r. simpl.
      split; [reflexivity|]. split; [rewrite Hlen; reflexivity|].
      eapply only_logged_trans; eassumption.
Qed.

Lemma filter_split_length {A} (p : A -> bool) (l : list A) :
  (length (List.filter p l) + length (List.filter (negb ∘ p) l))%nat = length l.
Proof.
  induction l as [|x l IH]; simpl; [reflexivity|].
  destruct (p x); simpl; lia.
Qed.

Lemma filter_all_eligible verdicts :
  Forall (fun j => j_status j = J_ELIGIBLE) verdicts ->
  List.filter is_eligible verdicts = verdicts
  /\ List.filter (negb ∘ is_eligible) verdicts = [].
Proof.
  induction 1 as [|j l Hj _ [IH1 IH2]]; simpl; [auto|].
  unfold compose at 1.
  assert (is_eligible j = true) as ->
    by (apply bool_decide_eq_true_2; exact Hj).
  simpl. rewrite IH1, IH2. auto.
Qed.

End Batch.

(** The seeded store holds nine rows with stored status ELIGIBLE; a
    simulated batch over it succeeds for the six at the rent floor and fails
    for the three whose balance the Judge finds PROTECTED. *)
Example seeded_batch :
  let run := reclaimAllEligible Seed.mock_env true Seed.world in
  length (List.filter stored_eligible (sponsoredAccount (db Seed.world))) = 9%nat
  /\ b_total <$> value_of run = Some 9%nat
  /\ b_successful <$> value_of run = Some 6%nat
  /\ b_failed <$> value_of run = Some 3%nat
  /\ fmap r_error <$> (b_results <$> value_of run)
     = Some [Some "PROTECTED"; Some "PROTECTED"; Some "PROTECTED";
             None; None; None; None; None; None].
Proof.
  vm_compute. repeat split; reflexivity.
Qed.

(** C8, as stated, fails: a stored status ELIGIBLE does not make the attempt
    succeed, because each attempt re-runs the Judge.  The seeded store has
    exactly nine ELIGIBLE rows and the simulated batch returns
    successful = 6, failed = 3. *)
Lemma nine_stored_eligible_not_nine_successes :
  ~ (forall env w,
       length (List.filter stored_eligible (sponsoredAccount (db w))) = 9%nat ->
       exists r,
         value_of (reclaimAllEligible env true w) = Some r
         /\ b_successful r = 9%nat /\ b_failed r = 0%nat).
Proof.
  intros H.
  destruct (H Seed.mock_env Seed.world eq_refl) as (r & Hr & Hs & _).
  vm_compute in Hr. injection Hr as <-. discriminate Hs.
Qed.

(** C8 (amended): on a store with unique addresses, reclaimAllEligible in
    simulation mode calls reclaimAccount once, in table order, for each
    account whose stored status is ELIGIBLE (nine of them or any number) and
    always runs to the end of the list: successful counts the accounts whose
    fresh verdict is ELIGIBLE, failed counts the others, and totalReclaimed
    is the sum, in that order, of the potentialRecovery of the successful
    ones.  When every fresh verdict is ELIGIBLE, successful is the number of
    accounts (9 of 9), failed = 0 and totalReclaimed is the sum of each
    account's potentialRecovery.  Accounts and Ledger Gateway are left
    untouched. *)
Theorem batch_simulation :
  forall env w,
    unique_addresses (db w) ->
    let accounts := List.filter stored_eligible (sponsoredAccount (db w)) in
    let verdicts :=
      verdicts_from env (settings_of (db w)) (whitelist_of (db w)) (tick w)
                    accounts in
    exists r w',
      reclaimAllEligible env true w = (Ok r, w')
      /\ b_total r = length accounts
      /\ length (b_results r) = length accounts
      /\ b_successful r = length (List.filter is_eligible verdicts)
      /\ b_failed r = length (List.filter (negb ∘ is_eligible) verdicts)
      /\ (b_successful r + b_failed r)%nat = length accounts
      /\ b_totalReclaimed r
         = sum_from 0 (j_potentialRecovery <$> List.filter is_eligible verdicts)
      /\ only_logged w w'
      /\ (Forall (fun j => j_status j = J_ELIGIBLE) verdicts ->
          b_successful r = length accounts
          /\ b_failed r = 0%nat
          /\ b_totalReclaimed r = sum_from 0 (j_potentialRecovery <$> verdicts)).
Proof.
  intros env w Huniq accounts verdicts.
  destruct (reclaimAll_loop_simulated env accounts w [] 0%float 0%nat 0%nat)
    as (rs & w' & Hloop & Hlen & Hlog).
  { intros a Ha. apply lookup_account_unique; [exact Huniq|].
    apply filter_In in Ha as [Ha _]. exact Ha. }
  fold verdicts in Hloop.
  assert (length verdicts = length accounts) as Hv
    by apply verdicts_from_length.
  eexists _, w'. split.
  { unfold reclaimAllEligible, bind at 1, prisma.sponsoredAccount_findMany, read_db.
    fold accounts. unfold bind at 1. rewrite Hloop. reflexivity. }
  cbn [b_total b_results b_successful b_failed b_totalReclaimed].
  pose proof (filter_split_length is_eligible verdicts) as Hsplit.
  split; [reflexivity|]. split; [exact Hlen|].
  do 2 (split; [reflexivity|]). split; [lia|].
  split; [reflexivity|]. split; [exact Hlog|].
  intros Hall. destruct (filter_all_eligible verdicts Hall) as [-> ->].
  split; [lia|]. split; reflexivity.
Qed.

Lemma batch_simulation_witness :
  exists r w',
    reclaimAllEligible Seed.mock_env true Seed.nine_at_rent_floor = (Ok r, w')
    /\ b_total r = 9%nat
    /\ b_successful r = 9%nat
    /\ b_failed r = 0%nat
    /\ b_totalReclaimed r
       = sum_from 0 (replicate 9 (PrimFloat.sub Seed.RENT_MINIMUM TX_FEE_SOL)).
Proof.
  destruct (batch_simulation Seed.mock_env Seed.nine_at_rent_floor)
    as (r & w' & Hrun & Htotal & _ & _ & _ & _ & _ & _ & Hall).
  - unfold unique_addresses. apply (bool_decide_unpack _). vm_compute. exact I.
  - destruct Hall as (Hs & Hf & Hsum).
    + vm_compute. repeat constructor.
    + exists r, w'. split; [exact Hrun|].
      rewrite Htotal, Hs, Hf, Hsum. vm_compute. repeat split; reflexivity.
Defined.

(* ===================================================================== *)
(** ** RECLAIMED is kept by the Scanner, the Judge's batch and the
       Executioner                                                        *)
(* ===================================================================== *)

Section Terminal.

Variable env : Env.

Implicit Types (rows : list SponsoredAccount) (w : World).

Lemma keeps_reclaimed_refl rows : keeps_reclaimed rows rows.
Proof. intros addr a H1 H2. eauto. Qed.

Lemma keeps_reclaimed_trans rows1 rows2 rows3 :
  keeps_reclaimed rows1 rows2 -> keeps_reclaimed rows2 rows3 ->
  keeps_reclaimed rows1 rows3.
Proof.
  intros H12 H23 addr a Ha Hs.
  destruct (H12 addr a Ha Hs) as (a' & Ha' & Hs'). eauto.
Qed.

(** An update that writes RECLAIMED, or that touches a row which is not
    RECLAIMED, keeps the RECLAIMED rows. *)
Lemma update_row_keeps addr f rows :
  (forall a, address (f a) = address a) ->
  (forall a, prisma.lookup_account addr rows = Some a ->
             status a = RECLAIMED -> status (f a) = RECLAIMED) ->
  keeps_reclaimed rows (prisma.update_row addr f rows).
Proof.
  intros Haddr Hst other a Ha Hs.
  destruct (decide (other = addr)) as [-> | Hne].
  - exists (f a). split; [|auto].
    apply lookup_update_row_same; [exact Ha | apply Haddr].
  - exists a. split; [|exact Hs].
    rewrite lookup_update_row_other by assumption. exact Ha.
Qed.

Lemma append_row_keeps rows a : keeps_reclaimed rows (rows ++ [a]).
Proof.
  intros addr b Hb Hs. exists b. split; [|exact Hs].
  unfold prisma.lookup_account in *.
  induction rows as [|c rows IH]; simpl in *; [discriminate|].
  destruct (prisma.has_address addr c); [exact Hb | apply IH, Hb].
Qed.

(** What [sponsoredAccount.update] leaves behind, thrown or not. *)
Lemma sponsoredAccount_update_keeps addr f w :
  (forall a, address (f a) = address a) ->
  (forall a, prisma.lookup_account addr (sponsoredAccount (db w)) = Some a ->
             status a = RECLAIMED -> status (f a) = RECLAIMED) ->
  keeps_reclaimed (sponsoredAccount (db w))
    (sponsoredAccount (db (world_after (prisma.sponsoredAccount_update addr f w)))).
Proof.
  intros Haddr Hst. unfold prisma.sponsoredAccount_update, world_after.
  destruct (prisma.lookup_account addr (sponsoredAccount (db w)))
    as [row|] eqn:Hrow; simpl.
  - apply update_row_keeps; [exact Haddr|].
    intros a Ha. apply Hst. congruence.
  - apply keeps_reclaimed_refl.
Qed.

(** The Scanner. *)
Lemma reconcile_with_keeps account state w :
  keeps_reclaimed (sponsoredAccount (db w))
    (sponsoredAccount (db (world_after (reconcile_with env account state w)))).
Proof.
  unfold reconcile_with, world_after, bind, prisma.sponsoredAccount_findUnique,
    read_db, prisma.sponsoredAccount_update, prisma.sponsoredAccount_create.
  destruct (prisma.lookup_account (d_address account) (sponsoredAccount (db w)))
    as [existing|] eqn:Hfound; cbn; rewrite Hfound; cbn.
  - apply update_row_keeps; [reflexivity|].
    intros a Ha Hs. simpl. assert (a = existing) as -> by congruence.
    rewrite Hs. unfold JS.strict_eq_zero.
    destruct (PrimFloat.eqb (cs_balance state) 0); reflexivity.
  - apply append_row_keeps.
Qed.

(** The Judge's batch: it loads the rows that are not RECLAIMED and writes
    to their addresses only. *)
Lemma judgeAll_loop_keeps rows0 settings wl accounts :
  forall tally w,
    (forall a, In a accounts ->
       forall b, prisma.lookup_account (address a) rows0 = Some b ->
                 status b <> RECLAIMED) ->
    keeps_reclaimed rows0 (sponsoredAccount (db w)) ->
    keeps_reclaimed rows0
      (sponsoredAccount
         (db (world_after (judgeAll_loop env settings wl accounts tally w)))).
Proof.
  induction accounts as [|a rest IH]; intros tally w Hacc Hkeep; [exact Hkeep|].
  cbn [judgeAll_loop]. unfold bind at 1, judge_now, bind at 1, now, ret at 1.
  unfold bind at 1, prisma.sponsoredAccount_update. cbn [db advance].
  destruct (prisma.lookup_account (address a) (sponsoredAccount (db w)))
    as [row|] eqn:Hrow.
  - cbn. apply IH.
    + intros b Hb. apply Hacc. right. exact Hb.
    + cbn. intros addr c Hc Hs.
      destruct (Hkeep addr c Hc Hs) as (c' & Hc' & Hs').
      exists c'. split; [|exact Hs'].
      rewrite lookup_update_row_other; [exact Hc' | | reflexivity].
      intros ->. exact (Hacc a (or_introl eq_refl) c Hc Hs).
  - exact Hkeep.
Qed.

Lemma judgeAllAccounts_keeps w :
  unique_addresses (db w) ->
  keeps_reclaimed (sponsoredAccount (db w))
    (sponsoredAccount (db (world_after (judgeAllAccounts env w)))).
Proof.
  intros Huniq. unfold judgeAllAccounts, bind, getJudgmentSettings, bind,
    prisma.settings_findUnique, prisma.whitelist_addresses,
    prisma.sponsoredAccount_findMany, read_db, ret.
  apply judgeAll_loop_keeps; [|apply keeps_reclaimed_refl].
  intros a Ha b Hb. apply filter_In in Ha as [Ha Hnot].
  rewrite (lookup_account_unique _ _ Huniq Ha) in Hb. injection Hb as <-.
  unfold not_reclaimed in Hnot.
  apply negb_true_iff, bool_decide_eq_false in Hnot. exact Hnot.
Qed.

(** The Executioner writes no status but RECLAIMED. *)
Lemma reclaimAccount_keeps addr dryRun w :
  keeps_reclaimed (sponsoredAccount (db w))
    (sponsoredAccount (db (world_after (reclaimAccount env addr dryRun w)))).
Proof.
  unfold world_after, reclaimAccount, try_catch, reclaimAccount_try,
    reclaimAccount_catch, bind, prisma.sponsoredAccount_findUnique, read_db.
  destruct (prisma.lookup_account addr (sponsoredAccount (db w)))
    as [account|] eqn:Hfound; cbn -[judgeAccount];
    [|apply keeps_reclaimed_refl].
  destruct (bool_decide _); cbn -[judgeAccount]; [|apply keeps_reclaimed_refl].
  destruct dryRun; cbn -[judgeAccount]; [apply keeps_reclaimed_refl|].
  destruct (config_operatorPrivateKey env) as [key|]; cbn -[judgeAccount];
    [|apply keeps_reclaimed_refl].
  unfold lift, new_PublicKey.
  destruct (Keypair_fromSecretKey env key) as [operatorPubkey|e];
    cbn -[judgeAccount]; [|apply keeps_reclaimed_refl].
  destruct (PublicKey_ok env addr); cbn -[judgeAccount];
    [|apply keeps_reclaimed_refl].
  destruct (getBalance env (S (tick w)) addr) as [lamports|e];
    cbn -[judgeAccount]; [|apply keeps_reclaimed_refl].
  unfold prisma.sponsoredAccount_update.
  destruct (PrimFloat.eqb lamports 0); cbn -[judgeAccount].
  { rewrite Hfound. cbn. apply update_row_keeps; reflexivity. }
  destruct (PrimFloat.leb (PrimFloat.sub lamports TX_FEE_LAMPORTS) 0);
    cbn -[judgeAccount]; [apply keeps_reclaimed_refl|].
  destruct (sendAndConfirmTransaction env _ _ _ _) as [txSignature|e];
    cbn -[judgeAccount]; [|apply keeps_reclaimed_refl].
  rewrite Hfound. cbn. apply update_row_keeps; reflexivity.
Qed.

Lemma reclaimAll_loop_keeps dryRun accounts :
  forall results total successful failed w,
    keeps_reclaimed (sponsoredAccount (db w))
      (sponsoredAccount
         (db (world_after (reclaimAll_loop env dryRun accounts results total
                             successful failed w)))).
Proof.
  induction accounts as [|a rest IH]; intros results total successful failed w;
    [apply keeps_reclaimed_refl|].
  cbn [reclaimAll_loop]. unfold bind at 1.
  pose proof (reclaimAccount_keeps (address a) dryRun w) as Hstep.
  unfold world_after in *.
  destruct (reclaimAccount env (address a) dryRun w) as [[r|e] w1];
    [|exact Hstep].
  cbn [snd] in Hstep. eapply keeps_reclaimed_trans; [exact Hstep|].
  destruct (r_success r), dryRun; cbv beta iota delta [bind ret sleep];
    first [apply IH | apply (IH _ _ _ _ (advance [] w1))].
Qed.

Lemma reclaimAllEligible_keeps dryRun w :
  keeps_reclaimed (sponsoredAccount (db w))
    (sponsoredAccount (db (world_after (reclaimAllEligible env dryRun w)))).
Proof.
  unfold reclaimAllEligible, bind at 1, prisma.sponsoredAccount_findMany, read_db.
  pose proof (reclaimAll_loop_keeps dryRun
                (List.filter stored_eligible (sponsoredAccount (db w)))
                [] 0%float 0%nat 0%nat w) as Hloop.
  unfold world_after, bind in *.
  destruct (reclaimAll_loop env dryRun _ _ _ _ _ w) as [[[[[rs total] s] f]|e] w'];
    exact Hloop.
Qed.

End Terminal.

(* ===================================================================== *)
(** ** More about the Judge, the settings and the whitelist               *)
(* ===================================================================== *)

(** X1: judgeAccount returns ELIGIBLE exactly when all four checks pass: the
    balance is not <= the fee, is not > rentExemptMin * 1.01, the age is not
    below the threshold, and the address is not in the whitelist. *)
Theorem eligible_iff_all_checks_pass :
  forall now account settings wl,
    j_status (judgeAccount now account settings wl) = J_ELIGIBLE
    <-> unprofitable account = false
        /\ holds_user_funds account = false
        /\ too_recent now account settings = false
        /\ includes wl (address account) = false.
Proof.
  intros now account settings wl.
  unfold unprofitable, holds_user_funds, too_recent, judgeAccount.
  destruct (PrimFloat.leb (balance account) TX_FEE_SOL);
    [split; [discriminate | intros (H & _); discriminate H]|].
  destruct (PrimFloat.ltb _ (balance account));
    [split; [discriminate | intros (_ & H & _); discriminate H]|].
  destruct (PrimFloat.ltb (accountAgeDays now account) _);
    [split; [discriminate | intros (_ & _ & H & _); discriminate H]|].
  destruct (includes wl (address account));
    [split; [discriminate | intros (_ & _ & _ & H); discriminate H]|].
  split; auto.
Qed.

Section SettingsFacts.

Implicit Types (w : World) (key value : string).

Lemma settings_upsert_lookup key value w :
  settings (db (world_after (settings_upsert key value w))) !! key = Some value
  /\ (forall other, other <> key ->
        settings (db (world_after (settings_upsert key value w))) !! other
        = settings (db w) !! other)
  /\ sponsoredAccount (db (world_after (settings_upsert key value w)))
     = sponsoredAccount (db w)
  /\ whitelist (db (world_after (settings_upsert key value w))) = whitelist (db w)
  /\ activityLog (db (world_after (settings_upsert key value w)))
     = activityLog (db w).
Proof.
  simpl. split; [apply lookup_insert_eq|]. split; [|auto].
  intros other Hne. apply lookup_insert_ne. congruence.
Qed.

End SettingsFacts.

(** X2: setDryRunMode followed by isDryRunEnabled returns the flag that was
    set, getJudgmentSettings reports the same flag, and the minimum age the
    Judge reads is left as it was. *)
Theorem dry_run_mode_round_trip :
  forall enabled w,
    let w' := world_after (setDryRunMode enabled w) in
    value_of (isDryRunEnabled w') = Some enabled
    /\ dryRunMode <$> value_of (getJudgmentSettings w') = Some enabled
    /\ minAgeDays (settings_of (db w')) = minAgeDays (settings_of (db w))
    /\ sponsoredAccount (db w') = sponsoredAccount (db w).
Proof.
  intros enabled w w'. subst w'.
  destruct (settings_upsert_lookup "dry_run_mode" (boolean_toString enabled) w)
    as (Hkey & Hother & Hacc & _).
  unfold setDryRunMode, isDryRunEnabled, getJudgmentSettings, value_of, bind,
    prisma.settings_findUnique, read_db, ret, settings_of. cbn [fst fmap option_fmap option_map].
  rewrite Hkey, (Hother "min_age_days") by discriminate.
  destruct enabled; repeat split; assumption.
Qed.

(** X3: after updateJudgmentSetting('dry_run_mode', value), dry-run mode is
    enabled exactly when value is the string "true" (any other spelling
    switches real mode on); after updateJudgmentSetting('min_age_days',
    value) the Judge reads parseInt(value, 10), whatever dry-run flag is
    stored. *)
Theorem settings_take_effect :
  forall value w,
    (value_of (isDryRunEnabled
                 (world_after (updateJudgmentSetting "dry_run_mode" value w)))
     = Some true <-> value = "true")
    /\ minAgeDays (settings_of
                     (db (world_after (updateJudgmentSetting "min_age_days" value w))))
       = JS.parseInt10 value
    /\ dryRunMode (settings_of
                     (db (world_after (updateJudgmentSetting "min_age_days" value w))))
       = dryRunMode (settings_of (db w)).
Proof.
  intros value w. split; [|split].
  - destruct (settings_upsert_lookup "dry_run_mode" value w) as (Hkey & _).
    unfold updateJudgmentSetting, isDryRunEnabled, value_of, bind,
      prisma.settings_findUnique, read_db, ret. cbn [fst].
    rewrite Hkey. split.
    + intros [= H]. apply String.eqb_eq. exact H.
    + intros ->. reflexivity.
  - destruct (settings_upsert_lookup "min_age_days" value w) as (Hkey & _).
    unfold updateJudgmentSetting, settings_of. rewrite Hkey. reflexivity.
  - destruct (settings_upsert_lookup "min_age_days" value w) as (_ & Hother & _).
    unfold updateJudgmentSetting, settings_of.
    rewrite (Hother "dry_run_mode") by discriminate. reflexivity.
Qed.

(** X4: a stored min_age_days that parseInt reads as NaN or as 0 (for
    example a value without leading digits) does not reach the Judge:
    judgeAccount on the loaded settings returns the verdict it returns for
    30 days. *)
Theorem unreadable_min_age_is_thirty :
  forall value w now account wl,
    JS.truthy (JS.parseInt10 value) = false ->
    judgeAccount now account
      (settings_of (db (world_after (updateJudgmentSetting "min_age_days" value w))))
      wl
    = judgeAccount now account (mkSettings DEFAULT_MIN_AGE_DAYS true) wl.
Proof.
  intros value w now account wl Hfalsy.
  destruct (settings_upsert_lookup "min_age_days" value w) as (Hkey & _).
  unfold updateJudgmentSetting, settings_of. rewrite Hkey.
  unfold judgeAccount. cbn [minAgeDays].
  unfold JS.or_default. rewrite Hfalsy. reflexivity.
Qed.

Lemma unreadable_min_age_is_thirty_witness :
  j_status (judgeAccount Seed.seeded_at Seed.actv01
              (settings_of (db (world_after
                 (updateJudgmentSetting "min_age_days" "seven" Seed.world)))) [])
  = J_ACTIVE.
Proof.
  rewrite (unreadable_min_age_is_thirty "seven" Seed.world Seed.seeded_at
             Seed.actv01 []).
  - vm_compute. reflexivity.
  - vm_compute. reflexivity.
Defined.

Section WhitelistFacts.

Implicit Types (w : World) (addr : string).

(** [whitelist.includes(address)] on the loaded list is membership in the
    table. *)
Lemma includes_whitelist_of (s : Store) addr :
  includes (whitelist_of s) addr = true <-> is_Some (whitelist s !! addr).
Proof.
  unfold includes, whitelist_of. rewrite existsb_exists. split.
  - intros (x & Hin & Heq). apply String.eqb_eq in Heq. subst x.
    apply list_elem_of_In, list_elem_of_fmap in Hin as ([k v] & Hk & Hkv).
    simpl in Hk. subst k. apply elem_of_map_to_list in Hkv. eauto.
  - intros [note Hnote]. exists addr. split; [|apply String.eqb_refl].
    apply list_elem_of_In, list_elem_of_fmap. exists (addr, note).
    split; [reflexivity|]. apply elem_of_map_to_list. exact Hnote.
Qed.

Lemma includes_whitelist_of_false (s : Store) addr :
  includes (whitelist_of s) addr = false <-> whitelist s !! addr = None.
Proof.
  rewrite <- not_true_iff_false, includes_whitelist_of, <- eq_None_not_Some.
  reflexivity.
Qed.

Lemma eligible_not_listed now account settings wl :
  j_status (judgeAccount now account settings wl) = J_ELIGIBLE ->
  includes wl (address account) = false.
Proof.
  unfold judgeAccount. repeat case_match; (discriminate || reflexivity).
Qed.

(** A listed address is never reclaimed: the call fails on the verdict, or
    on the missing record, before anything is sent. *)
Lemma listed_address_not_reclaimed env addr dryRun w :
  is_Some (whitelist (db w) !! addr) ->
  exists r w',
    reclaimAccount env addr dryRun w = (Ok r, w')
    /\ r_success r = false
    /\ calls w' = calls w
    /\ sponsoredAccount (db w') = sponsoredAccount (db w).
Proof.
  intros Hlisted.
  destruct (prisma.lookup_account addr (sponsoredAccount (db w)))
    as [account|] eqn:Hfound.
  - assert (j_status (fresh_verdict env w account) <> J_ELIGIBLE) as Hne.
    { intros Hel. apply eligible_not_listed in Hel as Hwl.
      apply lookup_account_Some in Hfound as [Haddr _]. rewrite Haddr in Hwl.
      apply includes_whitelist_of in Hlisted. congruence. }
    do 2 eexists. split; [apply reclaimAccount_not_eligible; eassumption|].
    repeat split.
  - destruct (reclaimAccount_try_not_found env addr dryRun w Hfound)
      as (r & Hrun & Hs & _).
    exists r, w. auto.
Qed.

End WhitelistFacts.

(** X5: once addToWhitelist(address) has run, reclaimAccount(address), in
    simulation or in real mode and whatever the node answers, returns
    failure, sends nothing to the Ledger Gateway and leaves every stored
    account as it is. *)
Theorem whitelisted_address_is_never_reclaimed :
  forall env addr note dryRun w,
    let listed := world_after (addToWhitelist addr note w) in
    exists r w',
      reclaimAccount env addr dryRun listed = (Ok r, w')
      /\ r_success r = false
      /\ calls w' = calls listed
      /\ sponsoredAccount (db w') = sponsoredAccount (db listed).
Proof.
  intros env addr note dryRun w listed.
  apply listed_address_not_reclaimed. subst listed. simpl.
  destruct (whitelist (db w) !! addr) as [old|] eqn:Hold;
    destruct note as [n|]; rewrite ?lookup_insert_eq, ?Hold; eauto.
Qed.

(** X6: removeFromWhitelist(address) takes the address off the list the
    Judge reads and touches nothing else: the other entries stay, and the
    stored accounts stay as they are, so an account that addToWhitelist
    marked WHITELISTED keeps that stored status after the removal.  Removing
    an address that is not listed changes nothing. *)
Theorem removeFromWhitelist_only_unlists :
  forall addr w,
    let w' := world_after (removeFromWhitelist addr w) in
    includes (whitelist_of (db w')) addr = false
    /\ (forall other, other <> addr ->
          whitelist (db w') !! other = whitelist (db w) !! other)
    /\ sponsoredAccount (db w') = sponsoredAccount (db w)
    /\ (whitelist (db w) !! addr = None -> w' = w)
    /\ (forall note a,
          prisma.lookup_account addr (sponsoredAccount (db w)) = Some a ->
          prisma.lookup_account addr
            (sponsoredAccount
               (db (world_after
                      (removeFromWhitelist addr
                         (world_after (addToWhitelist addr note w))))))
          = Some (set_status WHITELISTED a)).
Proof.
  intros addr w w'. subst w'.
  unfold removeFromWhitelist at 1 2 3 4, world_after at 1 2 3 4, modify_db,
    with_whitelist.
  cbn [snd db whitelist sponsoredAccount]. split; [|split; [|split; [|split]]].
  - apply includes_whitelist_of_false. cbn [whitelist]. apply lookup_delete_eq.
  - intros other Hne. apply lookup_delete_ne. congruence.
  - reflexivity.
  - intros Hnone. rewrite delete_id by exact Hnone.
    destruct w as [[rows wl st log] t c]. reflexivity.
  - intros note a Ha.
    apply (addToWhitelist_overwrites_status addr note w a Ha).
Qed.

(* ===================================================================== *)
(** ** The Judge's batch operations                                       *)
(* ===================================================================== *)

Section JudgeBatch.

Variable env : Env.
Variables (cfg : JudgmentSettings) (wl : list string).

Implicit Types (rows pre : list SponsoredAccount) (w : World).

Lemma update_row_skips_prefix addr f pre a rest :
  (forall p, In p pre -> address p <> addr) -> address a = addr ->
  prisma.update_row addr f (pre ++ a :: rest) = pre ++ f a :: rest.
Proof.
  intros Hpre Ha. induction pre as [|p pre IH]; simpl.
  - assert (prisma.has_address addr a = true) as ->; [|reflexivity].
    apply has_address_true. exact Ha.
  - assert (prisma.has_address addr p = false) as ->.
    { apply has_address_false. apply Hpre. left. reflexivity. }
    rewrite IH; [reflexivity|]. intros q Hq. apply Hpre. right. exact Hq.
Qed.

Lemma lookup_skips_prefix addr pre a rest :
  (forall p, In p pre -> address p <> addr) -> address a = addr ->
  prisma.lookup_account addr (pre ++ a :: rest) = Some a.
Proof.
  intros Hpre Ha. unfold prisma.lookup_account.
  induction pre as [|p pre IH]; simpl.
  - assert (prisma.has_address addr a = true) as ->; [|reflexivity].
    apply has_address_true. exact Ha.
  - assert (prisma.has_address addr p = false) as ->.
    { apply has_address_false. apply Hpre. left. reflexivity. }
    apply IH. intros q Hq. apply Hpre. right. exact Hq.
Qed.

Lemma tally_sum_count j r :
  tally_sum (count_judgment j r) = S (tally_sum r)
  /\ t_total (count_judgment j r) = t_total r
  /\ t_eligible (count_judgment j r)
     = (t_eligible r + if bool_decide (j = J_ELIGIBLE) then 1 else 0)%nat.
Proof.
  unfold tally_sum. destruct j; simpl; repeat split; lia.
Qed.

(** The loop of [judgeAllAccounts] over the rows it loaded, on a table whose
    addresses are unique: every update finds its row, and the table ends as
    [judged_rows] describes. *)
Lemma judgeAll_loop_spec rows :
  forall pre w tally,
    sponsoredAccount (db w) = pre ++ rows ->
    NoDup (address <$> rows) ->
    (forall a p, In a rows -> In p pre -> address p <> address a) ->
    exists tally' w',
      judgeAll_loop env cfg wl (List.filter not_reclaimed rows) tally w
      = (Ok tally', w')
      /\ sponsoredAccount (db w')
         = pre ++ judged_rows env cfg wl (tick w) rows
      /\ whitelist (db w') = whitelist (db w)
      /\ settings (db w') = settings (db w)
      /\ activityLog (db w') = activityLog (db w)
      /\ calls w' = calls w
      /\ tally_sum tally'
         = (tally_sum tally + length (List.filter not_reclaimed rows))%nat
      /\ t_total tally' = t_total tally
      /\ t_eligible tally'
         = (t_eligible tally
            + length (List.filter is_eligible
                        (verdicts_from env cfg wl (tick w)
                           (List.filter not_reclaimed rows))))%nat.
Proof.
  induction rows as [|a rest IH]; intros pre w tally Hrows Hnd Hpre.
  - exists tally, w. simpl. rewrite Hrows, !Nat.add_0_r. repeat split.
  - apply NoDup_cons in Hnd as [Ha Hnd].
    assert (forall p, In p pre -> address p <> address a) as Hpre_a.
    { intros p Hp. apply (Hpre a p); [left; reflexivity | exact Hp]. }
    cbn [List.filter judged_rows]. destruct (not_reclaimed a) eqn:Hnr.
    + cbn [judgeAll_loop verdicts_from].
      unfold bind at 1, judge_now, bind at 1, now, ret at 1.
      unfold bind at 1, prisma.sponsoredAccount_update. cbn [db advance].
      rewrite Hrows, (lookup_skips_prefix (address a) pre a rest Hpre_a eq_refl).
      unfold modify_db, with_accounts, advance.
      cbn [db sponsoredAccount whitelist settings activityLog tick calls].
      rewrite Hrows, (update_row_skips_prefix _ _ pre a rest Hpre_a eq_refl).
      set (verdict := judgeAccount (Date_now env (tick w)) a cfg wl).
      set (w1 := mkWorld _ _ _).
      destruct (IH (pre ++ [set_status (as_Status (j_status verdict)) a]) w1
                  (count_judgment (j_status verdict) tally))
        as (tally' & w' & Hloop & Hrows' & Hwl & Hset & Hlog & Hcalls
            & Hsum & Htotal & Hel).
      { subst w1. cbn. rewrite <- app_assoc. reflexivity. }
      { exact Hnd. }
      { intros b p Hb Hp. apply in_app_or in Hp as [Hp | [<- | []]].
        - apply (Hpre b p); [right; exact Hb | exact Hp].
        - simpl. intros Heq. apply Ha. rewrite Heq.
          apply list_elem_of_fmap. exists b. split; [reflexivity|].
          apply list_elem_of_In. exact Hb. }
      exists tally', w'. split; [exact Hloop|].
      destruct (tally_sum_count (j_status verdict) tally) as (Hs1 & Ht1 & He1).
      subst w1. cbn [tick db whitelist settings activityLog calls] in *.
      rewrite Hrows', <- app_assoc, Hwl, Hset, Hlog, Hcalls, Hsum, Htotal, Hel,
        Hs1, Ht1, He1, app_nil_r.
      cbn [List.filter length]. unfold is_eligible at 2. fold verdict.
      repeat split; try reflexivity; try lia.
      destruct (bool_decide (j_status verdict = J_ELIGIBLE)); simpl; lia.
    + destruct (IH (pre ++ [a]) w tally) as (tally' & w' & Hloop & Hrows' & Hrest).
      { rewrite Hrows, <- app_assoc. reflexivity. }
      { exact Hnd. }
      { intros b p Hb Hp. apply in_app_or in Hp as [Hp | [<- | []]].
        - apply (Hpre b p); [right; exact Hb | exact Hp].
        - intros Heq. apply Ha. rewrite Heq.
          apply list_elem_of_fmap. exists b. split; [reflexivity|].
          apply list_elem_of_In. exact Hb. }
      exists tally', w'. split; [exact Hloop|].
      rewrite Hrows', <- app_assoc. split; [reflexivity | exact Hrest].
Qed.

End JudgeBatch.

Section EligibleList.

Variable env : Env.
Variables (cfg : JudgmentSettings) (wl : list string).

Lemma getEligible_loop_spec accounts :
  forall eligible w,
    getEligible_loop env cfg wl accounts eligible w
    = (Ok (eligible
           ++ List.filter is_eligible
                (verdicts_from env cfg wl (tick w) accounts)),
       mkWorld (db w) (tick w + length accounts) (calls w)).
Proof.
  induction accounts as [|a rest IH]; intros eligible w.
  - simpl. rewrite app_nil_r, Nat.add_0_r. destruct w. reflexivity.
  - cbn [getEligible_loop verdicts_from List.filter length].
    unfold bind at 1, judge_now, bind at 1, now, ret at 1.
    rewrite IH. unfold advance. cbn [db tick calls].
    rewrite app_nil_r, Nat.add_succ_r. unfold is_eligible at 2.
    destruct (decide _) as [Hel | Hne].
    + rewrite bool_decide_eq_true_2 by exact Hel.
      rewrite <- app_assoc. reflexivity.
    + rewrite bool_decide_eq_false_2 by exact Hne. reflexivity.
Qed.

Lemma verdicts_from_In t accounts j :
  In j (verdicts_from env cfg wl t accounts) ->
  exists a t', In a accounts /\ j = judgeAccount (Date_now env t') a cfg wl.
Proof.
  revert t. induction accounts as [|a rest IH]; intros t; simpl; [contradiction|].
  intros [<- | Hin].
  - exists a, t. auto.
  - destruct (IH _ Hin) as (b & t' & Hb & Hj). exists b, t'. auto.
Qed.

End EligibleList.

(** X7: on a store with unique addresses judgeAllAccounts never fails; it
    writes to every account that is not RECLAIMED the status of its verdict
    (judged in table order, one clock reading each) and changes no other
    field, no RECLAIMED row, no setting, whitelist entry or log entry, and
    sends nothing to the Ledger Gateway.  The counters it returns add up:
    total is the number of accounts that are not RECLAIMED and
    eligible + protected + active + skipped + whitelisted = total; eligible
    is the number of verdicts getEligibleAccounts returns from the same
    state. *)
Theorem judgeAllAccounts_stores_verdicts :
  forall env w,
    unique_addresses (db w) ->
    exists tally w',
      judgeAllAccounts env w = (Ok tally, w')
      /\ sponsoredAccount (db w')
         = judged_rows env (settings_of (db w)) (whitelist_of (db w)) (tick w)
                       (sponsoredAccount (db w))
      /\ t_total tally
         = length (List.filter not_reclaimed (sponsoredAccount (db w)))
      /\ tally_sum tally = t_total tally
      /\ Some (t_eligible tally)
         = length <$> value_of (getEligibleAccounts env w)
      /\ whitelist (db w') = whitelist (db w)
      /\ settings (db w') = settings (db w)
      /\ activityLog (db w') = activityLog (db w)
      /\ calls w' = calls w.
Proof.
  intros env w Huniq.
  destruct (judgeAll_loop_spec env (settings_of (db w)) (whitelist_of (db w))
              (sponsoredAccount (db w)) [] w
              (mkTally (length (List.filter not_reclaimed (sponsoredAccount (db w))))
                       0 0 0 0 0))
    as (tally & w' & Hloop & Hrows & Hwl & Hset & Hlog & Hcalls & Hsum & Htotal & Hel);
    [reflexivity | exact Huniq | intros a p _ [] |].
  exists tally, w'. split.
  { unfold judgeAllAccounts, bind, getJudgmentSettings, bind,
      prisma.settings_findUnique, prisma.whitelist_addresses,
      prisma.sponsoredAccount_findMany, read_db, ret.
    exact Hloop. }
  split; [exact Hrows|]. split; [exact Htotal|]. split.
  { rewrite Hsum, Htotal. reflexivity. }
  split.
  { unfold getEligibleAccounts, value_of, bind, getJudgmentSettings, bind,
      prisma.settings_findUnique, prisma.whitelist_addresses,
      prisma.sponsoredAccount_findMany, read_db, ret.
    fold (settings_of (db w)). fold (whitelist_of (db w)).
    rewrite getEligible_loop_spec. cbn. rewrite Hel. reflexivity. }
  auto.
Qed.

Lemma judgeAllAccounts_stores_verdicts_witness :
  exists tally w',
    judgeAllAccounts Seed.mock_env Seed.world = (Ok tally, w')
    /\ t_total tally = 13%nat
    /\ tally_sum tally = 13%nat
    /\ status <$> sponsoredAccount (db w')
       = [PROTECTED; PROTECTED; PROTECTED; ELIGIBLE; ELIGIBLE; ELIGIBLE; ELIGIBLE;
          ELIGIBLE; ELIGIBLE; PROTECTED; PROTECTED; ACTIVE; ACTIVE; RECLAIMED].
Proof.
  destruct (judgeAllAccounts_stores_verdicts Seed.mock_env Seed.world)
    as (tally & w' & Hrun & Hrows & Htotal & Hsum & _).
  - unfold unique_addresses. apply (bool_decide_unpack _). vm_compute. exact I.
  - exists tally, w'. split; [exact Hrun|].
    rewrite Hsum, Htotal, Hrows. vm_compute. repeat split; reflexivity.
Defined.

(** X8: getEligibleAccounts never fails and writes nothing (store and
    gateway log are as before).  Every verdict it returns is ELIGIBLE and is
    the verdict of a stored account that is not RECLAIMED, whose address and
    balance it carries; no verdict is returned for a whitelisted address. *)
Theorem getEligibleAccounts_reads_only :
  forall env w,
    exists eligible w',
      getEligibleAccounts env w = (Ok eligible, w')
      /\ db w' = db w
      /\ calls w' = calls w
      /\ (length eligible
          <= length (List.filter not_reclaimed (sponsoredAccount (db w))))%nat
      /\ (forall j, In j eligible ->
            j_status j = J_ELIGIBLE
            /\ includes (whitelist_of (db w)) (j_address j) = false
            /\ exists a, In a (sponsoredAccount (db w))
                         /\ status a <> RECLAIMED
                         /\ j_address j = address a
                         /\ j_balance j = balance a).
Proof.
  intros env w. do 2 eexists. split.
  { unfold getEligibleAccounts, bind, getJudgmentSettings, bind,
      prisma.settings_findUnique, prisma.whitelist_addresses,
      prisma.sponsoredAccount_findMany, read_db, ret.
    fold (settings_of (db w)). fold (whitelist_of (db w)).
    apply getEligible_loop_spec. }
  cbn [db calls app]. do 2 (split; [reflexivity|]). split.
  { etransitivity; [apply filter_length_le|].
    rewrite verdicts_from_length. reflexivity. }
  intros j Hj. apply filter_In in Hj as [Hin Hel].
  apply bool_decide_eq_true in Hel.
  apply verdicts_from_In in Hin as (a & t & Ha & ->).
  apply filter_In in Ha as [Ha Hnr]. split; [exact Hel|]. split.
  { rewrite judge_address. eapply eligible_not_listed. exact Hel. }
  exists a. split; [exact Ha|]. split.
  { unfold not_reclaimed in Hnr.
    apply negb_true_iff, bool_decide_eq_false in Hnr. exact Hnr. }
  split; [apply judge_address|].
  unfold judgeAccount. repeat case_match; reflexivity.
Qed.

(* ===================================================================== *)
(** ** More about the Executioner                                         *)
(* ===================================================================== *)

(** Every way through [reclaimAccount]: unfold the function and split on
    each test and on each answer of the environment. *)
Ltac reclaim_paths :=
  unfold reclaimAccount, try_catch, reclaimAccount_try, reclaimAccount_catch,
    bind, prisma.sponsoredAccount_findUnique, prisma.sponsoredAccount_update,
    prisma.activityLog_create, getJudgmentSettings, prisma.settings_findUnique,
    prisma.whitelist_addresses, judge_now, now, lift, new_PublicKey,
    connection_getBalance, web3_sendAndConfirmTransaction, modify_db, read_db,
    ret, throw, advance;
  cbn -[judgeAccount JS.parseInt10 map_to_list];
  repeat (case_match; simplify_eq;
          cbn -[judgeAccount JS.parseInt10 map_to_list] in * ).

Lemma reclaimAccount_returns env addr dryRun w :
  exists r w',
    reclaimAccount env addr dryRun w = (Ok r, w')
    /\ r_address r = addr
    /\ (activityLog (db w') = activityLog (db w)
        \/ exists e, activityLog (db w') = activityLog (db w) ++ [e]
                     /\ log_account e = addr)
    /\ length (sponsoredAccount (db w')) = length (sponsoredAccount (db w))
    /\ whitelist (db w') = whitelist (db w)
    /\ settings (db w') = settings (db w)
    /\ (r_success r = true -> r_error r = None)
    /\ (r_success r = false -> is_Some (r_error r)).
Proof.
  destruct (reclaimAccount env addr dryRun w) as [o w'] eqn:Hrun.
  revert Hrun. reclaim_paths; intros [= <- <-];
    do 2 eexists; (split; [reflexivity|]); cbn;
    rewrite ?length_update_row;
    repeat split; eauto; try discriminate.
Qed.

(** The ways through [reclaimAccount] for a stored account, with the verdict
    kept as one term. *)
Ltac reclaim_paths_found Hfound :=
  unfold reclaimAccount, try_catch, reclaimAccount_try, reclaimAccount_catch,
    bind, prisma.sponsoredAccount_findUnique, prisma.sponsoredAccount_update,
    prisma.activityLog_create, getJudgmentSettings, prisma.settings_findUnique,
    prisma.whitelist_addresses, judge_now, now, lift, new_PublicKey,
    connection_getBalance, web3_sendAndConfirmTransaction, modify_db, read_db,
    ret, throw, advance;
  cbn -[judgeAccount JS.parseInt10 map_to_list];
  rewrite ?Hfound; cbn -[judgeAccount JS.parseInt10 map_to_list];
  match goal with
  | |- context [judgeAccount ?n ?a ?s ?l] =>
      change (judgeAccount n a s l) with (judgeAccount n a s l);
      set (verdict := judgeAccount n a s l) in *
  end;
  repeat (case_match; simplify_eq;
          cbn -[judgeAccount JS.parseInt10 map_to_list] in * ).

Lemma reclaimAccount_writes env addr dryRun w :
  exists new,
    calls (world_after (reclaimAccount env addr dryRun w)) = calls w ++ new
    /\ (writes new = []
        \/ (dryRun = false
            /\ exists account key operatorPubkey lamports,
                 prisma.lookup_account addr (sponsoredAccount (db w)) = Some account
                 /\ j_status (fresh_verdict env w account) = J_ELIGIBLE
                 /\ config_operatorPrivateKey env = Some key
                 /\ Keypair_fromSecretKey env key = Ok operatorPubkey
                 /\ getBalance env (S (tick w)) addr = Ok lamports
                 /\ PrimFloat.leb (PrimFloat.sub lamports TX_FEE_LAMPORTS) 0 = false
                 /\ writes new
                    = [SendAndConfirmTransaction addr operatorPubkey
                         (PrimFloat.sub lamports TX_FEE_LAMPORTS)])).
Proof.
  destruct (prisma.lookup_account addr (sponsoredAccount (db w)))
    as [account|] eqn:Hfound.
  - unfold world_after. reclaim_paths_found Hfound;
      rewrite <- ?app_assoc; eexists; (split; [reflexivity|]); cbn;
      first [ left; reflexivity
            | right; split; [reflexivity|];
              do 4 eexists; repeat split; eauto;
              match goal with
              | H : negb (bool_decide _) = false |- _ =>
                  apply negb_false_iff, bool_decide_eq_true in H; exact H
              end ].
  - destruct (reclaimAccount_try_not_found env addr dryRun w Hfound)
      as (r & Hrun & _).
    exists []. unfold world_after. rewrite Hrun, app_nil_r. auto.
Qed.

Section RealMode.

Variable env : Env.
Variables (addr : string) (w : World) (account : SponsoredAccount).
Variables (key operatorPubkey : string) (lamports : float).

Hypothesis Hfound :
  prisma.lookup_account addr (sponsoredAccount (db w)) = Some account.
Hypothesis Heligible : j_status (fresh_verdict env w account) = J_ELIGIBLE.
Hypothesis Hkey : config_operatorPrivateKey env = Some key.
Hypothesis Hpair : Keypair_fromSecretKey env key = Ok operatorPubkey.
Hypothesis Hpk : PublicKey_ok env addr = true.

(** Real mode up to the balance request. *)
Ltac to_balance :=
  unfold reclaimAccount, try_catch, reclaimAccount_try, bind,
    prisma.sponsoredAccount_findUnique, read_db;
  rewrite Hfound; cbn -[judgeAccount];
  fold (fresh_verdict env w account);
  rewrite bool_decide_eq_true_2 by exact Heligible; cbn;
  rewrite Hkey; unfold lift, new_PublicKey; rewrite Hpair, Hpk; cbn.

Lemma reclaimAccount_balance_throws e :
  getBalance env (S (tick w)) addr = Throw e ->
  reclaimAccount env addr false w
  = (Ok {| r_success := false; r_address := addr; r_mode := REAL;
           r_amount := 0; r_txSignature := None; r_explorerUrl := None;
           r_message := [Lit "Failed to reclaim: "; Lit (error_message e)];
           r_error := Some (error_message e) |},
     mkWorld
       (with_log (fun l => l ++
          [ {| log_action := LOG_SKIP; log_account := addr; log_amount := 0;
               log_mode := REAL;
               log_reason := [Lit "Error: "; Lit (error_message e)];
               log_txSignature := None |} ]) (db w))
       (S (S (tick w))) (calls w ++ [GetBalance addr])).
Proof.
  intros Hbal. to_balance. rewrite Hbal. cbn.
  unfold advance. cbn. rewrite app_nil_r. reflexivity.
Qed.

Hypothesis Hbalance : getBalance env (S (tick w)) addr = Ok lamports.
Hypothesis Hnonzero : JS.strict_eq_zero lamports = false.
Hypothesis Hcovers :
  PrimFloat.leb (PrimFloat.sub lamports TX_FEE_LAMPORTS) 0 = false.

Local Abbreviation transferAmount := (PrimFloat.sub lamports TX_FEE_LAMPORTS).
Local Abbreviation reclaimedAmount :=
  (PrimFloat.div transferAmount LAMPORTS_PER_SOL).
Local Abbreviation transfer :=
  (SendAndConfirmTransaction addr operatorPubkey transferAmount).

Ltac to_transfer :=
  to_balance; rewrite Hbalance; cbn;
  unfold JS.strict_eq_zero in Hnonzero; rewrite Hnonzero; cbn;
  rewrite Hcovers; cbn.

Lemma reclaimAccount_transfer_throws e :
  sendAndConfirmTransaction env (S (S (tick w))) addr operatorPubkey transferAmount
  = Throw e ->
  reclaimAccount env addr false w
  = (Ok {| r_success := false; r_address := addr; r_mode := REAL;
           r_amount := 0; r_txSignature := None; r_explorerUrl := None;
           r_message := [Lit "Failed to reclaim: "; Lit (error_message e)];
           r_error := Some (error_message e) |},
     mkWorld
       (with_log (fun l => l ++
          [ {| log_action := LOG_SKIP; log_account := addr; log_amount := 0;
               log_mode := REAL;
               log_reason := [Lit "Error: "; Lit (error_message e)];
               log_txSignature := None |} ]) (db w))
       (S (S (S (tick w)))) (calls w ++ [GetBalance addr; transfer])).
Proof.
  intros Hsend. to_transfer. rewrite Hsend. cbn.
  unfold advance. cbn. rewrite app_nil_r, <- app_assoc. reflexivity.
Qed.

Lemma reclaimAccount_transfer_confirmed txSignature :
  sendAndConfirmTransaction env (S (S (tick w))) addr operatorPubkey transferAmount
  = Ok txSignature ->
  reclaimAccount env addr false w
  = (Ok {| r_success := true; r_address := addr; r_mode := REAL;
           r_amount := reclaimedAmount;
           r_txSignature := Some txSignature;
           r_explorerUrl := Some (getExplorerUrl env txSignature "tx");
           r_message := [Lit "Success: Reclaimed "; Fixed reclaimedAmount 6;
                         Lit " SOL from "; Lit addr];
           r_error := None |},
     mkWorld
       (with_log (fun l => l ++
          [ {| log_action := LOG_RECLAIM; log_account := addr;
               log_amount := reclaimedAmount; log_mode := REAL;
               log_reason := [Lit "Successfully reclaimed ";
                              Fixed reclaimedAmount 6; Lit " SOL"];
               log_txSignature := Some txSignature |} ])
          (with_accounts
             (prisma.update_row addr
                (fun row => set_lastActivity (Date_now env (S (S (S (tick w)))))
                              (set_balance 0 (set_status RECLAIMED row))))
             (db w)))
       (S (S (S (S (tick w))))) (calls w ++ [GetBalance addr; transfer])).
Proof.
  intros Hsend. to_transfer. rewrite Hsend. cbn.
  unfold prisma.sponsoredAccount_update. cbn. rewrite Hfound. cbn.
  unfold advance. cbn. rewrite !app_nil_r, <- app_assoc. reflexivity.
Qed.

End RealMode.

(** X9: reclaimAccount always returns a result for the address it was given,
    in either mode and whatever the node answers or throws: it appends at
    most one Activity Log entry (for that address), neither adds nor removes
    an account, leaves settings and whitelist alone, and a failure always
    carries an error code while a success never does. *)
Theorem reclaimAccount_always_returns :
  forall env addr dryRun w,
    exists r w',
      reclaimAccount env addr dryRun w = (Ok r, w')
      /\ r_address r = addr
      /\ (activityLog (db w') = activityLog (db w)
          \/ exists e, activityLog (db w') = activityLog (db w) ++ [e]
                       /\ log_account e = addr)
      /\ length (sponsoredAccount (db w')) = length (sponsoredAccount (db w))
      /\ whitelist (db w') = whitelist (db w)
      /\ settings (db w') = settings (db w)
      /\ (r_success r = true -> r_error r = None)
      /\ (r_success r = false -> is_Some (r_error r)).
Proof.
  exact reclaimAccount_returns.
Qed.

(** X10: reclaimAccount sends a transfer to the Ledger Gateway only in real
    mode, with an operator key configured, for a stored account whose fresh
    verdict is ELIGIBLE, and then at most one: from that account to the
    operator, of the on-chain balance minus the fee of 5000 lamports, which
    is not <= 0.  In every other case (simulation, no key, account unknown,
    verdict SKIP, PROTECTED, ACTIVE or WHITELISTED) no transfer is sent. *)
Theorem transfer_only_when_eligible :
  forall env addr dryRun w,
    exists new,
      calls (world_after (reclaimAccount env addr dryRun w)) = calls w ++ new
      /\ (writes new = []
          \/ (dryRun = false
              /\ exists account key operatorPubkey lamports,
                   prisma.lookup_account addr (sponsoredAccount (db w)) = Some account
                   /\ j_status (fresh_verdict env w account) = J_ELIGIBLE
                   /\ config_operatorPrivateKey env = Some key
                   /\ Keypair_fromSecretKey env key = Ok operatorPubkey
                   /\ getBalance env (S (tick w)) addr = Ok lamports
                   /\ PrimFloat.leb (PrimFloat.sub lamports TX_FEE_LAMPORTS) 0 = false
                   /\ writes new
                      = [SendAndConfirmTransaction addr operatorPubkey
                           (PrimFloat.sub lamports TX_FEE_LAMPORTS)])).
Proof.
  exact reclaimAccount_writes.
Qed.

(** X11: in real mode, when the transfer of an ELIGIBLE account is
    confirmed, the status transition and the log entry both happen: the
    account is stored as RECLAIMED with balance 0 and a new lastActivity,
    exactly one Activity Log entry is appended (RECLAIM, REAL, with the
    transaction signature and the transferred amount in SOL), exactly one
    transfer was sent, and the result is a success with that amount, the
    signature and its explorer URL. *)
Theorem confirmed_transfer_is_recorded :
  forall env addr w account key operatorPubkey lamports txSignature,
    prisma.lookup_account addr (sponsoredAccount (db w)) = Some account ->
    j_status (fresh_verdict env w account) = J_ELIGIBLE ->
    config_operatorPrivateKey env = Some key ->
    Keypair_fromSecretKey env key = Ok operatorPubkey ->
    PublicKey_ok env addr = true ->
    getBalance env (S (tick w)) addr = Ok lamports ->
    JS.strict_eq_zero lamports = false ->
    PrimFloat.leb (PrimFloat.sub lamports TX_FEE_LAMPORTS) 0 = false ->
    sendAndConfirmTransaction env (S (S (tick w))) addr operatorPubkey
      (PrimFloat.sub lamports TX_FEE_LAMPORTS) = Ok txSignature ->
    let amount :=
      PrimFloat.div (PrimFloat.sub lamports TX_FEE_LAMPORTS) LAMPORTS_PER_SOL in
    exists r entry w',
      reclaimAccount env addr false w = (Ok r, w')
      /\ r_success r = true /\ r_amount r = amount
      /\ r_txSignature r = Some txSignature
      /\ r_explorerUrl r = Some (getExplorerUrl env txSignature "tx")
      /\ prisma.lookup_account addr (sponsoredAccount (db w'))
         = Some (mkAccount (address account) 0 (rentExemptMin account)
                   (Date_now env (S (S (S (tick w))))) RECLAIMED
                   (detectedAt account))
      /\ (forall other, other <> addr ->
            prisma.lookup_account other (sponsoredAccount (db w'))
            = prisma.lookup_account other (sponsoredAccount (db w)))
      /\ activityLog (db w') = activityLog (db w) ++ [entry]
      /\ log_action entry = LOG_RECLAIM /\ log_mode entry = REAL
      /\ log_account entry = addr /\ log_amount entry = amount
      /\ log_txSignature entry = Some txSignature
      /\ writes (calls w')
         = writes (calls w)
           ++ [SendAndConfirmTransaction addr operatorPubkey
                 (PrimFloat.sub lamports TX_FEE_LAMPORTS)].
Proof.
  intros env addr w account key operatorPubkey lamports txSignature
    Hfound Hel Hkey Hpair Hpk Hbal Hnz Hcov Hsend amount.
  do 3 eexists. split.
  { eapply reclaimAccount_transfer_confirmed; eassumption. }
  cbn -[prisma.lookup_account prisma.update_row].
  do 4 (split; [reflexivity|]). split.
  { erewrite lookup_update_row_same by (eassumption || reflexivity).
    reflexivity. }
  split.
  { intros other Hne. apply lookup_update_row_other; [exact Hne|].
    intros a. reflexivity. }
  do 6 (split; [reflexivity|]).
  unfold writes. rewrite List.filter_app. reflexivity.
Qed.

Lemma confirmed_transfer_is_recorded_witness :
  exists r w',
    reclaimAccount (Seed.keyed_env 2039280)
      "2dSTxxxxxxxxxxxxxxxxxxxxxxxxxxxxxxDust01" false Seed.world = (Ok r, w')
    /\ r_success r = true
    /\ r_txSignature r = Some "5xyzSignature"
    /\ status <$> prisma.lookup_account "2dSTxxxxxxxxxxxxxxxxxxxxxxxxxxxxxxDust01"
                    (sponsoredAccount (db w')) = Some RECLAIMED.
Proof.
  destruct (confirmed_transfer_is_recorded (Seed.keyed_env 2039280)
              "2dSTxxxxxxxxxxxxxxxxxxxxxxxxxxxxxxDust01" Seed.world Seed.dust01
              "operator-secret" "OperatorPubkey" 2039280 "5xyzSignature")
    as (r & entry & w' & Hrun & Hs & _ & Htx & _ & Hrow & _);
    try (vm_compute; reflexivity).
  exists r, w'. rewrite Hrow. auto.
Defined.

(** X12: in real mode, when the balance request or the transfer throws for
    an ELIGIBLE account, the account stays as stored (it is not marked
    RECLAIMED), exactly one SKIP entry with the error message is appended,
    and the result is a failure carrying that message. *)
Theorem failed_transfer_keeps_status :
  forall env addr w account key operatorPubkey e,
    prisma.lookup_account addr (sponsoredAccount (db w)) = Some account ->
    j_status (fresh_verdict env w account) = J_ELIGIBLE ->
    config_operatorPrivateKey env = Some key ->
    Keypair_fromSecretKey env key = Ok operatorPubkey ->
    PublicKey_ok env addr = true ->
    (getBalance env (S (tick w)) addr = Throw e
     \/ exists lamports,
          getBalance env (S (tick w)) addr = Ok lamports
          /\ JS.strict_eq_zero lamports = false
          /\ PrimFloat.leb (PrimFloat.sub lamports TX_FEE_LAMPORTS) 0 = false
          /\ sendAndConfirmTransaction env (S (S (tick w))) addr operatorPubkey
               (PrimFloat.sub lamports TX_FEE_LAMPORTS) = Throw e) ->
    exists r entry w',
      reclaimAccount env addr false w = (Ok r, w')
      /\ r_success r = false
      /\ r_error r = Some (error_message e)
      /\ sponsoredAccount (db w') = sponsoredAccount (db w)
      /\ activityLog (db w') = activityLog (db w) ++ [entry]
      /\ log_action entry = LOG_SKIP
      /\ log_account entry = addr
      /\ log_reason entry = [Lit "Error: "; Lit (error_message e)].
Proof.
  intros env addr w account key operatorPubkey e Hfound Hel Hkey Hpair Hpk
    [Hbal | (lamports & Hbal & Hnz & Hcov & Hsend)].
  - do 3 eexists. split.
    { eapply reclaimAccount_balance_throws; eassumption. }
    repeat split.
  - do 3 eexists. split.
    { eapply reclaimAccount_transfer_throws; eassumption. }
    repeat split.
Qed.

Lemma failed_transfer_keeps_status_witness :
  exists r w',
    reclaimAccount
      (mkEnv (Some "operator-secret") None (Date_now Seed.mock_env)
         (fun _ => true)
         (fun _ => JsError "Invalid public key input")
         (fun _ => Ok "OperatorPubkey")
         (fun _ _ _ => Seed.unreachable) (fun _ _ => Seed.unreachable)
         (fun _ _ => Ok 2039280%float) (fun _ _ => Seed.unreachable)
         (fun _ _ => Seed.unreachable)
         (fun _ _ _ _ => Throw (JsError "Transaction was not confirmed")))
      "2dSTxxxxxxxxxxxxxxxxxxxxxxxxxxxxxxDust01" false Seed.world = (Ok r, w')
    /\ r_error r = Some "Transaction was not confirmed"
    /\ sponsoredAccount (db w') = Seed.accounts Seed.seeded_at.
Proof.
  destruct (failed_transfer_keeps_status
              (mkEnv (Some "operator-secret") None (Date_now Seed.mock_env)
                 (fun _ => true)
         (fun _ => JsError "Invalid public key input")
         (fun _ => Ok "OperatorPubkey")
                 (fun _ _ _ => Seed.unreachable) (fun _ _ => Seed.unreachable)
                 (fun _ _ => Ok 2039280%float) (fun _ _ => Seed.unreachable)
                 (fun _ _ => Seed.unreachable)
                 (fun _ _ _ _ => Throw (JsError "Transaction was not confirmed")))
              "2dSTxxxxxxxxxxxxxxxxxxxxxxxxxxxxxxDust01" Seed.world Seed.dust01
              "operator-secret" "OperatorPubkey"
              (JsError "Transaction was not confirmed"))
    as (r & entry & w' & Hrun & _ & He & Hrows & _);
    try (vm_compute; reflexivity).
  - right. exists 2039280%float. repeat split; vm_compute; reflexivity.
  - exists r, w'. auto.
Defined.

Section BatchAnyMode.

Variable env : Env.

(** The loop of [reclaimAllEligible] in either mode: one result per account,
    in order, each counted once. *)
Lemma reclaimAll_loop_completes dryRun accounts :
  forall results total successful failed w,
    exists rs total' w',
      reclaimAll_loop env dryRun accounts results total successful failed w
      = (Ok (results ++ rs, total',
             (successful + length (List.filter r_success rs))%nat,
             (failed + length (List.filter (negb ∘ r_success) rs))%nat),
         w')
      /\ r_address <$> rs = address <$> accounts
      /\ length (sponsoredAccount (db w')) = length (sponsoredAccount (db w))
      /\ whitelist (db w') = whitelist (db w)
      /\ settings (db w') = settings (db w).
Proof.
  induction accounts as [|a rest IH]; intros results total successful failed w.
  - exists [], total, w. simpl. rewrite app_nil_r, !Nat.add_0_r. auto.
  - destruct (reclaimAccount_returns env (address a) dryRun w)
      as (r & w1 & Hrun & Haddr & _ & Hlen & Hwl & Hset & _).
    cbn [reclaimAll_loop]. unfold bind at 1. rewrite Hrun.
    destruct (r_success r) eqn:Hs.
    + destruct (IH (results ++ [r]) (PrimFloat.add total (r_amount r))
                  (S successful) failed
                  (if dryRun then w1 else advance [] w1))
        as (rs & total' & w' & Hloop & Hrs & Hlen' & Hwl' & Hset').
      exists (r :: rs), total', w'. split.
      { destruct dryRun; cbv beta iota delta [bind ret sleep]; rewrite Hloop;
          cbn [List.filter length compose negb]; rewrite Hs; cbn [negb length];
          rewrite <- app_assoc, Nat.add_succ_r; reflexivity. }
      cbn [fmap list_fmap]. rewrite Haddr, Hrs.
      destruct dryRun; cbn in *; repeat split; congruence.
    + destruct (IH (results ++ [r]) total successful (S failed)
                  (if dryRun then w1 else advance [] w1))
        as (rs & total' & w' & Hloop & Hrs & Hlen' & Hwl' & Hset').
      exists (r :: rs), total', w'. split.
      { destruct dryRun; cbv beta iota delta [bind ret sleep]; rewrite Hloop;
          cbn [List.filter length compose negb]; rewrite Hs; cbn [negb length];
          rewrite <- app_assoc, Nat.add_succ_r; reflexivity. }
      cbn [fmap list_fmap]. rewrite Haddr, Hrs.
      destruct dryRun; cbn in *; repeat split; congruence.
Qed.

End BatchAnyMode.

(** X13: reclaimAllEligible, in simulation and in real mode and whatever
    the node answers, never fails and never stops early: it returns one
    result per account stored as ELIGIBLE, in table order and for that
    account's address; total is their number, successful and failed count
    the results by their success flag, and successful + failed = total. *)
Theorem batch_always_completes :
  forall env dryRun w,
    let accounts := List.filter stored_eligible (sponsoredAccount (db w)) in
    exists r w',
      reclaimAllEligible env dryRun w = (Ok r, w')
      /\ b_total r = length accounts
      /\ r_address <$> b_results r = address <$> accounts
      /\ b_successful r = length (List.filter r_success (b_results r))
      /\ b_failed r = length (List.filter (negb ∘ r_success) (b_results r))
      /\ (b_successful r + b_failed r)%nat = b_total r
      /\ b_mode r = mode_of dryRun.
Proof.
  intros env dryRun w accounts.
  destruct (reclaimAll_loop_completes env dryRun accounts [] 0%float 0%nat 0%nat w)
    as (rs & total' & w' & Hloop & Hrs & _).
  do 2 eexists. split.
  { unfold reclaimAllEligible, bind at 1, prisma.sponsoredAccount_findMany, read_db.
    fold accounts. unfold bind at 1. rewrite Hloop. reflexivity. }
  cbn [b_total b_results b_successful b_failed b_mode app].
  pose proof (filter_split_length r_success rs) as Hsplit.
  assert (length rs = length accounts) as Hlen.
  { rewrite <- (length_fmap r_address rs), Hrs. apply length_fmap. }
  repeat split; try reflexivity; try assumption; lia.
Qed.

Section NoOperatorKey.

Variable env : Env.
Hypothesis Hkey : config_operatorPrivateKey env = None.

Lemma reclaimAccount_without_key addr dryRun w :
  exists r w',
    reclaimAccount env addr dryRun w = (Ok r, w')
    /\ only_logged w w'
    /\ (dryRun = false -> r_success r = false).
Proof.
  destruct (prisma.lookup_account addr (sponsoredAccount (db w)))
    as [account|] eqn:Hfound.
  - destruct (decide (j_status (fresh_verdict env w account) = J_ELIGIBLE))
      as [Hel | Hne].
    + destruct dryRun.
      * do 2 eexists. split; [apply reclaimAccount_simulated; eassumption|].
        split; [repeat split | discriminate].
      * destruct (reclaimAccount_no_private_key env addr w account Hfound Hel Hkey)
          as (r & Hrun & Hs & _).
        do 2 eexists. split; [exact Hrun|]. split; [repeat split | auto].
    + do 2 eexists. split; [apply reclaimAccount_not_eligible; eassumption|].
      split; [repeat split | reflexivity].
  - destruct (reclaimAccount_try_not_found env addr dryRun w Hfound)
      as (r & Hrun & Hs & _).
    exists r, w. split; [exact Hrun|]. split; [repeat split | auto].
Qed.

Lemma reclaimAll_loop_without_key dryRun accounts :
  forall results total successful failed w,
    exists results' total' successful' failed' w',
      reclaimAll_loop env dryRun accounts results total successful failed w
      = (Ok (results', total', successful', failed'), w')
      /\ only_logged w w'
      /\ (dryRun = false -> total' = total /\ successful' = successful).
Proof.
  induction accounts as [|a rest IH]; intros results total successful failed w.
  - do 5 eexists. split; [reflexivity|]. split; [repeat split | auto].
  - destruct (reclaimAccount_without_key (address a) dryRun w)
      as (r & w1 & Hrun & Hlog & Hfail).
    cbn [reclaimAll_loop]. unfold bind at 1. rewrite Hrun.
    destruct dryRun.
    + destruct (r_success r);
        cbv beta iota delta [bind ret];
        match goal with
        | |- context [reclaimAll_loop env true rest ?rs ?t ?s ?f w1] =>
            destruct (IH rs t s f w1)
              as (results' & total' & successful' & failed' & w' & Hloop & Hlog' & _)
        end;
        rewrite Hloop; do 5 eexists; (split; [reflexivity|]);
        (split; [eapply only_logged_trans; eassumption | discriminate]).
    + rewrite (Hfail eq_refl). cbv beta iota delta [bind sleep].
      destruct (IH (results ++ [r]) total successful (S failed) (advance [] w1))
        as (results' & total' & successful' & failed' & w' & Hloop & Hlog' & Hsame).
      rewrite Hloop. do 5 eexists. split; [reflexivity|]. split; [|exact Hsame].
      eapply only_logged_trans; [exact Hlog|].
      eapply only_logged_trans; [|exact Hlog'].
      unfold only_logged, advance. cbn. rewrite app_nil_r. auto.
Qed.

End NoOperatorKey.

(** X14: when isRealModeAvailable() is false (no operator key is
    configured), reclaimAccount and reclaimAllEligible, in either mode, send
    no request at all to the Ledger Gateway and leave every stored account
    as it is; asked for real mode they report no success: every single
    attempt fails, and the batch returns successful = 0 and
    totalReclaimed = 0. *)
Theorem no_key_no_ledger_access :
  forall env,
    isRealModeAvailable env = false ->
    (forall addr dryRun w,
        exists r w',
          reclaimAccount env addr dryRun w = (Ok r, w')
          /\ calls w' = calls w
          /\ sponsoredAccount (db w') = sponsoredAccount (db w)
          /\ (dryRun = false -> r_success r = false))
    /\ (forall dryRun w,
          exists r w',
            reclaimAllEligible env dryRun w = (Ok r, w')
            /\ calls w' = calls w
            /\ sponsoredAccount (db w') = sponsoredAccount (db w)
            /\ (dryRun = false ->
                b_successful r = 0%nat /\ b_totalReclaimed r = 0%float)).
Proof.
  intros env Havail.
  assert (config_operatorPrivateKey env = None) as Hkey.
  { unfold isRealModeAvailable, config_isMockMode in Havail.
    destruct (config_operatorPrivateKey env); [discriminate | reflexivity]. }
  split.
  - intros addr dryRun w.
    destruct (reclaimAccount_without_key env Hkey addr dryRun w)
      as (r & w' & Hrun & (Hrows & _ & _ & Hcalls) & Hfail).
    exists r, w'. auto.
  - intros dryRun w.
    destruct (reclaimAll_loop_without_key env Hkey dryRun
                (List.filter stored_eligible (sponsoredAccount (db w)))
                [] 0%float 0%nat 0%nat w)
      as (results' & total' & successful' & failed' & w' & Hloop
          & (Hrows & _ & _ & Hcalls) & Hsame).
    do 2 eexists. split.
    { unfold reclaimAllEligible, bind at 1, prisma.sponsoredAccount_findMany,
        read_db. unfold bind at 1. rewrite Hloop. reflexivity. }
    cbn. split; [exact Hcalls|]. split; [exact Hrows|].
    intros Hreal. destruct (Hsame Hreal) as [-> ->]. split; reflexivity.
Qed.

Lemma no_key_no_ledger_access_witness :
  exists r w',
    reclaimAllEligible Seed.mock_env false Seed.world = (Ok r, w')
    /\ calls w' = []
    /\ b_successful r = 0%nat.
Proof.
  destruct (no_key_no_ledger_access Seed.mock_env) as [_ Hbatch].
  - vm_compute. reflexivity.
  - destruct (Hbatch false Seed.world) as (r & w' & Hrun & Hcalls & _ & Hreal).
    exists r, w'. destruct (Hreal eq_refl) as [Hs _]. auto.
Defined.

(* ===================================================================== *)
(** ** The statistics                                                     *)
(* ===================================================================== *)

Section Stats.

Implicit Types (rows : list SponsoredAccount) (log : list ActivityLog).

Lemma stats_fold rows :
  forall p e pr ac,
    fold_left stats_step rows (p, e, pr, ac)
    = (sum_from p (potential_of <$> List.filter stored_eligible rows),
       (e + length (List.filter stored_eligible rows))%nat,
       (pr + length (List.filter (stored_as PROTECTED) rows))%nat,
       (ac + length (List.filter (stored_as ACTIVE) rows))%nat).
Proof.
  induction rows as [|a rest IH]; intros p e pr ac.
  - simpl. rewrite !Nat.add_0_r. reflexivity.
  - destruct a as [addr bal rent last st detected].
    destruct st; cbn [fold_left stats_step status]; rewrite IH;
      unfold stored_eligible, stored_as;
      cbn -[PrimFloat.add PrimFloat.sub PrimFloat.div JS.Math_max];
      repeat match goal with
             | |- context [bool_decide (?x = ?y)] =>
                 first [ rewrite (bool_decide_eq_true_2 (x = y)) by reflexivity
                       | rewrite (bool_decide_eq_false_2 (x = y)) by discriminate ]
             end;
      cbn -[PrimFloat.add PrimFloat.sub PrimFloat.div JS.Math_max];
      rewrite ?Nat.add_succ_r; reflexivity.
Qed.

Lemma total_recovered_snoc log e :
  total_recovered (log ++ [e])
  = if real_reclaim e
    then PrimFloat.add (total_recovered log) (log_amount e)
    else total_recovered log.
Proof.
  unfold total_recovered. rewrite List.filter_app. cbn [List.filter].
  destruct (real_reclaim e); [|rewrite app_nil_r; reflexivity].
  rewrite fold_left_app. reflexivity.
Qed.

Lemma getReclaimStats_run w :
  getReclaimStats w
  = (Ok {| st_totalRecovered := total_recovered (activityLog (db w));
           st_potentialRecovery :=
             sum_from 0 (potential_of
                           <$> List.filter stored_eligible (sponsoredAccount (db w)));
           st_eligibleCount :=
             length (List.filter stored_eligible (sponsoredAccount (db w)));
           st_protectedCount :=
             length (List.filter (stored_as PROTECTED) (sponsoredAccount (db w)));
           st_activeCount :=
             length (List.filter (stored_as ACTIVE) (sponsoredAccount (db w))) |},
     w).
Proof.
  unfold getReclaimStats, bind, prisma.sponsoredAccount_findMany, read_db, ret.
  assert (List.filter (fun _ : SponsoredAccount => true) (sponsoredAccount (db w))
          = sponsoredAccount (db w)) as ->.
  { induction (sponsoredAccount (db w)) as [|a l IH]; simpl; congruence. }
  rewrite stats_fold. reflexivity.
Qed.

End Stats.

Lemma eligible_verdicts_recover_potential env cfg wl accounts :
  forall t,
    Forall (fun j => j_status j = J_ELIGIBLE)
           (verdicts_from env cfg wl t accounts) ->
    j_potentialRecovery <$> verdicts_from env cfg wl t accounts
    = potential_of <$> accounts.
Proof.
  induction accounts as [|a rest IH]; intros t Hall; [reflexivity|].
  cbn [verdicts_from fmap list_fmap] in *. apply Forall_cons in Hall as [Ha Hall].
  rewrite <- (IH (S t) Hall). f_equal.
  revert Ha. unfold judgeAccount, potential_of.
  repeat case_match; (discriminate || reflexivity).
Qed.

(** X15: getReclaimStats changes nothing, and its counters are those of the
    table: eligibleCount, protectedCount and activeCount are the numbers of
    accounts stored with that status, and eligibleCount is the total that
    reclaimAllEligible reports from the same state, in either mode. *)
Theorem stats_count_the_table :
  forall env dryRun w,
    exists stats,
      getReclaimStats w = (Ok stats, w)
      /\ st_eligibleCount stats
         = length (List.filter (stored_as ELIGIBLE) (sponsoredAccount (db w)))
      /\ st_protectedCount stats
         = length (List.filter (stored_as PROTECTED) (sponsoredAccount (db w)))
      /\ st_activeCount stats
         = length (List.filter (stored_as ACTIVE) (sponsoredAccount (db w)))
      /\ b_total <$> value_of (reclaimAllEligible env dryRun w)
         = Some (st_eligibleCount stats).
Proof.
  intros env dryRun w. eexists. split; [apply getReclaimStats_run|].
  cbn [st_eligibleCount st_protectedCount st_activeCount].
  do 3 (split; [reflexivity|]).
  destruct (reclaimAll_loop_completes env dryRun
              (List.filter stored_eligible (sponsoredAccount (db w)))
              [] 0%float 0%nat 0%nat w)
    as (rs & total' & w' & Hloop & _).
  unfold reclaimAllEligible, value_of, bind at 1,
    prisma.sponsoredAccount_findMany, read_db.
  unfold bind at 1. rewrite Hloop. reflexivity.
Qed.

(** X16: on a store with unique addresses, when every account stored as
    ELIGIBLE is still ELIGIBLE at re-validation, the totalReclaimed of a
    simulated reclaimAllEligible is the potentialRecovery that
    getReclaimStats reports: the sum, in table order, of
    max(0, balance - fee) over the accounts stored as ELIGIBLE. *)
Theorem simulated_total_is_potential_recovery :
  forall env w,
    unique_addresses (db w) ->
    Forall (fun j => j_status j = J_ELIGIBLE)
      (verdicts_from env (settings_of (db w)) (whitelist_of (db w)) (tick w)
         (List.filter stored_eligible (sponsoredAccount (db w)))) ->
    b_totalReclaimed <$> value_of (reclaimAllEligible env true w)
    = st_potentialRecovery <$> value_of (getReclaimStats w).
Proof.
  intros env w Huniq Hall.
  destruct (reclaimAll_loop_simulated env
              (List.filter stored_eligible (sponsoredAccount (db w)))
              w [] 0%float 0%nat 0%nat)
    as (rs & w' & Hloop & _).
  { intros a Ha. apply lookup_account_unique; [exact Huniq|].
    apply filter_In in Ha as [Ha _]. exact Ha. }
  rewrite getReclaimStats_run.
  unfold reclaimAllEligible, value_of, bind at 1,
    prisma.sponsoredAccount_findMany, read_db.
  unfold bind at 1. rewrite Hloop. cbn.
  destruct (filter_all_eligible _ Hall) as [-> _].
  rewrite (eligible_verdicts_recover_potential _ _ _ _ _ Hall). reflexivity.
Qed.

Lemma simulated_total_is_potential_recovery_witness :
  b_totalReclaimed <$> value_of
    (reclaimAllEligible Seed.mock_env true Seed.nine_at_rent_floor)
  = st_potentialRecovery <$> value_of (getReclaimStats Seed.nine_at_rent_floor).
Proof.
  apply (simulated_total_is_potential_recovery Seed.mock_env
           Seed.nine_at_rent_floor).
  - unfold unique_addresses. apply (bool_decide_unpack _). vm_compute. exact I.
  - vm_compute. repeat constructor.
Defined.

Section LogMeasure.

(** Any measure of the log that an appended entry changes only when it is a
    real RECLAIM entry, and then by adding its amount. *)
Variable measure : list ActivityLog -> float.
Hypothesis measure_snoc :
  forall log e,
    measure (log ++ [e])
    = if real_reclaim e then PrimFloat.add (measure log) (log_amount e)
      else measure log.

Lemma reclaimAccount_measure env addr dryRun w :
  exists r w',
    reclaimAccount env addr dryRun w = (Ok r, w')
    /\ measure (activityLog (db w'))
       = match r_txSignature r with
         | Some _ => PrimFloat.add (measure (activityLog (db w))) (r_amount r)
         | None => measure (activityLog (db w))
         end
    /\ (dryRun = true -> r_txSignature r = None).
Proof.
  destruct (reclaimAccount env addr dryRun w) as [o w'] eqn:Hrun.
  revert Hrun. reclaim_paths; intros [= <- <-];
    do 2 eexists; (split; [reflexivity|]);
    cbn; rewrite ?measure_snoc; cbn;
    split; (reflexivity || discriminate || auto).
Qed.

End LogMeasure.

Lemma reclaimAccount_total_recovered env addr dryRun w :
  exists r w',
    reclaimAccount env addr dryRun w = (Ok r, w')
    /\ total_recovered (activityLog (db w'))
       = match r_txSignature r with
         | Some _ =>
             PrimFloat.add (total_recovered (activityLog (db w))) (r_amount r)
         | None => total_recovered (activityLog (db w))
         end
    /\ (dryRun = true -> r_txSignature r = None).
Proof.
  exact (reclaimAccount_measure total_recovered total_recovered_snoc
           env addr dryRun w).
Qed.

(** X17: the totalRecovered of getReclaimStats counts the confirmed real
    transfers and nothing else: after any reclaimAccount call it has grown
    by the result's amount when the result carries a transaction signature,
    and is unchanged otherwise; so simulated reclaims, failures and accounts
    found already empty never change it. *)
Theorem total_recovered_counts_confirmed_transfers :
  forall env addr dryRun w,
    exists r w',
      reclaimAccount env addr dryRun w = (Ok r, w')
      /\ st_totalRecovered <$> value_of (getReclaimStats w')
         = match r_txSignature r with
           | Some _ =>
               (fun s => PrimFloat.add (st_totalRecovered s) (r_amount r))
                 <$> value_of (getReclaimStats w)
           | None => st_totalRecovered <$> value_of (getReclaimStats w)
           end
      /\ (dryRun = true -> r_txSignature r = None).
Proof.
  intros env addr dryRun w.
  destruct (reclaimAccount_total_recovered env addr dryRun w)
    as (r & w' & Hrun & Htotal & Hdry).
  exists r, w'. split; [exact Hrun|]. split; [|exact Hdry].
  rewrite !getReclaimStats_run. unfold value_of.
  cbn [fst fmap option_fmap option_map st_totalRecovered].
  rewrite Htotal. destruct (r_txSignature r); reflexivity.
Qed.

(* ===================================================================== *)
(** ** More about the Scanner                                             *)
(* ===================================================================== *)

Section ScanFacts.

Variable env : Env.

Implicit Types (rows : list SponsoredAccount) (w : World).

Lemma no_new_eligible_refl rows : no_new_eligible rows rows.
Proof. intros addr a H1 H2. eauto. Qed.

Lemma no_new_eligible_trans rows1 rows2 rows3 :
  no_new_eligible rows1 rows2 -> no_new_eligible rows2 rows3 ->
  no_new_eligible rows1 rows3.
Proof.
  intros H12 H23 addr a Ha Hs.
  destruct (H23 addr a Ha Hs) as (a' & Ha' & Hs'). eauto.
Qed.

Lemma update_row_addresses addr f rows :
  (forall a, address (f a) = address a) ->
  address <$> prisma.update_row addr f rows = address <$> rows.
Proof.
  intros Hf. induction rows as [|a rest IH]; [reflexivity|].
  cbn [prisma.update_row]. destruct (prisma.has_address addr a);
    rewrite !fmap_cons, ?Hf, ?IH; reflexivity.
Qed.

Lemma lookup_account_None addr rows :
  prisma.lookup_account addr rows = None -> addr ∉ (address <$> rows).
Proof.
  unfold prisma.lookup_account. intros Hnone Hin.
  apply list_elem_of_fmap in Hin as (a & -> & Ha).
  apply list_elem_of_In in Ha.
  apply (find_none _ _ Hnone) in Ha.
  apply has_address_false in Ha. congruence.
Qed.

Lemma lookup_account_app_Some addr rows a b :
  prisma.lookup_account addr rows = Some a ->
  prisma.lookup_account addr (rows ++ [b]) = Some a.
Proof.
  unfold prisma.lookup_account.
  induction rows as [|c rows IH]; simpl; [discriminate|].
  destruct (prisma.has_address addr c); [auto | exact IH].
Qed.

Lemma determineInitialStatus_not_eligible state :
  determineInitialStatus state <> ELIGIBLE.
Proof.
  unfold determineInitialStatus. repeat case_match; discriminate.
Qed.

(** What the reconciliation of one account leaves behind, whatever the node
    answered about its current state. *)
Lemma reconcile_with_run account state w :
  exists created w',
    reconcile_with env account state w = (Ok created, w')
    /\ length (sponsoredAccount (db w'))
       = (length (sponsoredAccount (db w)) + if created then 1 else 0)%nat
    /\ (NoDup (address <$> sponsoredAccount (db w)) ->
        NoDup (address <$> sponsoredAccount (db w')))
    /\ no_new_eligible (sponsoredAccount (db w)) (sponsoredAccount (db w'))
    /\ whitelist (db w') = whitelist (db w)
    /\ settings (db w') = settings (db w)
    /\ activityLog (db w') = activityLog (db w)
    /\ calls w' = calls w.
Proof.
  unfold reconcile_with, bind, prisma.sponsoredAccount_findUnique, read_db,
    prisma.sponsoredAccount_update, prisma.sponsoredAccount_create, now, ret.
  destruct (prisma.lookup_account (d_address account) (sponsoredAccount (db w)))
    as [existing|] eqn:Hfound; cbn -[prisma.lookup_account prisma.update_row];
    rewrite Hfound; cbn -[prisma.lookup_account prisma.update_row];
    do 2 eexists; (split; [reflexivity|]);
    cbn -[prisma.lookup_account prisma.update_row].
  - rewrite length_update_row, Nat.add_0_r, app_nil_r.
    split; [reflexivity|]. split.
    { rewrite update_row_addresses by reflexivity. auto. }
    split; [|auto].
    intros addr a' Ha' Hs.
    destruct (decide (addr = d_address account)) as [-> | Hne].
    + rewrite (lookup_update_row_same _ _ _ existing Hfound) in Ha'
        by reflexivity.
      injection Ha' as <-. exists existing. split; [exact Hfound|].
      cbn in Hs. destruct (PrimFloat.eqb (cs_balance state) 0);
        [discriminate Hs | exact Hs].
    + rewrite lookup_update_row_other in Ha' by (assumption || reflexivity).
      eauto.
  - rewrite length_app, app_nil_r. cbn [length].
    split; [reflexivity|]. split.
    { intros Hnd. rewrite fmap_app. apply NoDup_app. split; [exact Hnd|].
      split; [|apply NoDup_singleton].
      intros x Hx Hx'. apply list_elem_of_singleton in Hx'. cbn in Hx'. subst x.
      exact (lookup_account_None _ _ Hfound Hx). }
    split; [|auto].
    intros addr a' Ha' Hs.
    destruct (prisma.lookup_account addr (sponsoredAccount (db w)))
      as [a|] eqn:Ha.
    + rewrite (lookup_account_app_Some _ _ _ _ Ha) in Ha'.
      injection Ha' as <-. eauto.
    + rewrite (lookup_account_app_None _ _ _ Ha) in Ha'.
      destruct (prisma.has_address addr _); [|discriminate].
      injection Ha' as <-. cbn in Hs.
      exfalso. exact (determineInitialStatus_not_eligible _ Hs).
Qed.

Lemma no_funds_moved_refl w : no_funds_moved w w.
Proof. exists []. rewrite app_nil_r. split; reflexivity. Qed.

Lemma no_funds_moved_trans w1 w2 w3 :
  no_funds_moved w1 w2 -> no_funds_moved w2 w3 -> no_funds_moved w1 w3.
Proof.
  intros (n1 & H1 & Hw1) (n2 & H2 & Hw2). exists (n1 ++ n2).
  rewrite H2, H1, app_assoc. split; [reflexivity|].
  unfold writes in *. rewrite List.filter_app, Hw1, Hw2. reflexivity.
Qed.

Lemma no_funds_moved_advance c w :
  writes c = [] -> no_funds_moved w (advance c w).
Proof. intros Hc. exists c. split; [reflexivity | exact Hc]. Qed.

Lemma no_funds_moved_calls w w' : calls w' = calls w -> no_funds_moved w w'.
Proof. intros H. exists []. rewrite app_nil_r. split; [exact H | reflexivity]. Qed.

(** The current state of an account is obtained by reading only. *)
Lemma getAccountCurrentState_reads addr w :
  exists state w',
    getAccountCurrentState env addr w = (Ok state, w')
    /\ db w' = db w /\ no_funds_moved w w'.
Proof.
  unfold getAccountCurrentState, try_catch, bind, new_PublicKey,
    connection_getAccountInfo, connection_getMinimumBalanceForRentExemption.
  destruct (PublicKey_ok env addr); cbn.
  - destruct (getAccountInfo env (tick w) addr) as [[[lamports len]|]|e]; cbn.
    + destruct (getMinimumBalanceForRentExemption env (S (tick w)) len); cbn;
        do 2 eexists; (split; [reflexivity|]); (split; [reflexivity|]);
        (eapply no_funds_moved_trans;
         [apply (no_funds_moved_advance [GetAccountInfo addr]); reflexivity
         |apply (no_funds_moved_advance
                   [GetMinimumBalanceForRentExemption len]); reflexivity]).
    + do 2 eexists. split; [reflexivity|]. split; [reflexivity|].
      apply (no_funds_moved_advance [GetAccountInfo addr]); reflexivity.
    + do 2 eexists. split; [reflexivity|]. split; [reflexivity|].
      apply (no_funds_moved_advance [GetAccountInfo addr]); reflexivity.
  - do 2 eexists. split; [reflexivity|]. split; [reflexivity|].
    apply no_funds_moved_refl.
Qed.

(** One of the two [if] blocks of the extraction loop. *)
Lemma extract_if_run type_ operator txTime type info acc w :
  db (snd (extract_if env type_ operator txTime type info acc w)) = db w
  /\ no_funds_moved w
       (snd (extract_if env type_ operator txTime type info acc w))
  /\ forall ds w',
       extract_if env type_ operator txTime type info acc w = (Ok ds, w') ->
       if String.eqb type type_ && String.eqb (i_source info) operator
       then exists d, ds = acc ++ [d] /\ discovered_from txTime d info
       else ds = acc.
Proof.
  unfold extract_if, bind, connection_getMinimumBalanceForRentExemption, ret.
  destruct (String.eqb type type_ && String.eqb (i_source info) operator).
  - destruct (getMinimumBalanceForRentExemption env (tick w) _) as [r|e];
      cbn; (split; [reflexivity|]);
      (split; [eapply no_funds_moved_advance; reflexivity|]);
      intros ds w' H; [|discriminate H].
    injection H as <- <-. eexists. split; [reflexivity|].
    repeat split.
  - cbn. split; [reflexivity|]. split; [apply no_funds_moved_refl|].
    intros ds w' H. injection H as <- <-. reflexivity.
Qed.

(** The extraction loop only reads, and what it returns is the accounts it
    started with followed by one account per sponsored creation, in the
    order of the instructions. *)
Lemma extractSponsoredAccounts_loop_run operator txTime instructions :
  forall acc w,
    db (snd (extractSponsoredAccounts_loop env operator txTime instructions
               acc w)) = db w
    /\ no_funds_moved w
         (snd (extractSponsoredAccounts_loop env operator txTime instructions
                 acc w))
    /\ forall ds w',
         extractSponsoredAccounts_loop env operator txTime instructions acc w
         = (Ok ds, w') ->
         exists new,
           ds = acc ++ new
           /\ Forall2 (discovered_from txTime) new
                (omap (sponsored_creation operator) instructions).
Proof.
  induction instructions as [|i rest IH]; intros acc w.
  { cbn. split; [reflexivity|]. split; [apply no_funds_moved_refl|].
    intros ds w' H. injection H as <- <-. exists []. rewrite app_nil_r.
    split; [reflexivity | constructor]. }
  destruct i as [|program type [info|]];
    cbn [extractSponsoredAccounts_loop omap list_omap sponsored_creation];
    try apply IH.
  2: { destruct (negb (String.eqb program "system")); apply IH. }
  destruct (String.eqb program "system") eqn:Ep; cbn [negb andb];
    [|apply IH].
  destruct (extract_if_run "createAccount" operator txTime type info acc w)
    as (Hdb1 & Hnf1 & Hres1).
  unfold bind.
  destruct (extract_if env "createAccount" operator txTime type info acc w)
    as [[acc1|e1] w1] eqn:E1; cbn [snd] in *;
    [|split; [exact Hdb1|]; split; [exact Hnf1|]; intros ? ? H; discriminate H].
  destruct (extract_if_run "createAccountWithSeed" operator txTime type info
              acc1 w1) as (Hdb2 & Hnf2 & Hres2).
  destruct (extract_if env "createAccountWithSeed" operator txTime type info
              acc1 w1) as [[acc2|e2] w2] eqn:E2; cbn [snd] in *;
    [|split; [congruence|]; split;
      [exact (no_funds_moved_trans _ _ _ Hnf1 Hnf2)|];
      intros ? ? H; discriminate H].
  destruct (IH acc2 w2) as (Hdb3 & Hnf3 & Hres3).
  split; [congruence|].
  split; [exact (no_funds_moved_trans _ _ _ Hnf1
                   (no_funds_moved_trans _ _ _ Hnf2 Hnf3))|].
  intros ds w' H. destruct (Hres3 _ _ H) as (new & -> & HF).
  specialize (Hres1 _ _ eq_refl). specialize (Hres2 _ _ eq_refl).
  destruct (String.eqb type "createAccount") eqn:Et1;
    destruct (String.eqb type "createAccountWithSeed") eqn:Et2;
    destruct (String.eqb (i_source info) operator) eqn:Es;
    cbn [andb orb] in *.
  all: try (apply String.eqb_eq in Et1; apply String.eqb_eq in Et2;
            rewrite Et1 in Et2; discriminate Et2).
  all: repeat match goal with
         | H : exists d, _ |- _ => destruct H as (? & -> & ?)
         | H : ?x = _ |- _ => is_var x; subst x
         end.
  all: try (eexists; split; [reflexivity | exact HF]).
  all: eexists; rewrite <- app_assoc; (split; [reflexivity|]);
    constructor; assumption.
Qed.

Lemma rows_kept_refl rows : rows_kept rows rows.
Proof. intros addr a H. eauto. Qed.

Lemma rows_kept_trans rows1 rows2 rows3 :
  rows_kept rows1 rows2 -> rows_kept rows2 rows3 -> rows_kept rows1 rows3.
Proof.
  intros H12 H23 addr a Ha.
  destruct (H12 addr a Ha) as (a2 & Ha2 & Hr2 & Hd2).
  destruct (H23 addr a2 Ha2) as (a3 & Ha3 & Hr3 & Hd3).
  exists a3. split; [exact Ha3|]. split; congruence.
Qed.

Lemma scanned_reads w w' : db w' = db w -> no_funds_moved w w' -> scanned w w'.
Proof.
  intros Hdb Hnf. unfold scanned. rewrite Hdb.
  split; [auto|]. split; [apply keeps_reclaimed_refl|].
  split; [apply no_new_eligible_refl|]. split; [apply rows_kept_refl|].
  auto.
Qed.

Lemma scanned_trans w1 w2 w3 : scanned w1 w2 -> scanned w2 w3 -> scanned w1 w3.
Proof.
  intros (U1 & K1 & N1 & R1 & W1 & S1 & F1) (U2 & K2 & N2 & R2 & W2 & S2 & F2).
  split; [auto|].
  split; [exact (keeps_reclaimed_trans _ _ _ K1 K2)|].
  split; [exact (no_new_eligible_trans _ _ _ N1 N2)|].
  split; [exact (rows_kept_trans _ _ _ R1 R2)|].
  split; [congruence|]. split; [congruence|].
  exact (no_funds_moved_trans _ _ _ F1 F2).
Qed.

Lemma reconcile_with_rows_kept account state w :
  rows_kept (sponsoredAccount (db w))
    (sponsoredAccount (db (world_after (reconcile_with env account state w)))).
Proof.
  unfold reconcile_with, world_after, bind, prisma.sponsoredAccount_findUnique,
    read_db, prisma.sponsoredAccount_update, prisma.sponsoredAccount_create.
  destruct (prisma.lookup_account (d_address account) (sponsoredAccount (db w)))
    as [existing|] eqn:Hfound; cbn -[prisma.lookup_account prisma.update_row];
    rewrite Hfound; cbn -[prisma.lookup_account prisma.update_row];
    intros addr a Ha.
  - destruct (decide (addr = d_address account)) as [-> | Hne].
    + rewrite (lookup_update_row_same _ _ _ a Ha) by reflexivity.
      eexists. split; [reflexivity|]. split; reflexivity.
    + rewrite lookup_update_row_other by (assumption || reflexivity). eauto.
  - rewrite (lookup_account_app_Some _ _ _ _ Ha). eauto.
Qed.

(** One round of the STEP 3 loop. *)
Lemma reconcile_run account w :
  exists created w',
    reconcile env account w = (Ok created, w')
    /\ length (sponsoredAccount (db w'))
       = (length (sponsoredAccount (db w)) + if created then 1 else 0)%nat
    /\ scanned w w'
    /\ activityLog (db w') = activityLog (db w).
Proof.
  unfold reconcile, bind.
  destruct (getAccountCurrentState_reads (d_address account) w)
    as (state & w1 & -> & Hdb1 & Hnf1).
  destruct (reconcile_with_run account state w1)
    as (created & w' & Hrun & Hlen & Hu & Hn & Hw & Hs & Hl & Hc).
  pose proof (reconcile_with_keeps env account state w1) as Hk.
  pose proof (reconcile_with_rows_kept account state w1) as Hr.
  unfold world_after in Hk, Hr. rewrite Hrun in Hk, Hr. cbn [snd] in Hk, Hr.
  exists created, w'. split; [exact Hrun|]. rewrite Hdb1 in *.
  split; [exact Hlen|]. split; [|exact Hl].
  split; [exact Hu|]. split; [exact Hk|]. split; [exact Hn|].
  split; [exact Hr|]. split; [exact Hw|]. split; [exact Hs|].
  exact (no_funds_moved_trans _ _ _ Hnf1 (no_funds_moved_calls _ _ Hc)).
Qed.

(** The STEP 3 loop never throws; every discovered account is counted once,
    as new or as updated, and the table grows by the new ones. *)
Lemma reconcile_loop_run discovered :
  forall newCount updatedCount w,
    exists n u w',
      reconcile_loop env discovered newCount updatedCount w
      = (Ok ((newCount + n)%nat, (updatedCount + u)%nat), w')
      /\ (n + u)%nat = length discovered
      /\ length (sponsoredAccount (db w'))
         = (length (sponsoredAccount (db w)) + n)%nat
      /\ scanned w w'
      /\ activityLog (db w') = activityLog (db w).
Proof.
  induction discovered as [|account rest IH]; intros newCount updatedCount w.
  { exists 0%nat, 0%nat, w. cbn. rewrite !Nat.add_0_r.
    split; [reflexivity|]. split; [reflexivity|]. split; [reflexivity|].
    split; [|reflexivity].
    apply scanned_reads; [reflexivity | apply no_funds_moved_refl]. }
  cbn [reconcile_loop]. unfold bind at 1.
  destruct (reconcile_run account w)
    as (created & w1 & -> & Hlen1 & Hsc1 & Hlog1).
  destruct created.
  - destruct (IH (S newCount) updatedCount w1)
      as (n & u & w' & -> & Hsum & Hlen & Hsc & Hlog).
    exists (S n), u, w'. rewrite <- Nat.add_succ_comm.
    split; [reflexivity|]. cbn [length]. split; [lia|]. split; [lia|].
    split; [exact (scanned_trans _ _ _ Hsc1 Hsc) | congruence].
  - destruct (IH newCount (S updatedCount) w1)
      as (n & u & w' & -> & Hsum & Hlen & Hsc & Hlog).
    exists n, (S u), w'. rewrite <- Nat.add_succ_comm.
    split; [reflexivity|]. cbn [length]. split; [lia|]. split; [lia|].
    split; [exact (scanned_trans _ _ _ Hsc1 Hsc) | congruence].
Qed.

(** STEP 2 never throws: a transaction that cannot be fetched or parsed is
    passed over; and it only reads. *)
Lemma discover_loop_reads operator signatures :
  forall acc w,
    exists ds w',
      discover_loop env operator signatures acc w = (Ok ds, w')
      /\ db w' = db w /\ no_funds_moved w w'.
Proof.
  induction signatures as [|sigInfo rest IH]; intros acc w.
  { exists acc, w. cbn. split; [reflexivity|]. split; [reflexivity|].
    apply no_funds_moved_refl. }
  cbn [discover_loop]. destruct (sig_err sigInfo); [apply IH|].
  unfold bind at 1.
  match goal with
  | |- context [try_catch ?m ?h w] =>
      assert (exists acc1 w1, try_catch m h w = (Ok acc1, w1)
                              /\ db w1 = db w /\ no_funds_moved w w1)
        as (acc1 & w1 & -> & Hdb1 & Hnf1)
  end.
  { unfold try_catch, bind, connection_getParsedTransaction,
      extractSponsoredAccounts, now, ret.
    assert (Hget : no_funds_moved w
                     (advance [GetParsedTransaction (sig_signature sigInfo)] w))
      by (apply no_funds_moved_advance; reflexivity).
    destruct (getParsedTransaction env (tick w) (sig_signature sigInfo))
      as [[tx|]|e]; cbn [fst snd];
      [|do 2 eexists; (split; [reflexivity|]); split; [reflexivity|exact Hget]..].
    assert (Hnow : forall w0, no_funds_moved w0 (advance [] w0))
      by (intros w0; apply no_funds_moved_advance; reflexivity).
    destruct (sig_blockTime sigInfo) as [blockTime|];
      [destruct (JS.truthy blockTime)|].
    all: match goal with
         | |- context [extractSponsoredAccounts_loop env ?o ?t ?i ?a ?w0] =>
             destruct (extractSponsoredAccounts_loop_run o t i a w0)
               as (Hdb & Hnf & _);
             destruct (extractSponsoredAccounts_loop env o t i a w0)
               as [[ds|e] w3]
         end; cbn [fst snd] in *; do 2 eexists; (split; [reflexivity|]);
      (split; [rewrite Hdb; reflexivity|]).
    all: first [ exact (no_funds_moved_trans _ _ _ Hget Hnf)
               | exact (no_funds_moved_trans _ _ _ Hget
                          (no_funds_moved_trans _ _ _ (Hnow _) Hnf)) ]. }
  destruct (IH acc1 w1) as (ds & w' & -> & Hdb & Hnf).
  exists ds, w'. split; [reflexivity|]. split; [congruence|].
  exact (no_funds_moved_trans _ _ _ Hnf1 Hnf).
Qed.

(** STEP 3 with its log entry. *)
Lemma scan_store_run operator discovered w :
  exists n u w',
    scan_store env operator discovered w
    = (Ok (n, u, length (sponsoredAccount (db w'))), w')
    /\ (n + u)%nat = length discovered
    /\ length (sponsoredAccount (db w'))
       = (length (sponsoredAccount (db w)) + n)%nat
    /\ scanned w w'
    /\ activityLog (db w') = activityLog (db w) ++ [scan_entry env operator n u].
Proof.
  unfold scan_store, bind.
  destruct (reconcile_loop_run discovered 0 0 w)
    as (n & u & w1 & -> & Hsum & Hlen & Hsc & Hlog).
  cbn. exists n, u.
  match goal with |- exists w', ret _ ?W = _ /\ _ => exists W end.
  split; [reflexivity|]. cbn.
  split; [exact Hsum|]. split; [exact Hlen|]. split; [|rewrite Hlog; reflexivity].
  destruct Hsc as (U & K & N & R & W & S & F).
  repeat (split; [assumption|]). exact F.
Qed.

(** The whole scan, by what the node answers to the history request. *)
Lemma scanForSponsoredAccounts_run operator w :
  exists r w',
    scanForSponsoredAccounts env operator w = (Ok r, w')
    /\ scanned w w'
    /\ s_timestamp r = Date_now env (tick w)
    /\ s_totalAccounts r = length (sponsoredAccount (db w'))
    /\ length (sponsoredAccount (db w'))
       = (length (sponsoredAccount (db w)) + s_newAccounts r)%nat
    /\ match getSignaturesForAddress env (S (tick w)) operator
               MAX_SIGNATURES_PER_BATCH with
       | Throw e =>
           s_success r = false /\ s_error r = Some (error_message e)
           /\ s_newAccounts r = 0%nat /\ s_updatedAccounts r = 0%nat
           /\ db w' = db w
       | Ok [] =>
           s_success r = true /\ s_error r = None
           /\ s_newAccounts r = 0%nat /\ s_updatedAccounts r = 0%nat
           /\ db w' = db w
       | Ok signatures =>
           s_success r = true /\ s_error r = None
           /\ activityLog (db w')
              = activityLog (db w)
                ++ [scan_entry env operator (s_newAccounts r)
                      (s_updatedAccounts r)]
           /\ exists discovered w1,
                discover_loop env operator signatures []
                  (advance [GetSignaturesForAddress operator
                              MAX_SIGNATURES_PER_BATCH] (advance [] w))
                = (Ok discovered, w1)
                /\ (s_newAccounts r + s_updatedAccounts r)%nat
                   = length discovered
       end.
Proof.
  assert (Hhist : no_funds_moved w
            (advance [GetSignaturesForAddress operator MAX_SIGNATURES_PER_BATCH]
               (advance [] w))).
  { eapply no_funds_moved_trans; apply no_funds_moved_advance; reflexivity. }
  unfold scanForSponsoredAccounts, bind at 1, now, try_catch, bind at 1,
    connection_getSignaturesForAddress.
  cbn [tick advance].
  destruct (getSignaturesForAddress env (S (tick w)) operator
              MAX_SIGNATURES_PER_BATCH) as [[|sigInfo rest]|e].
  - cbn. do 2 eexists. split; [reflexivity|]. cbn.
    split; [apply scanned_reads; [reflexivity | exact Hhist]|].
    rewrite Nat.add_0_r. repeat split.
  - destruct (discover_loop_reads operator (sigInfo :: rest) []
                (advance [GetSignaturesForAddress operator
                            MAX_SIGNATURES_PER_BATCH] (advance [] w)))
      as (discovered & w1 & Hd & Hdb1 & Hnf1).
    unfold advance in Hdb1. cbn [db] in Hdb1.
    unfold bind. rewrite Hd.
    destruct (scan_store_run operator discovered w1)
      as (n & u & w' & -> & Hsum & Hlen & Hsc & Hlog).
    do 2 eexists. split; [reflexivity|]. cbn [s_success s_newAccounts
      s_updatedAccounts s_totalAccounts s_error s_timestamp].
    rewrite Hdb1 in Hlen, Hlog.
    split.
    { eapply scanned_trans; [|exact Hsc].
      apply scanned_reads; [exact Hdb1|].
      exact (no_funds_moved_trans _ _ _ Hhist Hnf1). }
    split; [reflexivity|]. split; [reflexivity|]. split; [exact Hlen|].
    split; [reflexivity|]. split; [reflexivity|]. split; [exact Hlog|].
    exists discovered, w1. split; [reflexivity | exact Hsum].
  - cbn. do 2 eexists. split; [reflexivity|]. cbn.
    split; [apply scanned_reads; [reflexivity | exact Hhist]|].
    rewrite Nat.add_0_r. repeat split.
Qed.

End ScanFacts.

(** X18: a scan always returns a report, stamped with the time it started.
    If the history request fails the report is a failure carrying the error
    message, and if the history is empty the report is a success; in both
    cases the counters are zero and the store is left as it was, without a log
    entry.  Otherwise every discovered account is counted once, as new or as
    updated, and exactly one SCAN entry with these two counts is appended.
    In every case [totalAccounts] is the size of the table after the scan,
    which is its size before plus [newAccounts]. *)
Theorem scan_always_reports env operator w :
  exists r w',
    scanForSponsoredAccounts env operator w = (Ok r, w')
    /\ s_timestamp r = Date_now env (tick w)
    /\ s_totalAccounts r = length (sponsoredAccount (db w'))
    /\ length (sponsoredAccount (db w'))
       = (length (sponsoredAccount (db w)) + s_newAccounts r)%nat
    /\ match getSignaturesForAddress env (S (tick w)) operator
               MAX_SIGNATURES_PER_BATCH with
       | Throw e =>
           s_success r = false /\ s_error r = Some (error_message e)
           /\ s_newAccounts r = 0%nat /\ s_updatedAccounts r = 0%nat
           /\ db w' = db w
       | Ok [] =>
           s_success r = true /\ s_error r = None
           /\ s_newAccounts r = 0%nat /\ s_updatedAccounts r = 0%nat
           /\ db w' = db w
       | Ok signatures =>
           s_success r = true /\ s_error r = None
           /\ activityLog (db w')
              = activityLog (db w)
                ++ [scan_entry env operator (s_newAccounts r)
                      (s_updatedAccounts r)]
           /\ exists discovered w1,
                discover_loop env operator signatures []
                  (advance [GetSignaturesForAddress operator
                              MAX_SIGNATURES_PER_BATCH] (advance [] w))
                = (Ok discovered, w1)
                /\ (s_newAccounts r + s_updatedAccounts r)%nat
                   = length discovered
       end.
Proof.
  destruct (scanForSponsoredAccounts_run env operator w)
    as (r & w' & Hrun & _ & Hrest).
  exists r, w'. split; [exact Hrun | exact Hrest].
Qed.

(** X19: whatever the node answers, a scan keeps the addresses of the table
    unique, keeps every row with its rent minimum and detection date, leaves
    a RECLAIMED row RECLAIMED, gives no row the status ELIGIBLE, leaves the
    whitelist and the settings alone, and sends no transaction. *)
Theorem scan_keeps_the_store_sound env operator w :
  scanned w (world_after (scanForSponsoredAccounts env operator w)).
Proof.
  destruct (scanForSponsoredAccounts_run env operator w)
    as (r & w' & Hrun & Hsc & _).
  unfold world_after. rewrite Hrun. exact Hsc.
Qed.

(** X20: the accounts [extractSponsoredAccounts] returns are, in order, one
    per instruction of the transaction that is a parsed system-program
    instruction of type createAccount or createAccountWithSeed with the
    operator as source; each has the new account's address, the instruction's
    lamports in SOL and the transaction time. *)
Theorem extraction_finds_the_sponsored_creations env tx operator txTime w ds w' :
  extractSponsoredAccounts env tx operator txTime w = (Ok ds, w') ->
  Forall2 (discovered_from txTime) ds (omap (sponsored_creation operator) tx).
Proof.
  unfold extractSponsoredAccounts. intros H.
  destruct (extractSponsoredAccounts_loop_run env operator txTime tx [] w)
    as (_ & _ & Hres).
  destruct (Hres _ _ H) as (new & -> & HF). exact HF.
Qed.

Lemma extraction_finds_the_sponsored_creations_witness :
  Forall2 (discovered_from 1767000000000)
    [mkDiscovered "NewAccount111" 0.00203928 0.00203928 1767000000000]
    (omap (sponsored_creation "Operator111")
       [ PartiallyDecoded;
         ParsedInstruction "system" "transfer"
           (Some (mkInfo "Operator111" "Other111" 1%float None));
         ParsedInstruction "system" "createAccount"
           (Some (mkInfo "Operator111" "NewAccount111" 2039280%float
                    (Some 165%float))) ]).
Proof.
  apply (extraction_finds_the_sponsored_creations Seed.scan_env _ _ _
           Seed.world _
           (advance [GetMinimumBalanceForRentExemption 165] Seed.world)).
  vm_compute. reflexivity.
Defined.

(** X21: when the request for an account's state fails, the Scanner reads
    the account as closed: a stored row for it, whatever its status, is set
    to RECLAIMED with balance 0, keeping its rent minimum and detection
    date. *)
Theorem failed_state_request_marks_reclaimed env account existing w e :
  getAccountInfo env (tick w) (d_address account) = Throw e ->
  prisma.lookup_account (d_address account) (sponsoredAccount (db w))
  = Some existing ->
  exists w' t,
    reconcile env account w = (Ok false, w')
    /\ prisma.lookup_account (d_address account) (sponsoredAccount (db w'))
       = Some (mkAccount (address existing) 0 (rentExemptMin existing) t
                 RECLAIMED (detectedAt existing)).
Proof.
  intros Hfail Hfound.
  unfold reconcile, bind at 1, getAccountCurrentState, try_catch, bind,
    new_PublicKey, connection_getAccountInfo.
  destruct (PublicKey_ok env (d_address account)); cbn;
    rewrite ?Hfail; cbn;
    unfold reconcile_with, bind, prisma.sponsoredAccount_findUnique, read_db,
      prisma.sponsoredAccount_update, now, ret;
    cbn -[prisma.lookup_account prisma.update_row];
    rewrite Hfound; cbn -[prisma.lookup_account prisma.update_row];
    rewrite Hfound; cbn -[prisma.lookup_account prisma.update_row];
    do 2 eexists; (split; [reflexivity|]);
    cbn -[prisma.lookup_account prisma.update_row];
    rewrite (lookup_update_row_same _ _ _ existing Hfound) by reflexivity;
    reflexivity.
Qed.

Lemma failed_state_request_marks_reclaimed_witness :
  exists w' t,
    reconcile Seed.mock_env
      (mkDiscovered "8xKVzxxxxxxxxxxxxxxxxxxxxxxxxxxxxxxWhale1" 0.85
         Seed.RENT_MINIMUM Seed.seeded_at) Seed.world = (Ok false, w')
    /\ prisma.lookup_account "8xKVzxxxxxxxxxxxxxxxxxxxxxxxxxxxxxxWhale1"
         (sponsoredAccount (db w'))
       = Some (mkAccount (address Seed.whale1) 0 (rentExemptMin Seed.whale1) t
                 RECLAIMED (detectedAt Seed.whale1)).
Proof.
  apply (failed_state_request_marks_reclaimed Seed.mock_env
           (mkDiscovered "8xKVzxxxxxxxxxxxxxxxxxxxxxxxxxxxxxxWhale1" 0.85
              Seed.RENT_MINIMUM Seed.seeded_at)
           Seed.whale1 Seed.world (JsError "fetch failed")).
  - reflexivity.
  - vm_compute. reflexivity.
Defined.

(* ===================================================================== *)
(** ** The reclaim endpoint                                               *)
(* ===================================================================== *)

Section DryRun.

Variable env : Env.

(** A simulated attempt, for any address. *)
Lemma reclaimAccount_dry_run addr w :
  exists r w',
    reclaimAccount env addr true w = (Ok r, w') /\ only_logged w w'.
Proof.
  destruct (prisma.lookup_account addr (sponsoredAccount (db w)))
    as [account|] eqn:Hfound.
  - destruct (lookup_account_Some _ _ _ Hfound) as [<- _].
    destruct (simulated_attempt env w account Hfound)
      as (r & w' & Hrun & Hlog & _).
    eauto.
  - destruct (reclaimAccount_try_not_found env addr true w Hfound)
      as (r & Hrun & _).
    exists r, w. split; [exact Hrun | apply only_logged_refl].
Qed.

Lemma reclaimAll_loop_dry_run accounts :
  forall results total successful failed w,
    exists acc w',
      reclaimAll_loop env true accounts results total successful failed w
      = (Ok acc, w')
      /\ only_logged w w'.
Proof.
  induction accounts as [|a rest IH]; intros results total successful failed w.
  - do 2 eexists. split; [reflexivity | apply only_logged_refl].
  - destruct (reclaimAccount_dry_run (address a) w) as (r & w1 & Hrun & Hlog).
    cbn [reclaimAll_loop]. unfold bind at 1. rewrite Hrun.
    destruct (r_success r);
      cbv beta iota delta [bind ret];
      match goal with
      | |- context [reclaimAll_loop env true rest ?rs ?t ?s ?f w1] =>
          destruct (IH rs t s f w1) as (acc & w' & Hloop & Hlog')
      end;
      rewrite Hloop; do 2 eexists; (split; [reflexivity|]);
      eapply only_logged_trans; eassumption.
Qed.

Lemma reclaimAllEligible_dry_run w :
  exists r w',
    reclaimAllEligible env true w = (Ok r, w') /\ only_logged w w'.
Proof.
  unfold reclaimAllEligible, bind at 1, prisma.sponsoredAccount_findMany,
    read_db.
  destruct (reclaimAll_loop_dry_run
              (List.filter stored_eligible (sponsoredAccount (db w)))
              [] 0%float 0%nat 0%nat w)
    as ([[[results total] successful] failed] & w' & Hloop & Hlog).
  unfold bind. rewrite Hloop. do 2 eexists. split; [reflexivity | exact Hlog].
Qed.

End DryRun.

(** The mode of a result is the mode that was asked for, except that the
    refusal for want of an operator key is labelled SIMULATION. *)
Lemma reclaimAccount_mode env addr dryRun w :
  match fst (reclaimAccount env addr dryRun w) with
  | Ok r => r_mode r = mode_of dryRun
            \/ (config_operatorPrivateKey env = None
                /\ r_error r = Some "NO_PRIVATE_KEY"
                /\ r_mode r = SIMULATION)
  | Throw _ => False
  end.
Proof.
  destruct (reclaimAccount env addr dryRun w) as [o w'] eqn:Hrun.
  revert Hrun. reclaim_paths; intros [= <- <-]; cbn; auto.
Qed.

Lemma reclaimAllEligible_returns env dryRun w :
  exists r w',
    reclaimAllEligible env dryRun w = (Ok r, w')
    /\ b_mode r = mode_of dryRun.
Proof.
  unfold reclaimAllEligible, bind at 1, prisma.sponsoredAccount_findMany,
    read_db.
  destruct (reclaimAll_loop_completes env dryRun
              (List.filter stored_eligible (sponsoredAccount (db w)))
              [] 0%float 0%nat 0%nat w)
    as (rs & total' & w' & Hloop & _).
  unfold bind. rewrite Hloop. do 2 eexists. split; reflexivity.
Qed.

Lemma Json_null_or_not (json : Api.Json) :
  json = Api.JNull \/ json <> Api.JNull.
Proof. destruct json; [left; reflexivity | right; discriminate ..]. Qed.

(** The handler on a body that is not [null]. *)
Lemma reclaim_POST_run env platform request w :
  let body :=
    match request with Api.Body json => json | Api.NotJson _ => Api.JObject [] end in
  let dryRun :=
    match settings (db w) !! "dry_run_mode" with
    | Some value => String.eqb value "true"
    | None => true
    end in
  body <> Api.JNull ->
  Api.reclaim_POST env platform request w
  = if Api.truthy (Api.property "all" body) then
      match reclaimAllEligible env dryRun w with
      | (Ok result, w') => (Ok (Api.ReclaimedAll result), w')
      | (Throw e, w') => (Ok (Api.ReclaimFailed (Api.message_or "Reclaim failed" e)), w')
      end
    else if Api.truthy (Api.property "address" body) then
      match Api.property "address" body with
      | Some (Api.JString addr) =>
          match reclaimAccount env addr dryRun w with
          | (Ok result, w') => (Ok (Api.ReclaimedOne result), w')
          | (Throw e, w') =>
              (Ok (Api.ReclaimFailed (Api.message_or "Reclaim failed" e)), w')
          end
      | Some other =>
          (Ok (Api.ReclaimFailed (Api.rejected_address platform other)), w)
      | None => (Ok (Api.ReclaimBadRequest Api.provide_address_or_all), w)
      end
    else (Ok (Api.ReclaimBadRequest Api.provide_address_or_all), w).
Proof.
  intros body dryRun Hbody.
  unfold Api.reclaim_POST. fold body.
  assert (Heq : forall m : M Api.ReclaimResponse,
            match body with Api.JNull =>
              throw (JsError (Api.cannot_destructure_null platform "address"))
            | _ => m end = m) by (destruct body; [contradiction|reflexivity..]).
  transitivity
    (try_catch
       (dryRun <- isDryRunEnabled ;;
        if Api.truthy (Api.property "all" body) then
          result <- reclaimAllEligible env dryRun ;;
          ret (Api.ReclaimedAll result)
        else if Api.truthy (Api.property "address" body) then
          match Api.property "address" body with
          | Some (Api.JString addr) =>
              result <- reclaimAccount env addr dryRun ;;
              ret (Api.ReclaimedOne result)
          | Some other =>
              lift (Api.String_of platform other) ;;
              throw (JsError (Api.prisma_invalid_argument platform other))
          | None => ret (Api.ReclaimBadRequest Api.provide_address_or_all)
          end
        else ret (Api.ReclaimBadRequest Api.provide_address_or_all))%exec
       (fun error =>
          ret (Api.ReclaimFailed (Api.message_or "Reclaim failed" error))) w).
  { f_equal. destruct body; [contradiction|reflexivity..]. }
  clear Heq.
  cbv beta iota delta [try_catch bind isDryRunEnabled
                       prisma.settings_findUnique read_db ret throw lift
                       Api.rejected_address].
  fold dryRun.
  destruct (Api.truthy (Api.property "all" body)).
  { destruct (reclaimAllEligible env dryRun w) as [[?|?] ?]; reflexivity. }
  destruct (Api.truthy (Api.property "address" body)); [|reflexivity].
  destruct (Api.property "address" body) as [[| | |addr| |]|];
    try reflexivity;
    try (match goal with
         | |- context [Api.String_of platform ?other] =>
             destruct (Api.String_of platform other); reflexivity
         end).
  destruct (reclaimAccount env addr dryRun w) as [[?|?] ?]; reflexivity.
Qed.

(** X22: the reclaim endpoint always answers; a body that is not JSON reads
    as the empty object.  The answer is 500 exactly when the body is JSON
    null, or when [all] is falsy and [address] is a truthy value that is not
    a string; the message is then the engine's (for null, and for an address
    that cannot be converted to a string) or the store client's, and nothing
    at all has happened.  The answer is 400 exactly when [all] and
    [address] are both falsy (missing, null, false, 0 or the empty string),
    and again nothing at all has happened.  A truthy [all] runs the batch
    even if an address is given too; otherwise the one result is for the
    address of the body.  The mode of a result is the stored dry-run setting,
    except that a single result refused for want of an operator key is
    labelled SIMULATION. *)
Theorem reclaim_request_always_answers env platform request w :
  let body :=
    match request with Api.Body json => json | Api.NotJson _ => Api.JObject [] end in
  let all := Api.property "all" body in
  let address := Api.property "address" body in
  let dryRun :=
    match settings (db w) !! "dry_run_mode" with
    | Some value => String.eqb value "true"
    | None => true
    end in
  exists resp w',
    Api.reclaim_POST env platform request w = (Ok resp, w')
    /\ match resp with
       | Api.ReclaimedAll result =>
           body <> Api.JNull /\ Api.truthy all = true
           /\ b_mode result = mode_of dryRun
       | Api.ReclaimedOne result =>
           Api.truthy all = false
           /\ address = Some (Api.JString (r_address result))
           /\ r_address result <> EmptyString
           /\ (r_mode result = mode_of dryRun
               \/ (config_operatorPrivateKey env = None
                   /\ r_error result = Some "NO_PRIVATE_KEY"
                   /\ r_mode result = SIMULATION))
       | Api.ReclaimBadRequest _ =>
           body <> Api.JNull /\ Api.truthy all = false
           /\ Api.truthy address = false /\ w' = w
       | Api.ReclaimFailed error =>
           w' = w
           /\ (body = Api.JNull
               /\ error = Api.cannot_destructure_null platform "address"
               \/ body <> Api.JNull /\ Api.truthy all = false
                  /\ exists other,
                       address = Some other /\ Api.truthy address = true
                       /\ (forall addr, other <> Api.JString addr)
                       /\ error = Api.rejected_address platform other)
       end.
Proof.
  intros body all address dryRun.
  destruct (Json_null_or_not body) as [Hnull | Hbody].
  { exists (Api.ReclaimFailed (Api.cannot_destructure_null platform "address")), w.
    split; [|split; [reflexivity | left; split; [exact Hnull | reflexivity]]].
    unfold Api.reclaim_POST. fold body. rewrite Hnull. reflexivity. }
  rewrite (reclaim_POST_run env platform request w Hbody).
  fold body. fold all. fold address. fold dryRun.
  destruct (Api.truthy all) eqn:Hall.
  { destruct (reclaimAllEligible_returns env dryRun w)
      as (batch & wb & -> & Hbmode).
    exists (Api.ReclaimedAll batch), wb. split; [reflexivity|]. auto. }
  destruct (Api.truthy address) eqn:Haddress;
    [|exists (Api.ReclaimBadRequest Api.provide_address_or_all), w;
      split; [reflexivity|]; auto].
  destruct address as [other|] eqn:Ha; [|discriminate Haddress].
  assert (Hfail : (forall addr, other <> Api.JString addr) ->
            exists resp w',
              (Ok (Api.ReclaimFailed (Api.rejected_address platform other)), w)
              = (Ok resp, w')
              /\ match resp with
                 | Api.ReclaimFailed error =>
                     w' = w
                     /\ (body = Api.JNull
                         /\ error = Api.cannot_destructure_null platform "address"
                         \/ body <> Api.JNull /\ false = false
                            /\ exists other0,
                                 Some other = Some other0 /\ true = true
                                 /\ (forall addr, other0 <> Api.JString addr)
                                 /\ error = Api.rejected_address platform other0)
                 | _ => False
                 end).
  { intros Hns. do 2 eexists. split; [reflexivity|]. split; [reflexivity|].
    right. split; [exact Hbody|]. split; [reflexivity|].
    exists other. auto. }
  destruct other as [| b | x | addr | elements | fields];
    try (destruct Hfail as (resp & w' & Hrun & Hresp); [discriminate|];
         injection Hrun as <- <-; do 2 eexists; split; [reflexivity|];
         exact Hresp).
  destruct (reclaimAccount_returns env addr dryRun w)
    as (r & w' & Hrun & Haddr & _).
  pose proof (reclaimAccount_mode env addr dryRun w) as Hmode.
  rewrite Hrun in *. cbn [fst] in Hmode.
  exists (Api.ReclaimedOne r), w'. split; [reflexivity|].
  rewrite Haddr. split; [reflexivity|]. split; [reflexivity|].
  split; [|exact Hmode].
  intros ->. cbn in Haddress. discriminate Haddress.
Qed.

(** X23: unless the stored dry_run_mode is something other than the word
    true, a reclaim request, for one address or for all, only simulates: the
    account table, the whitelist and the settings are left as they were and
    the RPC node is not contacted; only log entries are added. *)
Theorem reclaim_request_simulates_by_default env platform request w :
  settings (db w) !! "dry_run_mode" = None
  \/ settings (db w) !! "dry_run_mode" = Some "true" ->
  only_logged w (world_after (Api.reclaim_POST env platform request w)).
Proof.
  intros Hdry.
  assert (match settings (db w) !! "dry_run_mode" with
          | Some value => String.eqb value "true"
          | None => true
          end = true) as Hflag
    by (destruct Hdry as [-> | ->]; reflexivity).
  unfold world_after.
  set (body := match request with
               | Api.Body json => json
               | Api.NotJson _ => Api.JObject []
               end).
  destruct (Json_null_or_not body) as [Hnull | Hbody].
  { unfold Api.reclaim_POST. fold body. rewrite Hnull.
    apply only_logged_refl. }
  rewrite (reclaim_POST_run env platform request w Hbody).
  fold body. rewrite Hflag.
  destruct (Api.truthy (Api.property "all" body)).
  { destruct (reclaimAllEligible_dry_run env w) as (batch & wb & -> & Hlog).
    exact Hlog. }
  destruct (Api.truthy (Api.property "address" body));
    [|apply only_logged_refl].
  destruct (Api.property "address" body) as [[| | |addr| |]|];
    try apply only_logged_refl.
  destruct (reclaimAccount_dry_run env addr w) as (r & w' & -> & Hlog).
  exact Hlog.
Qed.

Lemma reclaim_request_simulates_by_default_witness :
  only_logged Seed.world
    (world_after
       (Api.reclaim_POST (Seed.keyed_env 2039280)
          (Api.mkPlatform (fun _ => "Cannot destructure")
             "Cannot convert object to primitive value"
             (fun _ => "Invalid value provided") (fun _ => "0"))
          (Api.Body (Api.JObject [("all", Api.JBool true)])) Seed.world)).
Proof.
  apply (reclaim_request_simulates_by_default (Seed.keyed_env 2039280)
           (Api.mkPlatform (fun _ => "Cannot destructure")
              "Cannot convert object to primitive value"
              (fun _ => "Invalid value provided") (fun _ => "0"))
           (Api.Body (Api.JObject [("all", Api.JBool true)])) Seed.world).
  right. vm_compute. reflexivity.
Defined.

(* ===================================================================== *)
(** ** The demo seeder and the scan endpoint                              *)
(* ===================================================================== *)

Section Seeder.

Variable env : Env.

(** The rows built from the [data] array: reading the clock is all it does
    to the world. *)
Lemma DemoSeeder_rows_run specs :
  forall w,
    exists rs w',
      DemoSeeder.rows env specs w = (Ok rs, w')
      /\ db w' = db w /\ calls w' = calls w
      /\ (fun r => (address r, balance r, status r, rentExemptMin r)) <$> rs
         = (fun '(addr, bal, _, st, _) => (addr, bal, st, DemoSeeder.RENT_MINIMUM))
             <$> specs.
Proof.
  induction specs as [|[[[[addr bal] lastDays] st] detectedDays] rest IH];
    intros w.
  { exists [], w. repeat split. }
  cbn [DemoSeeder.rows].
  cbv beta iota delta [bind DemoSeeder.row DemoSeeder.daysAgo now ret].
  destruct (IH (advance [] (advance [] w))) as (rs & w' & -> & Hdb & Hcalls).
  do 2 eexists. split; [reflexivity|].
  unfold advance in Hdb, Hcalls. cbn [db calls] in Hdb, Hcalls.
  rewrite !app_nil_r in Hcalls. destruct Hcalls as [Hcalls Hrows].
  split; [exact Hdb|]. split; [exact Hcalls|].
  rewrite !fmap_cons, Hrows. reflexivity.
Qed.

(** The addresses of the [data] array are distinct. *)
Lemma DemoSeeder_data_unique :
  NoDup ((fun '(addr, _, _, _, _) => addr) <$> DemoSeeder.data).
Proof. apply (bool_decide_unpack _). vm_compute. exact I. Qed.

Lemma seedDemoData_run w :
  exists w',
    DemoSeeder.seedDemoData env w
    = (Ok (length (sponsoredAccount (db w'))), w')
    /\ (fun r => (address r, balance r, status r, rentExemptMin r))
         <$> sponsoredAccount (db w')
       = (fun '(addr, bal, _, st, _) => (addr, bal, st, DemoSeeder.RENT_MINIMUM))
           <$> DemoSeeder.data
    /\ unique_addresses (db w')
    /\ whitelist (db w') = whitelist (db w)
    /\ settings (db w') = settings (db w)
    /\ (exists e, activityLog (db w') = activityLog (db w) ++ [e]
                  /\ log_action e = LOG_SCAN /\ log_mode e = SIMULATION)
    /\ calls w' = calls w.
Proof.
  unfold DemoSeeder.seedDemoData, bind at 1,
    DemoSeeder.sponsoredAccount_deleteMany, modify_db.
  unfold bind at 1.
  destruct (DemoSeeder_rows_run DemoSeeder.data
              (mkWorld (with_accounts (fun _ => []) (db w)) (tick w) (calls w)))
    as (rs & w1 & -> & Hdb & Hcalls & Hrows).
  cbn [db calls] in Hdb, Hcalls.
  assert (Haddr : address <$> rs
                  = (fun '(addr, _, _, _, _) => addr) <$> DemoSeeder.data).
  { apply (f_equal (fmap (fun t : string * float * Status * float => t.1.1.1)))
      in Hrows.
    rewrite <- !list_fmap_compose in Hrows.
    etransitivity; [|etransitivity; [exact Hrows|]];
      apply list_fmap_ext; [intros; reflexivity|].
    intros _ [[[[? ?] ?] ?] ?] _. reflexivity. }
  assert (Hlen : length rs = 14%nat).
  { rewrite <- (length_fmap address), Haddr. reflexivity. }
  unfold bind, DemoSeeder.sponsoredAccount_createMany, modify_db,
    prisma.activityLog_create, ret.
  rewrite Hdb. cbn [sponsoredAccount with_accounts app].
  rewrite bool_decide_eq_true_2
    by (rewrite Haddr; exact DemoSeeder_data_unique).
  cbn. rewrite <- Hlen.
  match goal with |- exists w', (_, ?W) = _ /\ _ => exists W end.
  split; [reflexivity|]. cbn.
  split; [exact Hrows|]. split.
  { unfold unique_addresses. cbn. rewrite Haddr. exact DemoSeeder_data_unique. }
  split; [reflexivity|]. split; [reflexivity|].
  split; [|exact Hcalls].
  eexists. split; [reflexivity|]. split; reflexivity.
Qed.

End Seeder.

(** X24: seedDemoData never fails and never contacts the node.  Whatever
    the account table held, afterwards it holds exactly the rows of the data
    array, in order, each at the demo rent minimum; their addresses are
    unique, and the number the function returns is the number of rows now
    stored.  The whitelist and the settings are left alone and one SCAN entry
    in SIMULATION mode is appended to the log. *)
Theorem seed_replaces_the_table env w :
  exists w',
    DemoSeeder.seedDemoData env w
    = (Ok (length (sponsoredAccount (db w'))), w')
    /\ (fun r => (address r, balance r, status r, rentExemptMin r))
         <$> sponsoredAccount (db w')
       = (fun '(addr, bal, _, st, _) => (addr, bal, st, DemoSeeder.RENT_MINIMUM))
           <$> DemoSeeder.data
    /\ unique_addresses (db w')
    /\ whitelist (db w') = whitelist (db w)
    /\ settings (db w') = settings (db w)
    /\ (exists e, activityLog (db w') = activityLog (db w) ++ [e]
                  /\ log_action e = LOG_SCAN /\ log_mode e = SIMULATION)
    /\ calls w' = calls w.
Proof. exact (seedDemoData_run env w). Qed.

(** X25: the scan endpoint simulates when no operator private key is
    configured, or no operator public key, or the stored dry_run_mode is the
    word true: it then answers 200 with the number of demo rows, leaves the
    account table as seedDemoData leaves it, and does not contact the node. *)
Theorem scan_request_simulates (env : ServerEnv) w :
  config_isMockMode env = true
  \/ config_operatorPublicKey env = None
  \/ settings (db w) !! "dry_run_mode" = Some "true" ->
  exists t w',
    Api.scan_POST env w
    = (Ok (Api.ScanSimulated (length (sponsoredAccount (db w'))) t), w')
    /\ db w' = db (world_after (DemoSeeder.seedDemoData env w))
    /\ calls w' = calls w.
Proof.
  intros Hsim.
  destruct (seedDemoData_run env w)
    as (w1 & Hseed & _ & _ & _ & _ & _ & Hcalls).
  unfold world_after. rewrite Hseed. cbn [snd].
  assert (Hbranch :
    (accountCount <- DemoSeeder.seedDemoData env ;;
     timestamp <- now env ;;
     ret (Api.ScanSimulated accountCount timestamp))%exec w
    = (Ok (Api.ScanSimulated (length (sponsoredAccount (db w1)))
             (Date_now env (tick w1))), advance [] w1)).
  { unfold bind. rewrite Hseed. reflexivity. }
  exists (Date_now env (tick w1)), (advance [] w1).
  split; [|split; [reflexivity|cbn; rewrite app_nil_r; exact Hcalls]].
  unfold Api.scan_POST, try_catch, bind at 1, prisma.settings_findUnique,
    read_db.
  destruct (config_operatorPublicKey env) as [k|]; [|rewrite Hbranch; reflexivity].
  destruct Hsim as [-> | [Hk | ->]]; [|discriminate Hk|].
  - cbn [orb]. rewrite Hbranch. reflexivity.
  - cbn [String.eqb]. rewrite orb_true_r. rewrite Hbranch. reflexivity.
Qed.

Lemma scan_request_simulates_witness :
  exists t w',
    Api.scan_POST (mkServer Seed.mock_env (Some "Operator111")) Seed.world
    = (Ok (Api.ScanSimulated (length (sponsoredAccount (db w'))) t), w')
    /\ db w'
       = db (world_after (DemoSeeder.seedDemoData Seed.mock_env Seed.world))
    /\ calls w' = calls Seed.world.
Proof.
  apply (scan_request_simulates (mkServer Seed.mock_env (Some "Operator111"))
           Seed.world).
  left. reflexivity.
Defined.

(** X26: in real mode the scan endpoint empties the account table before it
    scans.  So when the key constructor rejects the operator's public key the
    answer is 500 with the message of what the constructor threw and the
    table is left empty, and when the history request fails or returns
    nothing the answer carries a report for zero accounts and the table is
    left empty as well; the whitelist and the settings are kept in each
    case. *)
Theorem failed_real_scan_empties_the_table (env : ServerEnv) operator w :
  config_isMockMode env = false ->
  config_operatorPublicKey env = Some operator ->
  settings (db w) !! "dry_run_mode" <> Some "true" ->
  PublicKey_ok env operator = false
  \/ (exists e, getSignaturesForAddress env (S (tick w)) operator
                  MAX_SIGNATURES_PER_BATCH = Throw e)
  \/ getSignaturesForAddress env (S (tick w)) operator MAX_SIGNATURES_PER_BATCH
     = Ok [] ->
  exists resp w',
    Api.scan_POST env w = (Ok resp, w')
    /\ sponsoredAccount (db w') = []
    /\ whitelist (db w') = whitelist (db w)
    /\ settings (db w') = settings (db w)
    /\ match resp with
       | Api.ScanFailed error =>
           PublicKey_ok env operator = false
           /\ error = match PublicKey_error env operator with
                      | JsError message => message
                      | NonError => "Scan failed"
                      end
       | Api.ScanScanned result =>
           PublicKey_ok env operator = true
           /\ s_totalAccounts result = 0%nat
           /\ s_newAccounts result = 0%nat
           /\ s_success result
              = match getSignaturesForAddress env (S (tick w)) operator
                        MAX_SIGNATURES_PER_BATCH with
                | Ok _ => true
                | Throw _ => false
                end
       | Api.ScanSimulated _ _ => False
       end.
Proof.
  intros Hmock Hkey Hreal Hfails.
  assert (Hsim : match settings (db w) !! "dry_run_mode" with
                 | Some value => String.eqb value "true"
                 | None => false
                 end = false).
  { destruct (settings (db w) !! "dry_run_mode") as [value|]; [|reflexivity].
    destruct (String.eqb value "true") eqn:E; [|reflexivity].
    apply String.eqb_eq in E. subst value. contradiction. }
  unfold Api.scan_POST, try_catch, bind at 1, prisma.settings_findUnique,
    read_db.
  rewrite Hkey, Hmock, Hsim. cbn [orb].
  unfold bind at 1, DemoSeeder.sponsoredAccount_deleteMany, modify_db.
  unfold bind at 1, new_PublicKey.
  set (w0 := mkWorld (with_accounts (fun _ => []) (db w)) (tick w) (calls w)).
  destruct (PublicKey_ok env operator) eqn:Hok.
  - destruct (scanForSponsoredAccounts_run env operator w0)
      as (r & w' & Hrun & _ & _ & Htotal & _ & Hcases).
    unfold ret at 1. unfold bind. rewrite Hrun.
    do 2 eexists. split; [reflexivity|].
    cbn [tick w0] in Hcases.
    assert (db w' = db w0 /\ s_newAccounts r = 0%nat
            /\ s_success r
               = match getSignaturesForAddress env (S (tick w)) operator
                         MAX_SIGNATURES_PER_BATCH with
                 | Ok _ => true
                 | Throw _ => false
                 end) as (Hdb & Hnew & Hsucc).
    { destruct Hfails as [Hbad | [[e He] | He]]; [discriminate Hbad| |];
        rewrite He in Hcases |- *; tauto. }
    rewrite Htotal, Hdb. repeat split; assumption.
  - unfold throw. do 2 eexists. split; [reflexivity|]. repeat split.
Qed.

Lemma failed_real_scan_empties_the_table_witness :
  let env := mkServer (Devnet.node Devnet.rate_limited (fun _ => Devnet.rate_limited))
               (Some Devnet.operator) in
  let w := world_after (setDryRunMode false Devnet.world) in
  exists resp w',
    Api.scan_POST env w = (Ok resp, w')
    /\ sponsoredAccount (db w') = []
    /\ whitelist (db w') = whitelist (db w)
    /\ settings (db w') = settings (db w)
    /\ match resp with
       | Api.ScanFailed error =>
           PublicKey_ok env Devnet.operator = false
           /\ error = match PublicKey_error env Devnet.operator with
                      | JsError message => message
                      | NonError => "Scan failed"
                      end
       | Api.ScanScanned result =>
           PublicKey_ok env Devnet.operator = true
           /\ s_totalAccounts result = 0%nat
           /\ s_newAccounts result = 0%nat
           /\ s_success result
              = match getSignaturesForAddress env (S (tick w)) Devnet.operator
                        MAX_SIGNATURES_PER_BATCH with
                | Ok _ => true
                | Throw _ => false
                end
       | Api.ScanSimulated _ _ => False
       end.
Proof.
  intros env w.
  apply (failed_real_scan_empties_the_table env Devnet.operator w).
  - reflexivity.
  - reflexivity.
  - vm_compute. discriminate.
  - right. left. eexists. reflexivity.
Defined.

(* ===================================================================== *)
(** ** The settings endpoint and the configuration                        *)
(* ===================================================================== *)

(** X27: a settings update always answers.  The update is accepted exactly
    when the body is an object whose key is the string min_age_days or
    dry_run_mode and which has a value (null included) that String() can
    convert; then the stored settings are the old ones with that key set to
    String(value), which is what the answer carries and what
    [GET /api/settings] returns next, and nothing else in the store changes.
    The answer is 500 exactly when the body is not JSON (the message is that
    of the parse error), or is JSON null, or has an allowed key and a value
    that String() cannot convert.  Every other request is answered 400: a key
    that is missing, falsy or not one of the two strings, or a missing value.
    A request that is not accepted leaves the world as it was. *)
Theorem settings_request_validates env platform request w :
  exists resp w',
    Api.settings_PUT platform request w = (Ok resp, w')
    /\ match resp with
       | Api.SettingsUpdated key stored =>
           (exists body value,
              request = Api.Body body
              /\ Api.property "key" body = Some (Api.JString key)
              /\ Api.property "value" body = Some value
              /\ Api.String_of platform value = Ok stored)
           /\ (key = "min_age_days" \/ key = "dry_run_mode")
           /\ Api.settings_GET env w'
              = (Ok (<[key := stored]> (settings (db w)), config_isMockMode env),
                 w')
           /\ sponsoredAccount (db w') = sponsoredAccount (db w)
           /\ whitelist (db w') = whitelist (db w)
           /\ activityLog (db w') = activityLog (db w)
       | Api.SettingsBadRequest _ =>
           w' = w
           /\ exists body,
                request = Api.Body body /\ body <> Api.JNull
                /\ (Api.truthy (Api.property "key" body) = false
                    \/ Api.property "value" body = None
                    \/ Api.property "key" body
                       <> Some (Api.JString "min_age_days")
                       /\ Api.property "key" body
                          <> Some (Api.JString "dry_run_mode"))
       | Api.SettingsFailed error =>
           w' = w
           /\ ((exists thrown,
                  request = Api.NotJson thrown
                  /\ error = Api.message_or "Failed to update settings" thrown)
               \/ (request = Api.Body Api.JNull
                   /\ error = Api.cannot_destructure_null platform "key")
               \/ (exists body key value thrown,
                     request = Api.Body body
                     /\ Api.property "key" body = Some (Api.JString key)
                     /\ (key = "min_age_days" \/ key = "dry_run_mode")
                     /\ Api.property "value" body = Some value
                     /\ Api.String_of platform value = Throw thrown
                     /\ error
                        = Api.message_or "Failed to update settings" thrown))
       end.
Proof.
  destruct request as [body|thrown];
    [|do 2 eexists; (split; [reflexivity|]); split; [reflexivity|];
      left; eauto].
  destruct (Json_null_or_not body) as [-> | Hbody].
  { do 2 eexists. split; [reflexivity|]. split; [reflexivity|]. right. auto. }
  assert (Hrun :
    Api.settings_PUT platform (Api.Body body) w
    = if negb (Api.truthy (Api.property "key" body)) then
        (Ok (Api.SettingsBadRequest Api.key_and_value_required), w)
      else
        match Api.property "value" body with
        | None => (Ok (Api.SettingsBadRequest Api.key_and_value_required), w)
        | Some value =>
            match Api.property "key" body with
            | Some (Api.JString key) =>
                if negb (includes Api.allowedKeys key) then
                  (Ok (Api.SettingsBadRequest Api.invalid_setting_key), w)
                else
                  match Api.String_of platform value with
                  | Ok stored =>
                      (Ok (Api.SettingsUpdated key stored),
                       mkWorld (with_settings (<[key := stored]>) (db w))
                               (tick w) (calls w))
                  | Throw thrown =>
                      (Ok (Api.SettingsFailed
                             (Api.message_or "Failed to update settings" thrown)),
                       w)
                  end
            | _ => (Ok (Api.SettingsBadRequest Api.invalid_setting_key), w)
            end
        end).
  { unfold Api.settings_PUT, try_catch.
    destruct body; [contradiction|..];
      (destruct (negb (Api.truthy (Api.property "key" _))); [reflexivity|]);
      (destruct (Api.property "value" _) as [value|]; [|reflexivity]);
      (destruct (Api.property "key" _) as [[| | |key| |]|]; try reflexivity);
      (destruct (negb (includes Api.allowedKeys key)); [reflexivity|]);
      unfold bind, lift; destruct (Api.String_of platform value); reflexivity. }
  rewrite Hrun. clear Hrun.
  destruct (Api.truthy (Api.property "key" body)) eqn:Hkey; cbn [negb];
    [|do 2 eexists; (split; [reflexivity|]); split; [reflexivity|];
      exists body; auto].
  destruct (Api.property "value" body) as [value|] eqn:Hvalue;
    [|do 2 eexists; (split; [reflexivity|]); split; [reflexivity|];
      exists body; auto].
  assert (Hother :
            Api.property "key" body <> Some (Api.JString "min_age_days") ->
            Api.property "key" body <> Some (Api.JString "dry_run_mode") ->
            w = w
            /\ exists body0,
                 Api.Body body = Api.Body body0 /\ body0 <> Api.JNull
                 /\ (Api.truthy (Api.property "key" body0) = false
                     \/ Api.property "value" body0 = None
                     \/ Api.property "key" body0
                        <> Some (Api.JString "min_age_days")
                        /\ Api.property "key" body0
                           <> Some (Api.JString "dry_run_mode"))).
  { intros Hmin Hdry. split; [reflexivity|]. exists body. auto 10. }
  destruct (Api.property "key" body) as [[| b | x | key | elements | fields]|]
    eqn:Hk;
    try (do 2 eexists; (split; [reflexivity|]); apply Hother; congruence).
  unfold Api.allowedKeys, includes. cbn [existsb].
  assert (Hallowed :
            key = "min_age_days" \/ key = "dry_run_mode" ->
            exists resp w',
              match Api.String_of platform value with
              | Ok stored =>
                  (Ok (Api.SettingsUpdated key stored),
                   mkWorld (with_settings (<[key := stored]>) (db w))
                           (tick w) (calls w))
              | Throw thrown =>
                  (Ok (Api.SettingsFailed
                         (Api.message_or "Failed to update settings" thrown)),
                   w)
              end = (Ok resp, w')
              /\ match resp with
                 | Api.SettingsUpdated key0 stored =>
                     (exists body0 value0,
                        Api.Body body = Api.Body body0
                        /\ Api.property "key" body0 = Some (Api.JString key0)
                        /\ Api.property "value" body0 = Some value0
                        /\ Api.String_of platform value0 = Ok stored)
                     /\ (key0 = "min_age_days" \/ key0 = "dry_run_mode")
                     /\ Api.settings_GET env w'
                        = (Ok (<[key0 := stored]> (settings (db w)),
                               config_isMockMode env), w')
                     /\ sponsoredAccount (db w') = sponsoredAccount (db w)
                     /\ whitelist (db w') = whitelist (db w)
                     /\ activityLog (db w') = activityLog (db w)
                 | Api.SettingsBadRequest _ => False
                 | Api.SettingsFailed error =>
                     w' = w
                     /\ ((exists thrown,
                            Api.Body body = Api.NotJson thrown
                            /\ error
                               = Api.message_or "Failed to update settings" thrown)
                         \/ (Api.Body body = Api.Body Api.JNull
                             /\ error = Api.cannot_destructure_null platform "key")
                         \/ (exists body0 key0 value0 thrown,
                               Api.Body body = Api.Body body0
                               /\ Api.property "key" body0
                                  = Some (Api.JString key0)
                               /\ (key0 = "min_age_days" \/ key0 = "dry_run_mode")
                               /\ Api.property "value" body0 = Some value0
                               /\ Api.String_of platform value0 = Throw thrown
                               /\ error
                                  = Api.message_or "Failed to update settings"
                                      thrown))
                 end).
  { intros Hallowed.
    destruct (Api.String_of platform value) as [stored|thrown] eqn:Hstring;
      do 2 eexists; (split; [reflexivity|]).
    - split; [exists body, value; auto|]. split; [exact Hallowed|].
      repeat split.
    - split; [reflexivity|]. right. right.
      exists body, key, value, thrown. auto 10. }
  destruct (String.eqb_spec key "min_age_days") as [Hmin | Hmin];
    [|destruct (String.eqb_spec key "dry_run_mode") as [Hdry | Hdry]];
    cbn [orb negb].
  - destruct (Hallowed (or_introl Hmin)) as (resp & w' & Hrun & Hresp).
    exists resp, w'. split; [exact Hrun|].
    destruct resp; [exact Hresp | contradiction | exact Hresp].
  - destruct (Hallowed (or_intror Hdry)) as (resp & w' & Hrun & Hresp).
    exists resp, w'. split; [exact Hrun|].
    destruct resp; [exact Hresp | contradiction | exact Hresp].
  - do 2 eexists. split; [reflexivity|]. apply Hother; congruence.
Qed.

(** X28: real mode is available exactly when a non-empty operator private
    key is configured, that is, exactly when the application is not in mock
    mode; and validateRealModeConfig passes exactly when real mode is
    available and a non-empty operator public key is configured as well. *)
Theorem real_mode_needs_both_keys (env : ServerEnv) w :
  isRealModeAvailable env = negb (config_isMockMode env)
  /\ (isRealModeAvailable env = true
      <-> exists key, OPERATOR_PRIVATE_KEY env = Some key /\ key <> EmptyString)
  /\ (validateRealModeConfig env w = (Ok tt, w)
      <-> isRealModeAvailable env = true
          /\ exists key, OPERATOR_PUBLIC_KEY env = Some key /\ key <> EmptyString).
Proof.
  unfold isRealModeAvailable, validateRealModeConfig, config_isMockMode,
    config_operatorPrivateKey, config_operatorPublicKey, env_or, throw, ret.
  destruct (OPERATOR_PRIVATE_KEY env) as [priv|];
    [destruct (decide (priv = EmptyString)) as [-> | Hpriv]|];
    (destruct (OPERATOR_PUBLIC_KEY env) as [pub|];
     [destruct (decide (pub = EmptyString)) as [-> | Hpub]|]);
    cbn; (split; [reflexivity|]); split; split;
    try discriminate; try (intros [? [? ?]]; congruence);
    try (intros [_ [? [? ?]]]; congruence);
    try (intros [? _]; discriminate);
    eauto.
Qed.
